(** * Checkout and order life cycle of the e-commerce backend

    A shallow embedding of
    - [src/modules/orders/orders.service.ts]   (class [OrdersService]),
    - [src/admin/order-management.service.ts]  (class [OrderManagementService]),
    - [src/notifications/notification.service.ts] (class [NotificationService]),
    - the order, cart and product schemas and the order DTOs.

    Modelling conventions.
    - The collections are finite maps keyed by the document id; the cart
      collection is keyed by the owning user (the schema makes [userId]
      unique and every query selects by it).
    - An [async] method is a computation in the monad [M]: it threads the
      [World] (the four collections and the trace of externally visible
      effects) and may throw.  Nothing is rolled back on a throw: the world
      returned with an exception is the world at the throw.
    - What a call draws from its surroundings (the clock, [Math.random], the
      [ObjectId] of a new document) is passed in as an argument.
    - Quantities and stock levels are whole numbers ([Z]); the [timestamps]
      fields [createdAt]/[updatedAt] are left out.

    The services are modelled twice.
    - The first model takes ids as [ObjectId]s that were cast already, holds
      money as exact rationals ([Q]) with [toFixed] and [Math.round] by their
      ECMAScript definitions on the exact value, and writes documents without
      running the schemas' validators.  Its statements are about the control
      flow: what is checked, what is written, in which order, and what is
      sent.
    - The second model, [Runtime], holds money as binary64 [number]s
      (primitive floats) with [toFixed] and [Math.round] on them, casts the
      strings that stand for ids where the code does, with the errors the
      cast throws, and runs the validators of the order schema on [save] and
      the [ValidationPipe] on the checkout body.  The statements about the
      stored figures, about ids that are no ObjectIds and about documents
      the schema refuses are made on it. *)

From Stdlib Require Import QArith Qround Lqa.
From Corelib Require PrimFloat FloatOps SpecFloat.
From stdpp Require Import gmap strings list fin_maps pretty.

Local Open Scope string_scope.
Local Open Scope list_scope.

(** ** Data model *)

Abbreviation ObjectId := string.

(** [OrderStatus] of [dto/order.dto.ts] and [schemas/order.schema.ts]. *)
Inductive OrderStatus :=
  | PENDING | CONFIRMED | PROCESSING | SHIPPED | DELIVERED | CANCELLED.

#[global] Instance OrderStatus_eq_dec : EqDecision OrderStatus.
Proof. solve_decision. Defined.

(** The string value of each enum member. *)
Definition status_value (s : OrderStatus) : string :=
  match s with
  | PENDING => "pending"
  | CONFIRMED => "confirmed"
  | PROCESSING => "processing"
  | SHIPPED => "shipped"
  | DELIVERED => "delivered"
  | CANCELLED => "cancelled"
  end.

(** [schemas/product.schema.ts], the fields checkout populates. *)
Record Product := {
  name : string;
  price : Q;
  salePrice : option Q;
  isOnSale : bool;
  images : list string;
  stock : Z;
  isActive : bool;
}.

(** [schemas/cart.schema.ts]. *)
Record CartItem := {
  ci_productId : ObjectId;
  ci_quantity : Z;
  ci_size : option string;
  ci_color : option string;
}.

(** A cart item after [populate('items.productId', ...)]: the reference is
    replaced by the product document, or by [null] when it is gone. *)
Record PopulatedCartItem := {
  productId : option (ObjectId * Product);
  quantity : Z;
  size : option string;
  color : option string;
}.

(** [schemas/order.schema.ts]. *)
Record OrderItem := {
  oi_productId : ObjectId;
  oi_productName : string;
  oi_productImage : string;
  oi_price : Q;
  oi_quantity : Z;
  oi_size : option string;
  oi_color : option string;
}.

Record ShippingAddress := {
  fullName : string;
  phoneNumber : string;
  streetAddress : string;
  city : string;
  state : string;
  postalCode : string;
  country : string;
}.

Record Order := {
  o_userId : ObjectId;
  o_orderNumber : string;
  o_items : list OrderItem;
  o_subtotal : Q;
  o_tax : Q;
  o_total : Q;
  o_status : OrderStatus;
  o_shippingAddress : ShippingAddress;
  o_trackingNumber : option string;
  o_orderNotes : option string;
}.

(** [schemas/user.schema.ts], the fields checkout selects. *)
Record User := {
  firstName : string;
  lastName : string;
  email : string;
}.

(** DTOs of [dto/order.dto.ts]. *)
Record CreateOrderDto := {
  shippingAddress : option ShippingAddress;
  orderNotes : option string;
}.

Record UpdateOrderStatusDto := {
  status : OrderStatus;
  statusNote : option string;
}.

(** ** Notifications *)

(** [OrderNotification] of the notification service. *)
Record OrderNotification := {
  on_orderId : string;
  on_userId : string;
  on_customerName : string;
  on_totalAmount : Z;
  on_itemCount : nat;
  on_status : string;
}.

(** The object [notifyNewOrder] hands to [sendToAdmins]. *)
Record NewOrderPayload := {
  no_type : string;
  no_title : string;
  no_message : string;
  no_orderData : OrderNotification;
}.

(** The [orderData] argument of [sendOrderStatusUpdate]
    ([estimatedDelivery] is never passed by the order services). *)
Record OrderStatusData := {
  sd_orderId : string;
  sd_status : string;
  sd_trackingNumber : option string;
}.

(** The object [sendOrderStatusUpdate] hands to [sendToUser]. *)
Record OrderUpdatePayload := {
  ou_type : string;
  ou_title : string;
  ou_message : string;
  ou_orderId : string;
  ou_status : string;
  ou_trackingNumber : option string;
}.

(** ** The world and its effects *)

(** What an admin update writes with [$set]. *)
Record UpdateData := {
  ud_status : OrderStatus;
  ud_trackingNumber : option string;
  ud_adminNotes : option string;
}.

(** One entry per write to a collection and per message pushed to the
    WebSocket gateway, in the order in which they happen. *)
Inductive Effect :=
  | OrderSaved (id : ObjectId) (doc : Order)
  | OrderUpdated (id : ObjectId) (upd : UpdateData)
  | ProductStockSet (id : ObjectId) (newStock : Z)
  | CartItemsSet (userId : ObjectId) (items : list CartItem)
  | SentToAdmins (event : string) (payload : NewOrderPayload)
  | SentToUser (userId : ObjectId) (event : string) (payload : OrderUpdatePayload).

Record World := {
  products : gmap ObjectId Product;
  carts : gmap ObjectId (list CartItem);
  orders : gmap ObjectId Order;
  users : gmap ObjectId User;
  trace : list Effect;
}.

Inductive HttpException :=
  | BadRequestException (message : string)
  | NotFoundException (message : string)
  | OtherError (message : string).

Definition exn_message (e : HttpException) : string :=
  match e with
  | BadRequestException m | NotFoundException m | OtherError m => m
  end.

(** ** The monad of service methods *)

Definition M (A : Type) : Type := World -> (HttpException + A) * World.

Definition ret {A} (a : A) : M A := fun w => (inr a, w).

Definition throw {A} (e : HttpException) : M A := fun w => (inl e, w).

Definition bind {A B} (m : M A) (k : A -> M B) : M B :=
  fun w =>
    match m w with
    | (inl e, w') => (inl e, w')
    | (inr a, w') => k a w'
    end.

(** [try { m } catch (error) { throw h error }] *)
Definition try_catch {A} (m : M A) (h : HttpException -> HttpException) : M A :=
  fun w =>
    match m w with
    | (inl e, w') => (inl (h e), w')
    | (inr a, w') => (inr a, w')
    end.

Notation "'await' x <- m 'in' k" := (bind m (fun x => k))
  (at level 10, x name, m at level 100, k at level 200).

Definition get : M World := fun w => (inr w, w).

Definition emit (e : Effect) : M unit :=
  fun w =>
    (inr tt, {| products := products w; carts := carts w; orders := orders w;
                users := users w; trace := trace w ++ [e] |}).

(** [for (const x of xs) { body x }] *)
Fixpoint for_of {A} (xs : list A) (body : A -> M unit) : M unit :=
  match xs with
  | [] => ret tt
  | x :: xs' => await _ <- body x in for_of xs' body
  end.

(** ** Numbers *)

(** [Math.round(x)]: the integer closest to [x], ties towards +infinity. *)
Definition Math_round (x : Q) : Z := Qfloor (x + (1 # 2)).

(** [Number(x.toFixed(2))]: [toFixed] takes the integer [n] for which
    [n / 100 - x] is closest to zero, the larger [n] on a tie, after moving
    the sign of a negative [x] in front. *)
Definition toFixed2 (x : Q) : Q :=
  if Qlt_le_dec x 0
  then - (Qfloor ((- x) * 100 + (1 # 2)) # 100)
  else Qfloor (x * 100 + (1 # 2)) # 100.

(** [s.padStart(3, '0')] *)
Definition padStart3 (s : string) : string :=
  match String.length s with
  | 0%nat => "000" +:+ s
  | 1%nat => "00" +:+ s
  | 2%nat => "0" +:+ s
  | _ => s
  end.

Definition LF : string := String (Ascii.ascii_of_nat 10) EmptyString.

(** [a || b] on strings: the empty string is falsy. *)
Definition str_or (a b : string) : string :=
  if decide (a = "") then b else a.

(** [if (s)] on an optional string: [undefined] and [''] are falsy. *)
Definition truthy_str (s : option string) : option string :=
  match s with
  | Some t => if decide (t = "") then None else Some t
  | None => None
  end.

(** [x] as a condition, for an optional number: [undefined] and [0] are
    falsy. *)
Definition truthy_num (x : option Q) : bool :=
  match x with
  | Some v => negb (Qeq_bool v 0)
  | None => false
  end.

(** ** Collections *)

(** What the call takes from its surroundings. *)
Record Env := {
  Date_now : Z;
  Math_random : Q;
  new_ObjectId : ObjectId;
  Date_toISOString : string;
}.

Definition populate (ps : gmap ObjectId Product) (it : CartItem) : PopulatedCartItem :=
  {| productId := (fun p => (ci_productId it, p)) <$> ps !! ci_productId it;
     quantity := ci_quantity it;
     size := ci_size it;
     color := ci_color it |}.

(** [cartModel.findOne({ userId }).populate('items.productId', ...)] *)
Definition Cart_findOne_populate (userId : ObjectId) : M (option (list PopulatedCartItem)) :=
  await w <- get in
  ret (map (populate (products w)) <$> carts w !! userId).

(** [cartModel.findOneAndUpdate({ userId }, { $set: { items } })] *)
Definition Cart_findOneAndUpdate (userId : ObjectId) (items : list CartItem) : M unit :=
  fun w =>
    (inr tt, {| products := products w;
                carts := alter (fun _ => items) userId (carts w);
                orders := orders w; users := users w;
                trace := trace w ++ [CartItemsSet userId items] |}).

(** [productModel.findByIdAndUpdate(id, { stock })] *)
Definition set_stock (newStock : Z) (p : Product) : Product :=
  {| name := name p; price := price p; salePrice := salePrice p;
     isOnSale := isOnSale p; images := images p; stock := newStock;
     isActive := isActive p |}.

Definition Product_findByIdAndUpdate (id : ObjectId) (newStock : Z) : M unit :=
  fun w =>
    (inr tt, {| products := alter (set_stock newStock) id (products w);
                carts := carts w; orders := orders w; users := users w;
                trace := trace w ++ [ProductStockSet id newStock] |}).

(** [userModel.findById(id)] *)
Definition User_findById (id : ObjectId) : M (option User) :=
  await w <- get in ret (users w !! id).

(** [orderModel.findById(id)], for an id that is an [ObjectId] (the cast
    of a string that is none is in [Runtime]). *)
Definition Order_findById (id : ObjectId) : M (option Order) :=
  await w <- get in ret (orders w !! id).

(** [order.save()], for a document that passes the validators of the
    order schema (which are in [Runtime]). *)
Definition Order_save (id : ObjectId) (doc : Order) : M unit :=
  fun w =>
    (inr tt, {| products := products w; carts := carts w;
                orders := <[id := doc]> (orders w); users := users w;
                trace := trace w ++ [OrderSaved id doc] |}).

(** The effect of [$set: updateData] on an order document.  The schema has
    no [adminNotes] path, so that key of the update does not reach the
    document. *)
Definition applyUpdate (upd : UpdateData) (o : Order) : Order :=
  {| o_userId := o_userId o; o_orderNumber := o_orderNumber o;
     o_items := o_items o; o_subtotal := o_subtotal o; o_tax := o_tax o;
     o_total := o_total o;
     o_status := ud_status upd;
     o_shippingAddress := o_shippingAddress o;
     o_trackingNumber :=
       match ud_trackingNumber upd with
       | Some t => Some t
       | None => o_trackingNumber o
       end;
     o_orderNotes := o_orderNotes o |}.

(** [orderModel.findByIdAndUpdate(id, { $set: upd }, { new: true })] *)
Definition Order_findByIdAndUpdate (id : ObjectId) (upd : UpdateData) : M (option Order) :=
  fun w =>
    let orders' := alter (applyUpdate upd) id (orders w) in
    (inr (orders' !! id),
     {| products := products w; carts := carts w; orders := orders';
        users := users w; trace := trace w ++ [OrderUpdated id upd] |}).

(** [orderModel.find({ _id: { $in: ids } })], for ids that are
    [ObjectId]s as [toString] writes them. *)
Definition Order_find_in (ids : list ObjectId) : M (list (ObjectId * Order)) :=
  await w <- get in
  ret (filter (fun d => bool_decide (d.1 ∈ ids)) (map_to_list (orders w))).

(** [orderModel.updateMany({ _id: { $in: ids } }, { $set: upd })], for
    ids as above; the result is [modifiedCount].  The schema has
    [timestamps: true], so the update also sets [updatedAt] and every
    matched document counts as modified. *)
Definition Order_updateMany (ids : list ObjectId) (upd : UpdateData) : M nat :=
  fun w =>
    let hit := filter (fun d => bool_decide (d.1 ∈ ids)) (map_to_list (orders w)) in
    (inr (length hit),
     {| products := products w; carts := carts w;
        orders := foldr (fun id m => alter (applyUpdate upd) id m) (orders w) ids;
        users := users w;
        trace := trace w ++ map (fun d => OrderUpdated d.1 upd) hit |}).

(** ** NotificationService *)

Module NotificationService.

Definition statusMessages (status : string) : option string :=
  if decide (status = "pending")
  then Some "Your order has been received and is being processed."
  else if decide (status = "confirmed")
  then Some "Your order has been confirmed and is being prepared."
  else if decide (status = "shipped")
  then Some "Your order has been shipped and is on its way!"
  else if decide (status = "delivered")
  then Some "Your order has been delivered successfully."
  else if decide (status = "cancelled")
  then Some "Your order has been cancelled."
  else None.

(** The [notification] object of [sendOrderStatusUpdate]. *)
Definition statusNotification (orderData : OrderStatusData) : OrderUpdatePayload :=
  {| ou_type := "ORDER_UPDATE";
     ou_title := "Order Status Update";
     ou_message :=
       match statusMessages (sd_status orderData) with
       | Some m => m
       | None => "Your order status: " +:+ sd_status orderData
       end;
     ou_orderId := sd_orderId orderData;
     ou_status := sd_status orderData;
     ou_trackingNumber := sd_trackingNumber orderData |}.

Definition sendOrderStatusUpdate (userId : string) (orderData : OrderStatusData) : M unit :=
  let notification := statusNotification orderData in
  emit (SentToUser userId "order_status_update" notification).

(** The [notification] object of [notifyNewOrder]. *)
Definition newOrderNotice (orderData : OrderNotification) : NewOrderPayload :=
  {| no_type := "NEW_ORDER";
     no_title := "New Order Received";
     no_message :=
       "New order from " +:+ on_customerName orderData +:+ " - $"
       +:+ pretty (on_totalAmount orderData);
     no_orderData := orderData |}.

Definition notifyNewOrder (orderData : OrderNotification) : M unit :=
  let notification := newOrderNotice orderData in
  emit (SentToAdmins "new_order_notification" notification).

End NotificationService.

(** ** OrdersService *)

Module OrdersService.

(** What [getOrderById] returns. *)
Record OrderView := {
  v_id : ObjectId;
  v_orderNumber : string;
  v_status : OrderStatus;
  v_items : list OrderItem;
  v_subtotal : Q;
  v_tax : Q;
  v_total : Q;
  v_shippingAddress : ShippingAddress;
  v_orderNotes : option string;
}.

(** What [updateOrderStatus] returns. *)
Record StatusView := {
  sv_id : ObjectId;
  sv_orderNumber : string;
  sv_status : OrderStatus;
}.

Record StockUpdate := {
  su_productId : ObjectId;
  su_newStock : Z;
}.

(** The three accumulators of the validation loop. *)
Record Totals := {
  orderItems : list OrderItem;
  subtotal : Q;
  stockUpdates : list StockUpdate;
}.

Definition generateOrderNumber (env : Env) : string :=
  let timestamp := pretty (Date_now env) in
  let random := padStart3 (pretty (Qfloor (Math_random env * 1000))) in
  "ORD-" +:+ timestamp +:+ "-" +:+ random.

(** [product.isOnSale && product.salePrice ? product.salePrice : product.price] *)
Definition itemPrice (product : Product) : Q :=
  if isOnSale product && truthy_num (salePrice product)
  then default 0%Q (salePrice product)
  else price product.

Definition unavailable (productName : string) : HttpException :=
  BadRequestException ("Product " +:+ productName +:+ " is no longer available").

Definition insufficient (product : Product) (requested : Z) : HttpException :=
  BadRequestException
    ("Insufficient stock for " +:+ name product +:+ ". Available: "
     +:+ pretty (stock product) +:+ ", Requested: " +:+ pretty requested).

(** One turn of [for (const cartItem of cart.items)]. *)
Definition checkItem (acc : Totals) (cartItem : PopulatedCartItem) : HttpException + Totals :=
  match productId cartItem with
  | None => inl (unavailable "Unknown")
  | Some (_id, product) =>
      if negb (isActive product)
      then inl (unavailable (str_or (name product) "Unknown"))
      else if (stock product <? quantity cartItem)%Z
      then inl (insufficient product (quantity cartItem))
      else
        let itemTotal := (itemPrice product * inject_Z (quantity cartItem))%Q in
        inr {| orderItems :=
                 orderItems acc ++
                 [ {| oi_productId := _id;
                      oi_productName := name product;
                      oi_productImage := str_or (default "" (head (images product))) "";
                      oi_price := itemPrice product;
                      oi_quantity := quantity cartItem;
                      oi_size := size cartItem;
                      oi_color := color cartItem |} ];
               subtotal := (subtotal acc + itemTotal)%Q;
               stockUpdates :=
                 stockUpdates acc ++
                 [ {| su_productId := _id;
                      su_newStock := (stock product - quantity cartItem)%Z |} ] |}
  end.

Fixpoint checkItems (items : list PopulatedCartItem) (acc : Totals) : HttpException + Totals :=
  match items with
  | [] => inr acc
  | cartItem :: rest =>
      match checkItem acc cartItem with
      | inl e => inl e
      | inr acc' => checkItems rest acc'
      end
  end.

Definition demoAddress : ShippingAddress :=
  {| fullName := "Demo User";
     phoneNumber := "+1-555-0123";
     streetAddress := "123 Main Street";
     city := "New York";
     state := "NY";
     postalCode := "10001";
     country := "US" |}.

Definition getOrderById (userId orderId : ObjectId) : M OrderView :=
  try_catch
    (await w <- get in
     match orders w !! orderId with
     | Some order =>
         if decide (o_userId order = userId)
         then ret {| v_id := orderId;
                     v_orderNumber := o_orderNumber order;
                     v_status := o_status order;
                     v_items := o_items order;
                     v_subtotal := o_subtotal order;
                     v_tax := o_tax order;
                     v_total := o_total order;
                     v_shippingAddress := o_shippingAddress order;
                     v_orderNotes := o_orderNotes order |}
         else throw (NotFoundException "Order not found")
     | None => throw (NotFoundException "Order not found")
     end)
    (fun error =>
       match error with
       | NotFoundException _ => error
       | _ => BadRequestException ("Failed to get order: " +:+ exn_message error)
       end).

(** [const taxRate = 0.1; const tax = subtotal * taxRate;
    const total = subtotal + tax;] *)
Definition taxRate : Q := 1 # 10.
Definition tax_of (subtotal : Q) : Q := (subtotal * taxRate)%Q.
Definition total_of (subtotal : Q) : Q := (subtotal + tax_of subtotal)%Q.

(** The document built by [new this.orderModel({ ... })]. *)
Definition newOrder (env : Env) (userId : ObjectId) (createOrderDto : CreateOrderDto)
    (acc : Totals) : Order :=
  {| o_userId := userId;
     o_orderNumber := generateOrderNumber env;
     o_items := orderItems acc;
     o_subtotal := toFixed2 (subtotal acc);
     o_tax := toFixed2 (tax_of (subtotal acc));
     o_total := toFixed2 (total_of (subtotal acc));
     o_status := PENDING;
     o_shippingAddress := default demoAddress (shippingAddress createOrderDto);
     o_trackingNumber := None;
     o_orderNotes :=
       Some (str_or (default "" (orderNotes createOrderDto))
                    "Order placed via demo cart") |}.

(** The argument of [notifyNewOrder]. *)
Definition newOrderNotification (savedOrder_id userId : ObjectId) (user : User)
    (acc : Totals) : OrderNotification :=
  {| on_orderId := savedOrder_id;
     on_userId := userId;
     on_customerName := firstName user +:+ " " +:+ lastName user;
     on_totalAmount := Math_round (total_of (subtotal acc));
     on_itemCount := length (orderItems acc);
     on_status := status_value PENDING |}.

Definition createOrderFromCart (env : Env) (userId : ObjectId) (createOrderDto : CreateOrderDto)
  : M OrderView :=
  try_catch
    (await cart <- Cart_findOne_populate userId in
     match cart with
     | None => throw (BadRequestException "Cart is empty. Cannot create order.")
     | Some [] => throw (BadRequestException "Cart is empty. Cannot create order.")
     | Some items =>
         match checkItems items {| orderItems := []; subtotal := 0; stockUpdates := [] |} with
         | inl e => throw e
         | inr acc =>
             let order := newOrder env userId createOrderDto acc in
             let savedOrder_id := new_ObjectId env in
             await _ <- Order_save savedOrder_id order in
             await user <- User_findById userId in
             await _ <-
               match user with
               | Some user =>
                   NotificationService.notifyNewOrder
                     (newOrderNotification savedOrder_id userId user acc)
               | None => ret tt
               end in
             await _ <-
               for_of (stockUpdates acc)
                 (fun stockUpdate =>
                    Product_findByIdAndUpdate (su_productId stockUpdate) (su_newStock stockUpdate)) in
             await _ <- Cart_findOneAndUpdate userId [] in
             getOrderById userId savedOrder_id
         end
     end)
    (fun error =>
       match error with
       | BadRequestException _ | NotFoundException _ => error
       | _ => BadRequestException ("Failed to create order: " +:+ exn_message error)
       end).

Definition getValidStatusTransitions (currentStatus : OrderStatus) : list OrderStatus :=
  match currentStatus with
  | PENDING => [CONFIRMED; CANCELLED]
  | CONFIRMED => [PROCESSING; CANCELLED]
  | PROCESSING => [SHIPPED; CANCELLED]
  | SHIPPED => [DELIVERED]
  | DELIVERED => []
  | CANCELLED => []
  end.

Definition set_status (s : OrderStatus) (o : Order) : Order :=
  {| o_userId := o_userId o; o_orderNumber := o_orderNumber o;
     o_items := o_items o; o_subtotal := o_subtotal o; o_tax := o_tax o;
     o_total := o_total o; o_status := s;
     o_shippingAddress := o_shippingAddress o;
     o_trackingNumber := o_trackingNumber o;
     o_orderNotes := o_orderNotes o |}.

Definition set_orderNotes (n : string) (o : Order) : Order :=
  {| o_userId := o_userId o; o_orderNumber := o_orderNumber o;
     o_items := o_items o; o_subtotal := o_subtotal o; o_tax := o_tax o;
     o_total := o_total o; o_status := o_status o;
     o_shippingAddress := o_shippingAddress o;
     o_trackingNumber := o_trackingNumber o;
     o_orderNotes := Some n |}.

(** The line [updateOrderStatus] adds to [orderNotes]. *)
Definition statusLine (env : Env) (s : OrderStatus) (note : string) : string :=
  LF +:+ "[" +:+ Date_toISOString env +:+ "] Status changed to "
  +:+ status_value s +:+ ": " +:+ note.

(** The two assignments to [order] between the check and [save]. *)
Definition applyStatus (env : Env) (updateOrderStatusDto : UpdateOrderStatusDto)
    (order : Order) : Order :=
  let order := set_status (status updateOrderStatusDto) order in
  match truthy_str (statusNote updateOrderStatusDto) with
  | Some note =>
      set_orderNotes
        (str_or (default "" (o_orderNotes order)) ""
         +:+ statusLine env (status updateOrderStatusDto) note)
        order
  | None => order
  end.

Definition updateOrderStatus (env : Env) (orderId : ObjectId)
    (updateOrderStatusDto : UpdateOrderStatusDto) : M StatusView :=
  try_catch
    (await found <- Order_findById orderId in
     match found with
     | None => throw (NotFoundException "Order not found")
     | Some order =>
         let validTransitions := getValidStatusTransitions (o_status order) in
         if negb (bool_decide (status updateOrderStatusDto ∈ validTransitions))
         then throw (BadRequestException
                       ("Cannot change status from " +:+ status_value (o_status order)
                        +:+ " to " +:+ status_value (status updateOrderStatusDto)))
         else
           let order := applyStatus env updateOrderStatusDto order in
           await _ <- Order_save orderId order in
           await _ <-
             NotificationService.sendOrderStatusUpdate (o_userId order)
               {| sd_orderId := orderId;
                  sd_status := status_value (o_status order);
                  sd_trackingNumber := None |} in
           ret {| sv_id := orderId;
                  sv_orderNumber := o_orderNumber order;
                  sv_status := o_status order |}
     end)
    (fun error =>
       match error with
       | NotFoundException _ | BadRequestException _ => error
       | _ => BadRequestException ("Failed to update order status: " +:+ exn_message error)
       end).

(** An order document whose [userId] was populated. *)
Record PopulatedOrder := {
  po_order : Order;
  po_userId : option User;
}.

(** Admin: [getAnyOrderById], the lookup without an ownership check. *)
Definition getAnyOrderById (orderId : ObjectId) : M PopulatedOrder :=
  try_catch
    (await w <- get in
     match orders w !! orderId with
     | Some order =>
         ret {| po_order := order; po_userId := users w !! o_userId order |}
     | None => throw (NotFoundException "Order not found")
     end)
    (fun error =>
       match error with
       | NotFoundException _ => error
       | _ => BadRequestException ("Failed to get order: " +:+ exn_message error)
       end).

(** What [getOrderStatistics] returns ([recentOrders], which is ordered by
    [createdAt], is left out with the time stamps). *)
Record Statistics := {
  totalOrders : nat;
  pendingOrders : nat;
  processingOrders : nat;
  shippedOrders : nat;
  deliveredOrders : nat;
  cancelledOrders : nat;
  totalRevenue : Q;
}.

(** [orderModel.countDocuments({ status })] *)
Definition countDocuments (s : OrderStatus) (w : World) : nat :=
  length (filter (fun d => bool_decide (o_status d.2 = s)) (map_to_list (orders w))).

(** [$match: { status: 'delivered' }, $group: { totalRevenue: { $sum: '$total' } }];
    without a delivered order the aggregation is empty and [|| 0] gives 0. *)
Definition revenueResult (w : World) : Q :=
  foldr (fun d s => o_total d.2 + s)%Q 0%Q
        (filter (fun d => bool_decide (o_status d.2 = DELIVERED)) (map_to_list (orders w))).

Definition getOrderStatistics : M Statistics :=
  try_catch
    (await w <- get in
     ret {| totalOrders := length (map_to_list (orders w));
            pendingOrders := countDocuments PENDING w;
            processingOrders := countDocuments PROCESSING w;
            shippedOrders := countDocuments SHIPPED w;
            deliveredOrders := countDocuments DELIVERED w;
            cancelledOrders := countDocuments CANCELLED w;
            totalRevenue := toFixed2 (revenueResult w) |})
    (fun error =>
       BadRequestException ("Failed to get order statistics: " +:+ exn_message error)).

End OrdersService.

(** ** OrderManagementService *)

Module OrderManagementService.

Record UpdateResult := {
  ur_order : option Order;
  ur_message : string;
}.

Record BulkOrderUpdate := {
  orderIds : list ObjectId;
  bu_status : OrderStatus;
  bu_trackingNumber : option string;
  bu_notes : option string;
}.

Record BulkResult := {
  br_success : bool;
  br_affectedOrders : nat;
  br_status : OrderStatus;
  br_message : string;
}.

(** [doc.userId._id.toString()] on a document whose [userId] was
    populated: the populated value is [null] when the user is gone. *)
Definition populated_userId (o : Order) : M string :=
  await w <- get in
  match users w !! o_userId o with
  | Some _ => ret (o_userId o)
  | None => throw (OtherError "Cannot read properties of null (reading '_id')")
  end.

Definition updateOrderStatus (orderId : ObjectId) (status : OrderStatus)
    (trackingNumber adminNotes : option string) : M UpdateResult :=
  await order <- Order_findById orderId in
  match order with
  | None => throw (NotFoundException "Order not found")
  | Some _ =>
      let updateData :=
        {| ud_status := status;
           ud_trackingNumber := truthy_str trackingNumber;
           ud_adminNotes := truthy_str adminNotes |} in
      await updatedOrder <- Order_findByIdAndUpdate orderId updateData in
      await _ <-
        match updatedOrder with
        | Some updatedOrder =>
            await userId <- populated_userId updatedOrder in
            NotificationService.sendOrderStatusUpdate userId
              {| sd_orderId := orderId;
                 sd_status := status_value (o_status updatedOrder);
                 sd_trackingNumber := o_trackingNumber updatedOrder |}
        | None => ret tt
        end in
      ret {| ur_order := updatedOrder;
             ur_message := "Order status updated to " +:+ status_value status |}
  end.

Definition bulkUpdateOrders (bulkUpdate : BulkOrderUpdate) : M BulkResult :=
  let status := bu_status bulkUpdate in
  let trackingNumber := bu_trackingNumber bulkUpdate in
  match orderIds bulkUpdate with
  | [] => throw (BadRequestException "Order IDs are required")
  | _ =>
      let updateData :=
        {| ud_status := status;
           ud_trackingNumber := truthy_str trackingNumber;
           ud_adminNotes := truthy_str (bu_notes bulkUpdate) |} in
      await found <- Order_find_in (orderIds bulkUpdate) in
      await modifiedCount <- Order_updateMany (orderIds bulkUpdate) updateData in
      await _ <-
        for_of found
          (fun d =>
             await userId <- populated_userId d.2 in
             NotificationService.sendOrderStatusUpdate userId
               {| sd_orderId := d.1;
                  sd_status := status_value status;
                  sd_trackingNumber := trackingNumber |}) in
      ret {| br_success := true;
             br_affectedOrders := modifiedCount;
             br_status := status;
             br_message :=
               pretty modifiedCount +:+ " orders updated to " +:+ status_value status |}
  end.

End OrderManagementService.

(** ** OrdersController *)

Module OrdersController.

(** The body of a response: [{ success, message, data }]. *)
Record Response (A : Type) := {
  success : bool;
  message : string;
  data : option A;
}.
Arguments success {A} _.
Arguments message {A} _.
Arguments data {A} _.

(** [PUT orders/admin/:id/status]: the handler catches whatever the service
    throws and answers with [success: false]. *)
Definition updateOrderStatus (env : Env) (orderId : ObjectId)
    (updateOrderStatusDto : UpdateOrderStatusDto) : M (Response OrdersService.StatusView) :=
  fun w =>
    match OrdersService.updateOrderStatus env orderId updateOrderStatusDto w with
    | (inr result, w') =>
        (inr {| success := true;
                message := "Order status updated successfully";
                data := Some result |}, w')
    | (inl error, w') =>
        (inr {| success := false; message := exn_message error; data := None |}, w')
    end.

(** [GET orders/my-orders/:id] *)
Definition getMyOrder (userId orderId : ObjectId) : M (Response OrdersService.OrderView) :=
  fun w =>
    match OrdersService.getOrderById userId orderId w with
    | (inr order, w') =>
        (inr {| success := true;
                message := "Order details retrieved successfully";
                data := Some order |}, w')
    | (inl error, w') =>
        (inr {| success := false; message := exn_message error; data := None |}, w')
    end.

(** [GET orders/admin/:id] *)
Definition getOrderDetails (orderId : ObjectId) : M (Response OrdersService.PopulatedOrder) :=
  fun w =>
    match OrdersService.getAnyOrderById orderId w with
    | (inr order, w') =>
        (inr {| success := true;
                message := "Order details retrieved successfully";
                data := Some order |}, w')
    | (inl error, w') =>
        (inr {| success := false; message := exn_message error; data := None |}, w')
    end.

(** What [POST orders/checkout] answers; [estimatedDelivery] is the locale
    rendering of the day five days ahead, passed in. *)
Record CheckoutResponse := {
  c_success : bool;
  c_message : string;
  c_data : OrdersService.OrderView;
  c_orderNumber : string;
  c_total : Q;
  c_estimatedDelivery : string;
}.

(** [POST orders/checkout]: no [try]; what the service throws goes on to the
    framework. *)
Definition checkout (env : Env) (estimatedDelivery : string) (userId : ObjectId)
    (createOrderDto : CreateOrderDto) : M CheckoutResponse :=
  await order <- OrdersService.createOrderFromCart env userId createOrderDto in
  ret {| c_success := true;
         c_message := "Order created successfully";
         c_data := order;
         c_orderNumber := OrdersService.v_orderNumber order;
         c_total := OrdersService.v_total order;
         c_estimatedDelivery := estimatedDelivery |}.

End OrdersController.

(** ** CartService *)

Module CartService.

(** The quantity of a request is a whole number. *)
Record AddToCartDto := {
  a_productId : ObjectId;
  a_quantity : Z;
  a_size : option string;
  a_color : option string;
}.

Record RemoveFromCartDto := {
  r_productId : ObjectId;
  r_size : option string;
  r_color : option string;
}.

(** A line of what [getCart] returns.  A number that may be [NaN] is an
    [option Q], with [None] for [NaN]. *)
Record CartLine := {
  l_product : option (ObjectId * Product);
  l_quantity : Z;
  l_size : option string;
  l_color : option string;
  l_itemTotal : option Q;
}.

Record CartView := {
  cv_items : list CartLine;
  cv_itemCount : Z;
  cv_subtotal : option Q;
  cv_tax : option Q;
  cv_total : option Q;
}.

(** [product?.isOnSale ? product.salePrice : product?.price || 0]; an absent
    sale price is [undefined], which turns the product into [NaN]. *)
Definition linePrice (product : option (ObjectId * Product)) : option Q :=
  match product with
  | Some (_, p) =>
      if isOnSale p then salePrice p
      else Some (if Qeq_bool (price p) 0 then 0%Q else price p)
  | None => Some 0%Q
  end.

Definition cartLine (item : PopulatedCartItem) : CartLine :=
  {| l_product := productId item;
     l_quantity := quantity item;
     l_size := size item;
     l_color := color item;
     l_itemTotal :=
       (fun price => price * inject_Z (quantity item))%Q <$> linePrice (productId item) |}.

(** [a + b] on numbers that may be [NaN]. *)
Definition plus_nan (a b : option Q) : option Q :=
  match a, b with
  | Some x, Some y => Some (x + y)%Q
  | _, _ => None
  end.

(** [subtotal] after the [map] over the items: [subtotal += itemTotal] once
    per line, in order. *)
Definition linesSubtotal (lines : list CartLine) : option Q :=
  foldl (fun subtotal line => plus_nan subtotal (l_itemTotal line)) (Some 0%Q) lines.

(** What [getCart] builds from the populated items of a cart. *)
Definition cartView (items : list PopulatedCartItem) : CartView :=
  let lines := map cartLine items in
  let subtotal := linesSubtotal lines in
  let tax := (fun s => s * (1 # 10))%Q <$> subtotal in
  let total := plus_nan subtotal tax in
  {| cv_items := lines;
     cv_itemCount := foldl (fun count line => count + l_quantity line)%Z 0%Z lines;
     cv_subtotal := toFixed2 <$> subtotal;
     cv_tax := toFixed2 <$> tax;
     cv_total := toFixed2 <$> total |}.

Definition getCart (userId : ObjectId) : M CartView :=
  await cart <- Cart_findOne_populate userId in
  match cart with
  | None =>
      ret {| cv_items := []; cv_itemCount := 0;
             cv_subtotal := Some 0%Q; cv_tax := Some 0%Q; cv_total := Some 0%Q |}
  | Some items => ret (cartView items)
  end.

Definition getCartItemCount (userId : ObjectId) : M Z :=
  await w <- get in
  match carts w !! userId with
  | None => ret 0%Z
  | Some items => ret (foldl (fun count item => count + ci_quantity item)%Z 0%Z items)
  end.

(** [cart.save()], for a cart that passes the validators of the cart
    schema: every line has a quantity of at least 1. *)
Definition Cart_save (userId : ObjectId) (items : list CartItem) : M unit :=
  fun w =>
    (inr tt, {| products := products w;
                carts := <[userId := items]> (carts w);
                orders := orders w; users := users w;
                trace := trace w ++ [CartItemsSet userId items] |}).

(** The test of [cart.items.find] and of the [filter] in [removeFromCart]. *)
Definition sameLine (productId : ObjectId) (size color : option string) (item : CartItem) : bool :=
  bool_decide (ci_productId item = productId)
  && bool_decide (ci_size item = size)
  && bool_decide (ci_color item = color).

(** [existingItem.quantity += quantity] on the first line [find] returns. *)
Fixpoint addQuantity (productId : ObjectId) (size color : option string) (quantity : Z)
    (items : list CartItem) : option (list CartItem) :=
  match items with
  | [] => None
  | item :: rest =>
      if sameLine productId size color item
      then Some ({| ci_productId := ci_productId item;
                    ci_quantity := (ci_quantity item + quantity)%Z;
                    ci_size := ci_size item;
                    ci_color := ci_color item |} :: rest)
      else cons item <$> addQuantity productId size color quantity rest
  end.

Definition addToCart (userId : ObjectId) (addToCartDto : AddToCartDto) : M CartView :=
  let productId := a_productId addToCartDto in
  let quantity := a_quantity addToCartDto in
  let size := a_size addToCartDto in
  let color := a_color addToCartDto in
  await w <- get in
  match products w !! productId with
  | None => throw (NotFoundException "Product not found")
  | Some product =>
      if negb (isActive product)
      then throw (NotFoundException "Product not found")
      else if (stock product <? quantity)%Z
      then throw (BadRequestException
                    ("Only " +:+ pretty (stock product) +:+ " items available"))
      else
        let items := default [] (carts w !! userId) in
        let items :=
          match addQuantity productId size color quantity items with
          | Some merged => merged
          | None =>
              items ++ [ {| ci_productId := productId; ci_quantity := quantity;
                            ci_size := size; ci_color := color |} ]
          end in
        await _ <- Cart_save userId items in
        getCart userId
  end.

Definition removeFromCart (userId : ObjectId) (removeFromCartDto : RemoveFromCartDto)
  : M CartView :=
  await w <- get in
  match carts w !! userId with
  | None => throw (NotFoundException "Cart not found")
  | Some items =>
      let items :=
        filter (fun item =>
                  negb (sameLine (r_productId removeFromCartDto) (r_size removeFromCartDto)
                                 (r_color removeFromCartDto) item))
               items in
      await _ <- Cart_save userId items in
      getCart userId
  end.

(** [findOneAndUpdate({ userId }, { $set: { items: [] } }, { upsert: true })] *)
Definition clearCart (userId : ObjectId) : M string :=
  await _ <- Cart_save userId [] in
  ret "Cart cleared successfully".

End CartService.

(** ** WebSocketGatewayHandler: the registry of clients and sessions *)

Module WebSocketGateway.

(** The two [Map]s of the gateway.  [connectedClients] is looked at through
    its keys only; [userSessions] is iterated, so it keeps its entries in
    insertion order. *)
Record Registry := {
  connectedClients : gset string;
  userSessions : list (string * string);
}.

(** [Map.prototype.set]: an existing key keeps its place. *)
Fixpoint Map_set (key value : string) (m : list (string * string)) : list (string * string) :=
  match m with
  | [] => [(key, value)]
  | (k, v) :: rest =>
      if decide (k = key) then (k, value) :: rest else (k, v) :: Map_set key value rest
  end.

(** [Map.prototype.delete] *)
Definition Map_delete (key : string) (m : list (string * string)) : list (string * string) :=
  filter (fun e => negb (bool_decide (e.1 = key))) m.

Definition handleConnection (clientId : string) (g : Registry) : Registry :=
  {| connectedClients := {[clientId]} ∪ connectedClients g;
     userSessions := userSessions g |}.

(** The loop of [handleDisconnect]: the first session of the socket, if
    any. *)
Definition sessionOf (clientId : string) (m : list (string * string)) : option string :=
  fst <$> head (filter (fun e => bool_decide (e.2 = clientId)) m).

Definition handleDisconnect (clientId : string) (g : Registry) : Registry :=
  {| connectedClients := connectedClients g ∖ {[clientId]};
     userSessions :=
       match sessionOf clientId (userSessions g) with
       | Some userId => Map_delete userId (userSessions g)
       | None => userSessions g
       end |}.

(** [handleJoinUserRoom], as far as the registry goes. *)
Definition handleJoinUserRoom (clientId userId : string) (g : Registry) : Registry :=
  {| connectedClients := connectedClients g;
     userSessions := Map_set userId clientId (userSessions g) |}.

Definition getConnectedClientsCount (g : Registry) : nat := base.size (connectedClients g).

Definition getActiveUsersCount (g : Registry) : nat := length (userSessions g).

Definition isUserOnline (userId : string) (g : Registry) : bool :=
  bool_decide (userId ∈ map fst (userSessions g)).

End WebSocketGateway.

(** ** Vocabulary of the statements *)

(** The error taxonomy of the specification, as the exceptions the services
    throw. *)
Definition CartEmpty : HttpException :=
  BadRequestException "Cart is empty. Cannot create order.".

Definition ProductUnavailable (productName : string) : HttpException :=
  OrdersService.unavailable productName.

Definition InsufficientStock (product : Product) (requested : Z) : HttpException :=
  OrdersService.insufficient product requested.

Definition OrderNotFound : HttpException := NotFoundException "Order not found".

Definition InvalidTransition (current requested : OrderStatus) : HttpException :=
  BadRequestException
    ("Cannot change status from " +:+ status_value current
     +:+ " to " +:+ status_value requested).

(** The transition table of the specification (section 4.2). *)
Definition allowed (current next : OrderStatus) : Prop :=
  match current, next with
  | PENDING, CONFIRMED | PENDING, CANCELLED
  | CONFIRMED, PROCESSING | CONFIRMED, CANCELLED
  | PROCESSING, SHIPPED | PROCESSING, CANCELLED
  | SHIPPED, DELIVERED => True
  | _, _ => False
  end.

(** Preconditions of checkout, on the cart entries as stored. *)
Definition cart_missing_or_empty (w : World) (userId : ObjectId) : Prop :=
  carts w !! userId = None \/ carts w !! userId = Some [].

Definition entry_unavailable (w : World) (it : CartItem) : Prop :=
  match products w !! ci_productId it with
  | Some p => isActive p = false
  | None => True
  end.

Definition entry_insufficient (w : World) (it : CartItem) : Prop :=
  exists p, products w !! ci_productId it = Some p /\ (stock p < ci_quantity it)%Z.

Definition entry_valid (w : World) (it : CartItem) : Prop :=
  exists p, products w !! ci_productId it = Some p
            /\ isActive p = true /\ (ci_quantity it <= stock p)%Z.

(** The name checkout reports for an unavailable entry. *)
Definition reported_name (w : World) (it : CartItem) : string :=
  match products w !! ci_productId it with
  | Some p => str_or (name p) "Unknown"
  | None => "Unknown"
  end.

Definition checkout_precondition_fails (w : World) (userId : ObjectId) : Prop :=
  cart_missing_or_empty w userId
  \/ exists items, carts w !! userId = Some items
                   /\ Exists (fun it => entry_unavailable w it \/ entry_insufficient w it) items.

(** Sum of price times quantity over the items of an order. *)
Definition line_total (oi : OrderItem) : Q := (oi_price oi * inject_Z (oi_quantity oi))%Q.

Definition items_sum (items : list OrderItem) : Q :=
  foldr (fun oi s => line_total oi + s)%Q 0%Q items.

(** The frozen unit price: the sale price when the product is flagged
    on-sale and has a non-zero sale price, the base price otherwise. *)
Definition frozen_price (p : Product) : Q :=
  match salePrice p with
  | Some sp => if isOnSale p && negb (Qeq_bool sp 0) then sp else price p
  | None => price p
  end.

(** The order item and the stock write checkout derives from a cart entry
    whose product is [p]. *)
Definition snapshot (it : CartItem) (p : Product) : OrderItem :=
  {| oi_productId := ci_productId it;
     oi_productName := name p;
     oi_productImage := default "" (head (images p));
     oi_price := frozen_price p;
     oi_quantity := ci_quantity it;
     oi_size := ci_size it;
     oi_color := ci_color it |}.

Definition snapshot_of (w : World) (it : CartItem) (oi : OrderItem) : Prop :=
  exists p, products w !! ci_productId it = Some p /\ oi = snapshot it p.

Definition stock_write_of (w : World) (it : CartItem) (su : OrdersService.StockUpdate) : Prop :=
  exists p, products w !! ci_productId it = Some p
            /\ su = {| OrdersService.su_productId := ci_productId it;
                       OrdersService.su_newStock := (stock p - ci_quantity it)%Z |}.

Definition stock_effect (su : OrdersService.StockUpdate) : Effect :=
  ProductStockSet (OrdersService.su_productId su) (OrdersService.su_newStock su).

Definition apply_stock (sus : list OrdersService.StockUpdate) (ps : gmap ObjectId Product)
  : gmap ObjectId Product :=
  foldl (fun m su => alter (set_stock (OrdersService.su_newStock su))
                           (OrdersService.su_productId su) m) ps sus.

(** The admin notice of a checkout: sent when the user's record is found. *)
Definition admin_notice (env : Env) (userId : ObjectId) (acc : OrdersService.Totals)
    (w : World) : list Effect :=
  match users w !! userId with
  | Some user =>
      [SentToAdmins "new_order_notification"
         (NotificationService.newOrderNotice
            (OrdersService.newOrderNotification (new_ObjectId env) userId user acc))]
  | None => []
  end.

(** The world a checkout leaves behind when validation yields [acc]. *)
Definition after_checkout (env : Env) (userId : ObjectId) (dto : CreateOrderDto)
    (acc : OrdersService.Totals) (w : World) : World :=
  {| products := apply_stock (OrdersService.stockUpdates acc) (products w);
     carts := alter (fun _ => []) userId (carts w);
     orders := <[new_ObjectId env := OrdersService.newOrder env userId dto acc]> (orders w);
     users := users w;
     trace := trace w
              ++ [OrderSaved (new_ObjectId env) (OrdersService.newOrder env userId dto acc)]
              ++ admin_notice env userId acc w
              ++ map stock_effect (OrdersService.stockUpdates acc)
              ++ [CartItemsSet userId []] |}.

Definition view_of (id : ObjectId) (order : Order) : OrdersService.OrderView :=
  {| OrdersService.v_id := id;
     OrdersService.v_orderNumber := o_orderNumber order;
     OrdersService.v_status := o_status order;
     OrdersService.v_items := o_items order;
     OrdersService.v_subtotal := o_subtotal order;
     OrdersService.v_tax := o_tax order;
     OrdersService.v_total := o_total order;
     OrdersService.v_shippingAddress := o_shippingAddress order;
     OrdersService.v_orderNotes := o_orderNotes order |}.

Definition init_totals : OrdersService.Totals :=
  {| OrdersService.orderItems := [];
     OrdersService.subtotal := 0;
     OrdersService.stockUpdates := [] |}.

(** The world a status update leaves behind when it is accepted. *)
Definition after_status_update (env : Env) (orderId : ObjectId) (dto : UpdateOrderStatusDto)
    (o : Order) (w : World) : World :=
  let o' := OrdersService.applyStatus env dto o in
  {| products := products w;
     carts := carts w;
     orders := <[orderId := o']> (orders w);
     users := users w;
     trace := trace w
              ++ [OrderSaved orderId o';
                  SentToUser (o_userId o') "order_status_update"
                    (NotificationService.statusNotification
                       {| sd_orderId := orderId;
                          sd_status := status_value (o_status o');
                          sd_trackingNumber := None |})] |}.

(** Status updates one after the other, each with the note [note] gives. *)
Definition update_through (env : Env) (orderId : ObjectId)
    (note : OrderStatus -> option string) (path : list OrderStatus) : M unit :=
  for_of path
    (fun s =>
       await _ <- OrdersService.updateOrderStatus env orderId
                    {| status := s; statusNote := note s |} in
       ret tt).

(** ** Sample data *)

Definition ada : User := {| firstName := "Ada"; lastName := "Lovelace"; email := "ada@example.com" |}.

Definition plain (n : string) (pr : Q) (st : Z) : Product :=
  {| name := n; price := pr; salePrice := None; isOnSale := false;
     images := [n +:+ ".png"]; stock := st; isActive := true |}.

Definition entry (pid : ObjectId) (q : Z) (sz : option string) : CartItem :=
  {| ci_productId := pid; ci_quantity := q; ci_size := sz; ci_color := None |}.

(** A shop with one customer, [u1], and her cart. *)
Definition shop (ps : list (ObjectId * Product)) (cart : list CartItem) : World :=
  {| products := list_to_map ps;
     carts := {[ "u1" := cart ]};
     orders := ∅;
     users := {[ "u1" := ada ]};
     trace := [] |}.

Definition env0 : Env :=
  {| Date_now := 1700000000000;
     Math_random := 1 # 4;
     new_ObjectId := "o1";
     Date_toISOString := "2024-01-15T11:00:00.000Z" |}.

Definition dto0 : CreateOrderDto := {| shippingAddress := None; orderNotes := None |}.

(** Two of A at 20 and one of B at 10. *)
Definition cart_AB : list CartItem := [entry "pA" 2 None; entry "pB" 1 None].

Definition shop_AB : World :=
  shop [("pA", plain "A" 20 10); ("pB", plain "B" 10 5)] cart_AB.

(** Five requested, three in stock. *)
Definition shop_short : World := shop [("pA", plain "A" 20 3)] [entry "pA" 5 None].

(** A product flagged on-sale whose sale price is zero. *)
Definition flagged : Product :=
  {| name := "S"; price := 25; salePrice := Some 0%Q; isOnSale := true;
     images := ["S.png"]; stock := 4; isActive := true |}.

Definition shop_flagged : World := shop [("pS", flagged)] [entry "pS" 1 None].


(** Two variants of one product in the cart. *)
Definition cart_variants : list CartItem :=
  [entry "pA" 2 (Some "M"); entry "pA" 3 (Some "L")].

Definition shop_variants : World := shop [("pA", plain "A" 20 10)] cart_variants.

(** An order of [u1] in a given status. *)
Definition placed (st : OrderStatus) (tn : option string) : Order :=
  {| o_userId := "u1";
     o_orderNumber := "ORD-1700000000000-250";
     o_items := [snapshot (entry "pA" 2 None) (plain "A" 20 10)];
     o_subtotal := 4000 # 100;
     o_tax := 400 # 100;
     o_total := 4400 # 100;
     o_status := st;
     o_shippingAddress := OrdersService.demoAddress;
     o_trackingNumber := tn;
     o_orderNotes := Some "Order placed via demo cart" |}.

(** The order desk: orders on file, nothing in the carts. *)
Definition desk (os : list (ObjectId * Order)) : World :=
  {| products := ∅;
     carts := ∅;
     orders := list_to_map os;
     users := {[ "u1" := ada ]};
     trace := [] |}.

Definition no_note (s : OrderStatus) : option string := None.

(** A delivered order and a pending one. *)
Definition desk_two : World :=
  desk [("o1", placed DELIVERED None); ("o2", placed PENDING None)].

Definition ship_both : OrderManagementService.BulkOrderUpdate :=
  {| OrderManagementService.orderIds := ["o1"; "o2"];
     OrderManagementService.bu_status := SHIPPED;
     OrderManagementService.bu_trackingNumber := None;
     OrderManagementService.bu_notes := None |}.

(** ** Vocabulary of the further properties *)

(** How far a status is along the life cycle. *)
Definition rank (s : OrderStatus) : nat :=
  match s with
  | PENDING => 0
  | CONFIRMED => 1
  | PROCESSING => 2
  | SHIPPED => 3
  | DELIVERED => 4
  | CANCELLED => 4
  end.

(** The fields of an order that are fixed at creation. *)
Definition same_frozen_fields (o o' : Order) : Prop :=
  o_userId o' = o_userId o
  /\ o_orderNumber o' = o_orderNumber o
  /\ o_items o' = o_items o
  /\ o_subtotal o' = o_subtotal o
  /\ o_tax o' = o_tax o
  /\ o_total o' = o_total o
  /\ o_shippingAddress o' = o_shippingAddress o.

(** The same orders are on file, each with its frozen fields. *)
Definition orders_frozen (w w' : World) : Prop :=
  forall id,
    match orders w !! id, orders w' !! id with
    | Some o, Some o' => same_frozen_fields o o'
    | None, None => True
    | _, _ => False
    end.

(** Nothing but the orders and the trace differs. *)
Definition only_orders_touched (w w' : World) : Prop :=
  products w' = products w /\ carts w' = carts w /\ users w' = users w.

(** The [$set] an admin update builds. *)
Definition admin_update (s : OrderStatus) (trackingNumber adminNotes : option string) : UpdateData :=
  {| ud_status := s;
     ud_trackingNumber := truthy_str trackingNumber;
     ud_adminNotes := truthy_str adminNotes |}.

(** The notification an admin status update sends for an order. *)
Definition admin_notice_to (id : ObjectId) (o' : Order) : Effect :=
  SentToUser (o_userId o') "order_status_update"
    (NotificationService.statusNotification
       {| sd_orderId := id;
          sd_status := status_value (o_status o');
          sd_trackingNumber := o_trackingNumber o' |}).

(** The [$set] of a bulk update, the documents its [find] returns, the
    notification it sends for one of them, and the world in which the
    notifications start. *)
Definition bulk_data (b : OrderManagementService.BulkOrderUpdate) : UpdateData :=
  admin_update (OrderManagementService.bu_status b)
               (OrderManagementService.bu_trackingNumber b)
               (OrderManagementService.bu_notes b).

Definition bulk_matched (b : OrderManagementService.BulkOrderUpdate) (w : World)
  : list (ObjectId * Order) :=
  filter (fun d => bool_decide (d.1 ∈ OrderManagementService.orderIds b))
         (map_to_list (orders w)).

Definition bulk_notice (b : OrderManagementService.BulkOrderUpdate) (d : ObjectId * Order)
  : Effect :=
  SentToUser (o_userId d.2) "order_status_update"
    (NotificationService.statusNotification
       {| sd_orderId := d.1;
          sd_status := status_value (OrderManagementService.bu_status b);
          sd_trackingNumber := OrderManagementService.bu_trackingNumber b |}).

Definition bulk_written (b : OrderManagementService.BulkOrderUpdate) (w : World) : World :=
  {| products := products w; carts := carts w;
     orders := foldr (fun i m => alter (applyUpdate (bulk_data b)) i m) (orders w)
                     (OrderManagementService.orderIds b);
     users := users w;
     trace := trace w ++ map (fun d => OrderUpdated d.1 (bulk_data b)) (bulk_matched b w) |}.

(** The count of a status and the revenue over a list of order documents. *)
Definition count_in (s : OrderStatus) (l : list (ObjectId * Order)) : nat :=
  length (filter (fun d => bool_decide (o_status d.2 = s)) l).


(** What identifies a line of a cart. *)
Definition line_key (it : CartItem) : ObjectId * option string * option string :=
  (ci_productId it, ci_size it, ci_color it).

Definition added_key (dto : CartService.AddToCartDto) : ObjectId * option string * option string :=
  (CartService.a_productId dto, CartService.a_size dto, CartService.a_color dto).

Definition removed_key (dto : CartService.RemoveFromCartDto)
  : ObjectId * option string * option string :=
  (CartService.r_productId dto, CartService.r_size dto, CartService.r_color dto).

(** The number of pieces in a cart. *)
Definition cart_count (items : list CartItem) : Z :=
  foldl (fun count item => count + ci_quantity item)%Z 0%Z items.

(** The items [addToCart] saves. *)
Definition added (dto : CartService.AddToCartDto) (items : list CartItem) : list CartItem :=
  match CartService.addQuantity (CartService.a_productId dto) (CartService.a_size dto)
          (CartService.a_color dto) (CartService.a_quantity dto) items with
  | Some merged => merged
  | None =>
      items ++ [ {| ci_productId := CartService.a_productId dto;
                    ci_quantity := CartService.a_quantity dto;
                    ci_size := CartService.a_size dto;
                    ci_color := CartService.a_color dto |} ]
  end.

(** The world after [cart.save()] of [items]. *)
Definition cart_saved (userId : ObjectId) (items : list CartItem) (w : World) : World :=
  {| products := products w;
     carts := <[userId := items]> (carts w);
     orders := orders w;
     users := users w;
     trace := trace w ++ [CartItemsSet userId items] |}.

(** The request that takes back what [dto] added. *)
Definition removal_of (dto : CartService.AddToCartDto) : CartService.RemoveFromCartDto :=
  {| CartService.r_productId := CartService.a_productId dto;
     CartService.r_size := CartService.a_size dto;
     CartService.r_color := CartService.a_color dto |}.

(** For the product of a cart entry: flagged on-sale only with a sale price
    other than 0. *)
Definition sale_price_set (w : World) (it : CartItem) : Prop :=
  forall p, products w !! ci_productId it = Some p ->
            isOnSale p = true -> truthy_num (salePrice p) = true.

(** The product of a cart entry is flagged on-sale and has no sale price. *)
Definition sale_price_missing (w : World) (it : CartItem) : Prop :=
  exists p, products w !! ci_productId it = Some p
            /\ isOnSale p = true /\ salePrice p = None.

(** ** Sample data for the further properties *)

(** The second entry asks for more than the stock, the third for a product
    that is gone; and the same with the two in the other order. *)
Definition shop_offenders : World :=
  shop [("pA", plain "A" 20 10); ("pB", plain "B" 10 5)]
       [entry "pA" 2 None; entry "pB" 9 None; entry "pZ" 1 None].

Definition shop_offenders' : World :=
  shop [("pA", plain "A" 20 10); ("pB", plain "B" 10 5)]
       [entry "pA" 2 None; entry "pZ" 1 None; entry "pB" 9 None].

(** An order whose owner is not on file. *)
Definition orphan (st : OrderStatus) : Order :=
  {| o_userId := "u9";
     o_orderNumber := "ORD-1700000000000-007";
     o_items := [snapshot (entry "pA" 2 None) (plain "A" 20 10)];
     o_subtotal := 4000 # 100;
     o_tax := 400 # 100;
     o_total := 4400 # 100;
     o_status := st;
     o_shippingAddress := OrdersService.demoAddress;
     o_trackingNumber := None;
     o_orderNotes := None |}.

(** Two of A in the cart, three in stock. *)
Definition shop_near : World := shop [("pA", plain "A" 20 3)] [entry "pA" 2 None].

Definition add_request (pid : ObjectId) (q : Z) (sz : option string) : CartService.AddToCartDto :=
  {| CartService.a_productId := pid;
     CartService.a_quantity := q;
     CartService.a_size := sz;
     CartService.a_color := None |}.

(** A product on sale at 15 instead of 20, and one flagged on-sale that has
    no sale price. *)
Definition reduced : Product :=
  {| name := "R"; price := 20; salePrice := Some 15%Q; isOnSale := true;
     images := ["R.png"]; stock := 6; isActive := true |}.

Definition unpriced : Product :=
  {| name := "N"; price := 25; salePrice := None; isOnSale := true;
     images := ["N.png"]; stock := 4; isActive := true |}.

Definition shop_sale : World :=
  shop [("pA", plain "A" 20 10); ("pR", reduced)] [entry "pA" 1 None; entry "pR" 2 None].

Definition shop_unpriced : World :=
  shop [("pA", plain "A" 20 10); ("pN", unpriced)] [entry "pA" 1 None; entry "pN" 1 None].

(** A gateway with one socket, [s1], in the room of [u1]. *)
Definition lobby : WebSocketGateway.Registry :=
  {| WebSocketGateway.connectedClients := {["s1"]};
     WebSocketGateway.userSessions := [("u1", "s1")] |}.

(** ** Object ids

    An [ObjectId] is written as 24 hexadecimal digits; [toString] gives them
    in lower case.  A string a client sends is cast before it is used as an
    id: by [new Types.ObjectId(s)] in the services, by the query otherwise. *)

Definition isHexDigit (c : Ascii.ascii) : bool :=
  let n := Ascii.nat_of_ascii c in
  ((48 <=? n) && (n <=? 57) || (97 <=? n) && (n <=? 102) || (65 <=? n) && (n <=? 70))%nat.

Definition toLowerCase (c : Ascii.ascii) : Ascii.ascii :=
  let n := Ascii.nat_of_ascii c in
  if ((65 <=? n) && (n <=? 90))%nat then Ascii.ascii_of_nat (n + 32) else c.

(** The strings of 24 hexadecimal digits, which every version of the driver
    takes for an [ObjectId]. *)
Definition isObjectIdString (s : string) : bool :=
  (String.length s =? 24)%nat && forallb isHexDigit (String.list_ascii_of_string s).

(** The id such a string is cast to, [None] for any other string. *)
Definition castObjectId (s : string) : option ObjectId :=
  if isObjectIdString s
  then Some (String.string_of_list_ascii (map toLowerCase (String.list_ascii_of_string s)))
  else None.

(** A string that is the [toString] of an [ObjectId]. *)
Definition isObjectId (s : string) : Prop := castObjectId s = Some s.

(** ** JavaScript numbers

    A [number] is an IEEE 754 binary64 value; [+], [-], [*] and [/] are the
    primitive operations on binary64, with their rounding, infinities and
    [NaN]. *)

Module Js.

Abbreviation number := PrimFloat.float.

(** A whole number as a [number]: exact below 2^53, the nearest binary64
    value beyond. *)
Definition Number_of_Z (n : Z) : number :=
  FloatOps.SF2Prim (SpecFloat.binary_normalize FloatOps.prec FloatOps.emax n 0 false).

(** The integer [n] as mantissa with exponent 0. *)
Definition integer (n : Z) : SpecFloat.spec_float :=
  match n with
  | Z0 => SpecFloat.S754_zero false
  | Zpos p => SpecFloat.S754_finite false p 0
  | Zneg p => SpecFloat.S754_finite true p 0
  end.

(** [Number(s)] for the decimal [s] that writes [n] hundredths, as in
    [Number("59.85")] for 5985: the binary64 value nearest to [n / 100],
    the one with the even mantissa on a tie. *)
Definition cents (n : Z) : number :=
  FloatOps.SF2Prim
    (SpecFloat.SFdiv FloatOps.prec FloatOps.emax (integer n)
       (SpecFloat.S754_finite false 100 0)).

(** The integer [n] for which [n / k] is nearest to [m * 2^e], the larger
    one on a tie: the floor of [k * m * 2^e + 1/2], for [m] of either sign. *)
Definition nearest (k m e : Z) : Z :=
  if (0 <=? e)%Z then (k * m * 2 ^ e)%Z
  else ((2 * k * m + 2 ^ (- e)) / 2 ^ (1 - e))%Z.

(** [Number(x.toFixed(2))].  [toFixed] takes the sign of a negative [x] in
    front and writes the [n] for which [n / 100 - x] is closest to zero, the
    larger [n] on a tie; [Number] reads the decimal back.  [NaN] and the
    infinities are written by name and read back as themselves; from 1e21 on
    [toFixed] writes the number itself, which [cents] of its hundredfold
    is. *)
Definition toFixed2 (x : number) : number :=
  match FloatOps.Prim2SF x with
  | SpecFloat.S754_finite s m e =>
      if s then PrimFloat.opp (cents (nearest 100 (Zpos m) e))
      else cents (nearest 100 (Zpos m) e)
  | SpecFloat.S754_zero _ => PrimFloat.zero
  | _ => x
  end.

(** [Math.round(x)]: the integer closest to [x], the larger one on a tie;
    [-0] for a result of zero from a negative [x]. *)
Definition Math_round (x : number) : number :=
  match FloatOps.Prim2SF x with
  | SpecFloat.S754_finite s m e =>
      if (0 <=? e)%Z then x
      else
        let n := nearest 1 (if s then Zneg m else Zpos m) e in
        if (n =? 0)%Z then (if s then PrimFloat.neg_zero else PrimFloat.zero)
        else Number_of_Z n
  | _ => x
  end.

(** [x] as a condition, for an optional number: [undefined], [0], [-0] and
    [NaN] are falsy. *)
Definition truthy (x : option number) : bool :=
  match x with
  | Some v => negb (PrimFloat.is_zero v || PrimFloat.is_nan v)
  | None => false
  end.

(** [Number.isFinite(x)]: neither [NaN] nor an infinity. *)
Definition Number_isFinite (x : number) : bool :=
  match FloatOps.Prim2SF x with
  | SpecFloat.S754_zero _ | SpecFloat.S754_finite _ _ _ => true
  | _ => false
  end.

(** The exact value of a finite number. *)
Definition value (x : number) : option Q :=
  match FloatOps.Prim2SF x with
  | SpecFloat.S754_zero _ => Some 0%Q
  | SpecFloat.S754_finite s m e =>
      let v := if (0 <=? e)%Z then inject_Z (Zpos m * 2 ^ e)
               else (Zpos m # Z.to_pos (2 ^ (- e)))%Q in
      Some (if s then - v else v)%Q
  | _ => None
  end.

End Js.

(** ** The services as the runtime executes them

    The second model of the order services.  It differs from the first in
    three respects: amounts of money are binary64 [number]s, so that every
    sum and product is rounded as the runtime rounds it; the strings that
    stand for ids are cast to [ObjectId]s where the code casts them; and
    [save] runs the validators of the order schema.  Quantities and stock
    levels are whole numbers, as in the first model. *)

Module Runtime.

Import Js.

(** What the two models share: the order number, the transition table, the
    line a status note adds and the customer's notification are the same
    strings in both. *)
Local Abbreviation generateOrderNumber := OrdersService.generateOrderNumber.
Local Abbreviation getValidStatusTransitions := OrdersService.getValidStatusTransitions.
Local Abbreviation statusLine := OrdersService.statusLine.
Local Abbreviation statusNotification := NotificationService.statusNotification.

(** [schemas/product.schema.ts], the fields checkout populates. *)
Record Product := {
  name : string;
  price : number;
  salePrice : option number;
  isOnSale : bool;
  images : list string;
  stock : Z;
  isActive : bool;
}.

(** A cart item after [populate('items.productId', ...)]. *)
Record PopulatedCartItem := {
  productId : option (ObjectId * Product);
  quantity : Z;
  size : option string;
  color : option string;
}.

(** [schemas/order.schema.ts]. *)
Record OrderItem := {
  oi_productId : ObjectId;
  oi_productName : string;
  oi_productImage : string;
  oi_price : number;
  oi_quantity : Z;
  oi_size : option string;
  oi_color : option string;
}.

Record Order := {
  o_userId : ObjectId;
  o_orderNumber : string;
  o_items : list OrderItem;
  o_subtotal : number;
  o_tax : number;
  o_total : number;
  o_status : OrderStatus;
  o_shippingAddress : ShippingAddress;
  o_trackingNumber : option string;
  o_orderNotes : option string;
}.

(** [OrderNotification] of the notification service. *)
Record OrderNotification := {
  on_orderId : string;
  on_userId : string;
  on_customerName : string;
  on_totalAmount : number;
  on_itemCount : nat;
  on_status : string;
}.

(** The object [notifyNewOrder] hands to [sendToAdmins].  The message is
    the template [`New order from ${customerName} - $${totalAmount}`]: the
    text up to the amount, and the amount the template writes after it. *)
Record NewOrderPayload := {
  no_type : string;
  no_title : string;
  no_message : string * number;
  no_orderData : OrderNotification;
}.

Inductive Effect :=
  | OrderSaved (id : ObjectId) (doc : Order)
  | OrderUpdated (id : ObjectId) (upd : UpdateData)
  | ProductStockSet (id : ObjectId) (newStock : Z)
  | CartItemsSet (userId : ObjectId) (items : list CartItem)
  | SentToAdmins (event : string) (payload : NewOrderPayload)
  | SentToUser (userId : string) (event : string) (payload : OrderUpdatePayload).

Record World := {
  products : gmap ObjectId Product;
  carts : gmap ObjectId (list CartItem);
  orders : gmap ObjectId Order;
  users : gmap ObjectId User;
  trace : list Effect;
}.

(** What belongs to the libraries and differs between their versions: which
    strings the driver takes for an [ObjectId] ([new Types.ObjectId(s)] and
    the cast of a query: 24 hexadecimal digits, for older drivers also any 12
    bytes), with the id it makes of them, and the messages of the errors the
    libraries throw, which the services pass on inside their own. *)
Record Library := {
  ObjectId_cast : string -> option ObjectId;
  BSONError_message : string -> string;
  CastError_message : string -> string;
  ValidationError_message : Order -> string;
  DuplicateKey_message : Order -> string;
}.

(** *** The monad *)

Definition M (A : Type) : Type := World -> (HttpException + A) * World.

Definition ret {A} (a : A) : M A := fun w => (inr a, w).

Definition throw {A} (e : HttpException) : M A := fun w => (inl e, w).

Definition bind {A B} (m : M A) (k : A -> M B) : M B :=
  fun w =>
    match m w with
    | (inl e, w') => (inl e, w')
    | (inr a, w') => k a w'
    end.

Definition try_catch {A} (m : M A) (h : HttpException -> HttpException) : M A :=
  fun w =>
    match m w with
    | (inl e, w') => (inl (h e), w')
    | (inr a, w') => (inr a, w')
    end.

Declare Scope runtime_scope.
Delimit Scope runtime_scope with runtime.
Notation "'await' x <- m 'in' k" := (bind m (fun x => k))
  (at level 10, x name, m at level 100, k at level 200) : runtime_scope.
Local Open Scope runtime_scope.

Definition get : M World := fun w => (inr w, w).

Definition emit (e : Effect) : M unit :=
  fun w =>
    (inr tt, {| products := products w; carts := carts w; orders := orders w;
                users := users w; trace := trace w ++ [e] |}).

Fixpoint for_of {A} (xs : list A) (body : A -> M unit) : M unit :=
  match xs with
  | [] => ret tt
  | x :: xs' => await _ <- body x in for_of xs' body
  end.

(** *** The order schema's validators *)

(** [required: true] on a string path: the empty string does not do. *)
Definition required (s : string) : bool := negb (bool_decide (s = "")).

(** [min: 0] on a number path; [NaN], which is no number to the ODM, fails
    as well. *)
Definition min0 (x : number) : bool := PrimFloat.leb PrimFloat.zero x.

Definition OrderItem_valid (oi : OrderItem) : bool :=
  required (oi_productName oi)
  && required (oi_productImage oi)
  && min0 (oi_price oi)
  && (1 <=? oi_quantity oi)%Z.

Definition ShippingAddress_valid (a : ShippingAddress) : bool :=
  required (fullName a) && required (phoneNumber a) && required (streetAddress a)
  && required (city a) && required (state a) && required (postalCode a)
  && required (country a).

Definition amounts_valid (o : Order) : bool :=
  min0 (o_subtotal o) && min0 (o_tax o) && min0 (o_total o).

(** The validators [save] runs on an order; the list of items only has to
    be there. *)
Definition Order_valid (o : Order) : bool :=
  required (o_orderNumber o)
  && forallb OrderItem_valid (o_items o)
  && amounts_valid o
  && ShippingAddress_valid (o_shippingAddress o).

(** *** Collections *)

(** [new Types.ObjectId(s)] *)
Definition Types_ObjectId (lib : Library) (s : string) : M ObjectId :=
  match ObjectId_cast lib s with
  | Some id => ret id
  | None => throw (OtherError (BSONError_message lib s))
  end.

Definition populate (ps : gmap ObjectId Product) (it : CartItem) : PopulatedCartItem :=
  {| productId := (fun p => (ci_productId it, p)) <$> ps !! ci_productId it;
     quantity := ci_quantity it;
     size := ci_size it;
     color := ci_color it |}.

(** [cartModel.findOne({ userId }).populate('items.productId', ...)] *)
Definition Cart_findOne_populate (userId : ObjectId) : M (option (list PopulatedCartItem)) :=
  await w <- get in
  ret (map (populate (products w)) <$> carts w !! userId).

(** [cartModel.findOneAndUpdate({ userId }, { $set: { items } })] *)
Definition Cart_findOneAndUpdate (userId : ObjectId) (items : list CartItem) : M unit :=
  fun w =>
    (inr tt, {| products := products w;
                carts := alter (fun _ => items) userId (carts w);
                orders := orders w; users := users w;
                trace := trace w ++ [CartItemsSet userId items] |}).

Definition set_stock (newStock : Z) (p : Product) : Product :=
  {| name := name p; price := price p; salePrice := salePrice p;
     isOnSale := isOnSale p; images := images p; stock := newStock;
     isActive := isActive p |}.

(** [productModel.findByIdAndUpdate(id, { stock })] *)
Definition Product_findByIdAndUpdate (id : ObjectId) (newStock : Z) : M unit :=
  fun w =>
    (inr tt, {| products := alter (set_stock newStock) id (products w);
                carts := carts w; orders := orders w; users := users w;
                trace := trace w ++ [ProductStockSet id newStock] |}).

(** [userModel.findById(id)], for an id that was cast before. *)
Definition User_findById (id : ObjectId) : M (option User) :=
  await w <- get in ret (users w !! id).

(** [orderModel.findById(s)]: the string is cast first, and a string that
    is no [ObjectId] makes the query throw a [CastError].  The document
    comes with its id. *)
Definition Order_findById (lib : Library) (s : string) : M (option (ObjectId * Order)) :=
  match ObjectId_cast lib s with
  | Some id => await w <- get in ret ((fun o => (id, o)) <$> orders w !! id)
  | None => throw (OtherError (CastError_message lib s))
  end.

(** Whether the unique index on [orderNumber] has the number already. *)
Definition orderNumber_taken (number : string) (w : World) : bool :=
  bool_decide (Exists (fun d => o_orderNumber d.2 = number) (map_to_list (orders w))).

(** [order.save()] of a new document: the validators run, then the
    document is inserted, which the unique indexes on [_id] and
    [orderNumber] can refuse. *)
Definition Order_insert (lib : Library) (id : ObjectId) (doc : Order) : M unit :=
  fun w =>
    if negb (Order_valid doc)
    then (inl (OtherError (ValidationError_message lib doc)), w)
    else if bool_decide (is_Some (orders w !! id)) || orderNumber_taken (o_orderNumber doc) w
    then (inl (OtherError (DuplicateKey_message lib doc)), w)
    else (inr tt, {| products := products w; carts := carts w;
                     orders := <[id := doc]> (orders w); users := users w;
                     trace := trace w ++ [OrderSaved id doc] |}).

(** [order.save()] of a document that was read from the collection: the
    validators run on the whole document, then it is written back. *)
Definition Order_save (lib : Library) (id : ObjectId) (doc : Order) : M unit :=
  fun w =>
    if negb (Order_valid doc)
    then (inl (OtherError (ValidationError_message lib doc)), w)
    else (inr tt, {| products := products w; carts := carts w;
                     orders := <[id := doc]> (orders w); users := users w;
                     trace := trace w ++ [OrderSaved id doc] |}).

(** The effect of [$set: updateData] on an order document; the schema has
    no [adminNotes] path, so that key does not reach the document.  Update
    validators are off. *)
Definition applyUpdate (upd : UpdateData) (o : Order) : Order :=
  {| o_userId := o_userId o; o_orderNumber := o_orderNumber o;
     o_items := o_items o; o_subtotal := o_subtotal o; o_tax := o_tax o;
     o_total := o_total o;
     o_status := ud_status upd;
     o_shippingAddress := o_shippingAddress o;
     o_trackingNumber :=
       match ud_trackingNumber upd with
       | Some t => Some t
       | None => o_trackingNumber o
       end;
     o_orderNotes := o_orderNotes o |}.

(** [orderModel.findByIdAndUpdate(id, { $set: upd }, { new: true })], for
    an id that was cast before. *)
Definition Order_findByIdAndUpdate (id : ObjectId) (upd : UpdateData) : M (option Order) :=
  fun w =>
    let orders' := alter (applyUpdate upd) id (orders w) in
    (inr (orders' !! id),
     {| products := products w; carts := carts w; orders := orders';
        users := users w; trace := trace w ++ [OrderUpdated id upd] |}).

(** *** NotificationService *)

Module NotificationService.

Definition sendOrderStatusUpdate (userId : string) (orderData : OrderStatusData) : M unit :=
  let notification := statusNotification orderData in
  emit (SentToUser userId "order_status_update" notification).

(** The [notification] object of [notifyNewOrder]. *)
Definition newOrderNotice (orderData : OrderNotification) : NewOrderPayload :=
  {| no_type := "NEW_ORDER";
     no_title := "New Order Received";
     no_message :=
       ("New order from " +:+ on_customerName orderData +:+ " - $",
        on_totalAmount orderData);
     no_orderData := orderData |}.

Definition notifyNewOrder (orderData : OrderNotification) : M unit :=
  let notification := newOrderNotice orderData in
  emit (SentToAdmins "new_order_notification" notification).

End NotificationService.

(** *** OrdersService *)

Module OrdersService.

(** What [getOrderById] returns. *)
Record OrderView := {
  v_id : ObjectId;
  v_orderNumber : string;
  v_status : OrderStatus;
  v_items : list OrderItem;
  v_subtotal : number;
  v_tax : number;
  v_total : number;
  v_shippingAddress : ShippingAddress;
  v_orderNotes : option string;
}.

(** What [updateOrderStatus] returns. *)
Record StatusView := {
  sv_id : ObjectId;
  sv_orderNumber : string;
  sv_status : OrderStatus;
}.

Record StockUpdate := {
  su_productId : ObjectId;
  su_newStock : Z;
}.

(** The three accumulators of the validation loop. *)
Record Totals := {
  orderItems : list OrderItem;
  subtotal : number;
  stockUpdates : list StockUpdate;
}.

(** [product.isOnSale && product.salePrice ? product.salePrice : product.price] *)
Definition itemPrice (product : Product) : number :=
  if isOnSale product && truthy (salePrice product)
  then default PrimFloat.zero (salePrice product)
  else price product.

Definition unavailable (productName : string) : HttpException :=
  BadRequestException ("Product " +:+ productName +:+ " is no longer available").

Definition insufficient (product : Product) (requested : Z) : HttpException :=
  BadRequestException
    ("Insufficient stock for " +:+ name product +:+ ". Available: "
     +:+ pretty (stock product) +:+ ", Requested: " +:+ pretty requested).

(** One turn of [for (const cartItem of cart.items)]. *)
Definition checkItem (acc : Totals) (cartItem : PopulatedCartItem) : HttpException + Totals :=
  match productId cartItem with
  | None => inl (unavailable "Unknown")
  | Some (_id, product) =>
      if negb (isActive product)
      then inl (unavailable (str_or (name product) "Unknown"))
      else if (stock product <? quantity cartItem)%Z
      then inl (insufficient product (quantity cartItem))
      else
        let itemTotal := PrimFloat.mul (itemPrice product) (Number_of_Z (quantity cartItem)) in
        inr {| orderItems :=
                 orderItems acc ++
                 [ {| oi_productId := _id;
                      oi_productName := name product;
                      oi_productImage := str_or (default "" (head (images product))) "";
                      oi_price := itemPrice product;
                      oi_quantity := quantity cartItem;
                      oi_size := size cartItem;
                      oi_color := color cartItem |} ];
               subtotal := PrimFloat.add (subtotal acc) itemTotal;
               stockUpdates :=
                 stockUpdates acc ++
                 [ {| su_productId := _id;
                      su_newStock := (stock product - quantity cartItem)%Z |} ] |}
  end.

Fixpoint checkItems (items : list PopulatedCartItem) (acc : Totals) : HttpException + Totals :=
  match items with
  | [] => inr acc
  | cartItem :: rest =>
      match checkItem acc cartItem with
      | inl e => inl e
      | inr acc' => checkItems rest acc'
      end
  end.

(** [new Types.ObjectId(orderId)] and [new Types.ObjectId(userId)] are
    evaluated inside the [try], in this order. *)
Definition getOrderById (lib : Library) (userId orderId : string) : M OrderView :=
  try_catch
    (await _id <- Types_ObjectId lib orderId in
     await userId <- Types_ObjectId lib userId in
     await w <- get in
     match orders w !! _id with
     | Some order =>
         if decide (o_userId order = userId)
         then ret {| v_id := _id;
                     v_orderNumber := o_orderNumber order;
                     v_status := o_status order;
                     v_items := o_items order;
                     v_subtotal := o_subtotal order;
                     v_tax := o_tax order;
                     v_total := o_total order;
                     v_shippingAddress := o_shippingAddress order;
                     v_orderNotes := o_orderNotes order |}
         else throw (NotFoundException "Order not found")
     | None => throw (NotFoundException "Order not found")
     end)
    (fun error =>
       match error with
       | NotFoundException _ => error
       | _ => BadRequestException ("Failed to get order: " +:+ exn_message error)
       end).

(** What [getAnyOrderById] returns: the order with its [userId]
    populated. *)
Record PopulatedOrder := {
  po_id : ObjectId;
  po_order : Order;
  po_userId : option User;
}.

(** Admin: [getAnyOrderById], the lookup without an ownership check. *)
Definition getAnyOrderById (lib : Library) (orderId : string) : M PopulatedOrder :=
  try_catch
    (await found <- Order_findById lib orderId in
     match found with
     | Some (_id, order) =>
         await w <- get in
         ret {| po_id := _id; po_order := order; po_userId := users w !! o_userId order |}
     | None => throw (NotFoundException "Order not found")
     end)
    (fun error =>
       match error with
       | NotFoundException _ => error
       | _ => BadRequestException ("Failed to get order: " +:+ exn_message error)
       end).

(** [const taxRate = 0.1]: the binary64 number nearest to one tenth. *)
Definition taxRate : number := cents 10.
Definition tax_of (subtotal : number) : number := PrimFloat.mul subtotal taxRate.
Definition total_of (subtotal : number) : number := PrimFloat.add subtotal (tax_of subtotal).

(** The document built by [new this.orderModel({ ... })]. *)
Definition newOrder (env : Env) (userId : ObjectId) (createOrderDto : CreateOrderDto)
    (acc : Totals) : Order :=
  {| o_userId := userId;
     o_orderNumber := generateOrderNumber env;
     o_items := orderItems acc;
     o_subtotal := toFixed2 (subtotal acc);
     o_tax := toFixed2 (tax_of (subtotal acc));
     o_total := toFixed2 (total_of (subtotal acc));
     o_status := PENDING;
     o_shippingAddress :=
       default {| fullName := "Demo User";
                  phoneNumber := "+1-555-0123";
                  streetAddress := "123 Main Street";
                  city := "New York";
                  state := "NY";
                  postalCode := "10001";
                  country := "US" |}
               (shippingAddress createOrderDto);
     o_trackingNumber := None;
     o_orderNotes :=
       Some (str_or (default "" (orderNotes createOrderDto))
                    "Order placed via demo cart") |}.

(** The argument of [notifyNewOrder]; [userId] is the string the method was
    called with. *)
Definition newOrderNotification (savedOrder_id : ObjectId) (userId : string) (user : User)
    (acc : Totals) : OrderNotification :=
  {| on_orderId := savedOrder_id;
     on_userId := userId;
     on_customerName := firstName user +:+ " " +:+ lastName user;
     on_totalAmount := Math_round (total_of (subtotal acc));
     on_itemCount := length (orderItems acc);
     on_status := status_value PENDING |}.

Definition createOrderFromCart (lib : Library) (env : Env) (userId : string)
    (createOrderDto : CreateOrderDto) : M OrderView :=
  try_catch
    (await user_id <- Types_ObjectId lib userId in
     await cart <- Cart_findOne_populate user_id in
     match cart with
     | None => throw (BadRequestException "Cart is empty. Cannot create order.")
     | Some [] => throw (BadRequestException "Cart is empty. Cannot create order.")
     | Some items =>
         match checkItems items {| orderItems := []; subtotal := PrimFloat.zero;
                                   stockUpdates := [] |} with
         | inl e => throw e
         | inr acc =>
             let order := newOrder env user_id createOrderDto acc in
             let savedOrder_id := new_ObjectId env in
             await _ <- Order_insert lib savedOrder_id order in
             await user <- User_findById user_id in
             await _ <-
               match user with
               | Some user =>
                   NotificationService.notifyNewOrder
                     (newOrderNotification savedOrder_id userId user acc)
               | None => ret tt
               end in
             await _ <-
               for_of (stockUpdates acc)
                 (fun stockUpdate =>
                    Product_findByIdAndUpdate (su_productId stockUpdate)
                      (su_newStock stockUpdate)) in
             await _ <- Cart_findOneAndUpdate user_id [] in
             getOrderById lib userId savedOrder_id
         end
     end)
    (fun error =>
       match error with
       | BadRequestException _ | NotFoundException _ => error
       | _ => BadRequestException ("Failed to create order: " +:+ exn_message error)
       end).

Definition set_status (s : OrderStatus) (o : Order) : Order :=
  {| o_userId := o_userId o; o_orderNumber := o_orderNumber o;
     o_items := o_items o; o_subtotal := o_subtotal o; o_tax := o_tax o;
     o_total := o_total o; o_status := s;
     o_shippingAddress := o_shippingAddress o;
     o_trackingNumber := o_trackingNumber o;
     o_orderNotes := o_orderNotes o |}.

Definition set_orderNotes (n : string) (o : Order) : Order :=
  {| o_userId := o_userId o; o_orderNumber := o_orderNumber o;
     o_items := o_items o; o_subtotal := o_subtotal o; o_tax := o_tax o;
     o_total := o_total o; o_status := o_status o;
     o_shippingAddress := o_shippingAddress o;
     o_trackingNumber := o_trackingNumber o;
     o_orderNotes := Some n |}.

(** The two assignments to [order] between the check and [save]. *)
Definition applyStatus (env : Env) (updateOrderStatusDto : UpdateOrderStatusDto)
    (order : Order) : Order :=
  let order := set_status (status updateOrderStatusDto) order in
  match truthy_str (statusNote updateOrderStatusDto) with
  | Some note =>
      set_orderNotes
        (str_or (default "" (o_orderNotes order)) ""
         +:+ statusLine env (status updateOrderStatusDto) note)
        order
  | None => order
  end.

Definition updateOrderStatus (lib : Library) (env : Env) (orderId : string)
    (updateOrderStatusDto : UpdateOrderStatusDto) : M StatusView :=
  try_catch
    (await found <- Order_findById lib orderId in
     match found with
     | None => throw (NotFoundException "Order not found")
     | Some (_id, order) =>
         let validTransitions := getValidStatusTransitions (o_status order) in
         if negb (bool_decide (status updateOrderStatusDto ∈ validTransitions))
         then throw (BadRequestException
                       ("Cannot change status from " +:+ status_value (o_status order)
                        +:+ " to " +:+ status_value (status updateOrderStatusDto)))
         else
           let order := applyStatus env updateOrderStatusDto order in
           await _ <- Order_save lib _id order in
           await _ <-
             NotificationService.sendOrderStatusUpdate (o_userId order)
               {| sd_orderId := _id;
                  sd_status := status_value (o_status order);
                  sd_trackingNumber := None |} in
           ret {| sv_id := _id;
                  sv_orderNumber := o_orderNumber order;
                  sv_status := o_status order |}
     end)
    (fun error =>
       match error with
       | NotFoundException _ | BadRequestException _ => error
       | _ => BadRequestException ("Failed to update order status: " +:+ exn_message error)
       end).

End OrdersService.

(** *** OrderManagementService *)

Module OrderManagementService.

Record UpdateResult := {
  ur_order : option Order;
  ur_message : string;
}.

(** [updatedOrder.userId._id.toString()] on a document whose [userId] was
    populated: the populated value is [null] when the user is gone. *)
Definition populated_userId (o : Order) : M string :=
  await w <- get in
  match users w !! o_userId o with
  | Some _ => ret (o_userId o)
  | None => throw (OtherError "Cannot read properties of null (reading '_id')")
  end.

(** No [try]: what the queries throw leaves the method as thrown. *)
Definition updateOrderStatus (lib : Library) (orderId : string) (status : OrderStatus)
    (trackingNumber adminNotes : option string) : M UpdateResult :=
  await order <- Order_findById lib orderId in
  match order with
  | None => throw (NotFoundException "Order not found")
  | Some (_id, _) =>
      let updateData :=
        {| ud_status := status;
           ud_trackingNumber := truthy_str trackingNumber;
           ud_adminNotes := truthy_str adminNotes |} in
      await updatedOrder <- Order_findByIdAndUpdate _id updateData in
      await _ <-
        match updatedOrder with
        | Some updatedOrder =>
            await userId <- populated_userId updatedOrder in
            NotificationService.sendOrderStatusUpdate userId
              {| sd_orderId := _id;
                 sd_status := status_value (o_status updatedOrder);
                 sd_trackingNumber := o_trackingNumber updatedOrder |}
        | None => ret tt
        end in
      ret {| ur_order := updatedOrder;
             ur_message := "Order status updated to " +:+ status_value status |}
  end.

End OrderManagementService.

(** *** OrdersController *)

Module OrdersController.

(** The global [ValidationPipe] on the body of [POST orders/checkout].
    [@IsOptional()] lets a body without [shippingAddress] pass; an address
    that is given must have each of its seven fields non-empty
    ([@IsNotEmpty()]).  The list is that of the violated constraints. *)
Definition CreateOrderDto_errors (createOrderDto : CreateOrderDto) : list string :=
  match shippingAddress createOrderDto with
  | None => []
  | Some a =>
      let check (field value : string) :=
        if decide (value = "")
        then ["shippingAddress." +:+ field +:+ " should not be empty"] else [] in
      check "fullName" (fullName a) ++ check "phoneNumber" (phoneNumber a)
      ++ check "streetAddress" (streetAddress a) ++ check "city" (city a)
      ++ check "state" (state a) ++ check "postalCode" (postalCode a)
      ++ check "country" (country a)
  end.

(** What [POST orders/checkout] answers. *)
Record CheckoutResponse := {
  c_success : bool;
  c_message : string;
  c_data : OrdersService.OrderView;
  c_orderNumber : string;
  c_total : number;
  c_estimatedDelivery : string;
}.

(** The body of a response: [{ success, message, data }]. *)
Record Response (A : Type) := {
  success : bool;
  message : string;
  data : option A;
}.
Arguments success {A} _.
Arguments message {A} _.
Arguments data {A} _.

(** [PUT orders/admin/:id/status]: the handler catches whatever the service
    throws and answers with [success: false]. *)
Definition updateOrderStatus (lib : Library) (env : Env) (orderId : string)
    (updateOrderStatusDto : UpdateOrderStatusDto) : M (Response OrdersService.StatusView) :=
  fun w =>
    match OrdersService.updateOrderStatus lib env orderId updateOrderStatusDto w with
    | (inr result, w') =>
        (inr {| success := true;
                message := "Order status updated successfully";
                data := Some result |}, w')
    | (inl error, w') =>
        (inr {| success := false; message := exn_message error; data := None |}, w')
    end.

(** [POST orders/checkout] behind the pipe.  The pipe answers a body it
    refuses with a [BadRequestException] whose response lists the violated
    constraints; the handler has no [try]. *)
Definition checkout (lib : Library) (env : Env) (estimatedDelivery : string) (userId : string)
    (createOrderDto : CreateOrderDto) : M CheckoutResponse :=
  match CreateOrderDto_errors createOrderDto with
  | _ :: _ => throw (BadRequestException "Bad Request Exception")
  | [] =>
      await order <- OrdersService.createOrderFromCart lib env userId createOrderDto in
      ret {| c_success := true;
             c_message := "Order created successfully";
             c_data := order;
             c_orderNumber := OrdersService.v_orderNumber order;
             c_total := OrdersService.v_total order;
             c_estimatedDelivery := estimatedDelivery |}
  end.

End OrdersController.

(** *** Vocabulary of the statements about the runtime *)

(** Preconditions of checkout, on the cart entries as stored. *)
Definition entry_valid (w : World) (it : CartItem) : Prop :=
  exists p, products w !! ci_productId it = Some p
            /\ isActive p = true /\ (ci_quantity it <= stock p)%Z.

(** The frozen unit price: the sale price when the product is flagged
    on-sale and its sale price is a number other than zero, the base price
    otherwise. *)
Definition frozen_price (p : Product) : number :=
  match salePrice p with
  | Some sp =>
      if isOnSale p && negb (PrimFloat.is_zero sp || PrimFloat.is_nan sp) then sp else price p
  | None => price p
  end.

(** The order item checkout derives from a cart entry whose product is
    [p]. *)
Definition snapshot (it : CartItem) (p : Product) : OrderItem :=
  {| oi_productId := ci_productId it;
     oi_productName := name p;
     oi_productImage := default "" (head (images p));
     oi_price := frozen_price p;
     oi_quantity := ci_quantity it;
     oi_size := ci_size it;
     oi_color := ci_color it |}.

Definition snapshot_of (w : World) (it : CartItem) (oi : OrderItem) : Prop :=
  exists p, products w !! ci_productId it = Some p /\ oi = snapshot it p.



(** Sum of price times quantity over the items of an order, added up from
    0 in the order of the items, each product and each sum rounded to
    binary64. *)
Definition line_total (oi : OrderItem) : number :=
  PrimFloat.mul (oi_price oi) (Number_of_Z (oi_quantity oi)).

Definition items_total (items : list OrderItem) : number :=
  foldl (fun s oi => PrimFloat.add s (line_total oi)) PrimFloat.zero items.


(** A figure that a decimal with two places writes: [n] hundredths, or
    that with a minus sign. *)
Definition two_decimals (x : number) : Prop :=
  exists n : Z, x = cents n \/ x = PrimFloat.opp (cents n).

Definition stock_write_of (w : World) (it : CartItem) (su : OrdersService.StockUpdate) : Prop :=
  exists p, products w !! ci_productId it = Some p
            /\ su = {| OrdersService.su_productId := ci_productId it;
                       OrdersService.su_newStock := (stock p - ci_quantity it)%Z |}.

Definition stock_effect (su : OrdersService.StockUpdate) : Effect :=
  ProductStockSet (OrdersService.su_productId su) (OrdersService.su_newStock su).

Definition apply_stock (sus : list OrdersService.StockUpdate) (ps : gmap ObjectId Product)
  : gmap ObjectId Product :=
  foldl (fun m su => alter (set_stock (OrdersService.su_newStock su))
                           (OrdersService.su_productId su) m) ps sus.

(** The admin notice of a checkout: sent when the user's record is found. *)
Definition admin_notice (env : Env) (userId : string) (user_id : ObjectId)
    (acc : OrdersService.Totals) (w : World) : list Effect :=
  match users w !! user_id with
  | Some user =>
      [SentToAdmins "new_order_notification"
         (NotificationService.newOrderNotice
            (OrdersService.newOrderNotification (new_ObjectId env) userId user acc))]
  | None => []
  end.

(** The world a checkout leaves behind when validation yields [acc]. *)
Definition after_checkout (env : Env) (userId : string) (user_id : ObjectId)
    (dto : CreateOrderDto) (acc : OrdersService.Totals) (w : World) : World :=
  {| products := apply_stock (OrdersService.stockUpdates acc) (products w);
     carts := alter (fun _ => []) user_id (carts w);
     orders := <[new_ObjectId env := OrdersService.newOrder env user_id dto acc]> (orders w);
     users := users w;
     trace := trace w
              ++ [OrderSaved (new_ObjectId env) (OrdersService.newOrder env user_id dto acc)]
              ++ admin_notice env userId user_id acc w
              ++ map stock_effect (OrdersService.stockUpdates acc)
              ++ [CartItemsSet user_id []] |}.

Definition view_of (id : ObjectId) (order : Order) : OrdersService.OrderView :=
  {| OrdersService.v_id := id;
     OrdersService.v_orderNumber := o_orderNumber order;
     OrdersService.v_status := o_status order;
     OrdersService.v_items := o_items order;
     OrdersService.v_subtotal := o_subtotal order;
     OrdersService.v_tax := o_tax order;
     OrdersService.v_total := o_total order;
     OrdersService.v_shippingAddress := o_shippingAddress order;
     OrdersService.v_orderNotes := o_orderNotes order |}.

Definition init_totals : OrdersService.Totals :=
  {| OrdersService.orderItems := [];
     OrdersService.subtotal := PrimFloat.zero;
     OrdersService.stockUpdates := [] |}.

(** The notification the status engine sends for an order. *)
Definition status_notice (id : ObjectId) (o' : Order) : OrderUpdatePayload :=
  statusNotification
    {| sd_orderId := id;
       sd_status := status_value (o_status o');
       sd_trackingNumber := None |}.

(** The world a status update leaves behind when it is accepted. *)
Definition after_status_update (env : Env) (id : ObjectId) (dto : UpdateOrderStatusDto)
    (o : Order) (w : World) : World :=
  let o' := OrdersService.applyStatus env dto o in
  {| products := products w;
     carts := carts w;
     orders := <[id := o']> (orders w);
     users := users w;
     trace := trace w
              ++ [OrderSaved id o';
                  SentToUser (o_userId o') "order_status_update" (status_notice id o')] |}.

(** Status updates one after the other, each with the note [note] gives. *)
Definition update_through (lib : Library) (env : Env) (orderId : string)
    (note : OrderStatus -> option string) (path : list OrderStatus) : M unit :=
  for_of path
    (fun s =>
       await _ <- OrdersService.updateOrderStatus lib env orderId
                    {| status := s; statusNote := note s |} in
       ret tt).

(** The notification an admin status update sends for an order. *)
Definition admin_notice_to (id : ObjectId) (o' : Order) : OrderUpdatePayload :=
  statusNotification
    {| sd_orderId := id;
       sd_status := status_value (o_status o');
       sd_trackingNumber := o_trackingNumber o' |}.

(** *** The claims as the specification words them

    Used where the code departs from a claim: the claim is stated here as
    written and refuted on sample data below. *)



(** "rounded to 2 decimal places and total = subtotal + tax over the stored
    values": the stored total is the sum of the stored subtotal and the
    stored tax, as a decimal with two places. *)
Definition totals_as_specified (o : Order) : Prop :=
  two_decimals (o_subtotal o) /\ two_decimals (o_tax o) /\ two_decimals (o_total o)
  /\ o_total o = toFixed2 (PrimFloat.add (o_subtotal o) (o_tax o)).

(** "if no order with the given id exists it fails with OrderNotFound" *)
Definition lookup_as_specified (lib : Library) (env : Env) (orderId : string)
    (dto : UpdateOrderStatusDto) (w : World) : Prop :=
  orders w !! orderId = None ->
  OrdersService.updateOrderStatus lib env orderId dto w
  = (inl (NotFoundException "Order not found"), w).




(** *** Sample data *)

(** A driver that takes the strings of 24 hexadecimal digits for
    ObjectIds, with messages as the libraries have them. *)
Definition quoted (s : string) : string :=
  String (Ascii.ascii_of_nat 34) s +:+ String (Ascii.ascii_of_nat 34) "".

Definition library : Library :=
  {| ObjectId_cast := castObjectId;
     BSONError_message := fun _ =>
       "input must be a 24 character hex string, 12 byte Uint8Array, or an integer";
     CastError_message := fun s =>
       "Cast to ObjectId failed for value " +:+ quoted s +:+ " (type string) at path "
       +:+ quoted "_id" +:+ " for model " +:+ quoted "Order";
     ValidationError_message := fun _ => "Order validation failed";
     DuplicateKey_message := fun _ => "E11000 duplicate key error collection: orders" |}.

Definition u1 : ObjectId := "65a1b2c3d4e5f60718293a01".
Definition u2 : ObjectId := "65a1b2c3d4e5f60718293a02".
Definition u9 : ObjectId := "65a1b2c3d4e5f60718293a09".
Definition pA : ObjectId := "65a1b2c3d4e5f60718293b0a".
Definition pB : ObjectId := "65a1b2c3d4e5f60718293b0b".
Definition pC : ObjectId := "65a1b2c3d4e5f60718293b0c".
Definition o1 : ObjectId := "65a1b2c3d4e5f60718293c01".
Definition o2 : ObjectId := "65a1b2c3d4e5f60718293c02".
Definition o7 : ObjectId := "65a1b2c3d4e5f60718293c07".
Definition o9 : ObjectId := "65a1b2c3d4e5f60718293c09".

(** A product priced at [pr] hundredths. *)
Definition plain (n : string) (pr : Z) (st : Z) : Product :=
  {| name := n; price := cents pr; salePrice := None; isOnSale := false;
     images := [n +:+ ".png"]; stock := st; isActive := true |}.

(** A shop with one customer, [u1], and her cart. *)
Definition shop (ps : list (ObjectId * Product)) (cart : list CartItem) : World :=
  {| products := list_to_map ps;
     carts := {[ u1 := cart ]};
     orders := ∅;
     users := {[ u1 := ada ]};
     trace := [] |}.

Definition env1 : Env :=
  {| Date_now := 1700000000000;
     Math_random := 1 # 4;
     new_ObjectId := o1;
     Date_toISOString := "2024-01-15T11:00:00.000Z" |}.

(** Two of A at 20.00 and one of B at 10.00. *)
Definition cart_AB : list CartItem := [entry pA 2 None; entry pB 1 None].

Definition shop_AB : World :=
  shop [(pA, plain "A" 2000 10); (pB, plain "B" 1000 5)] cart_AB.

(** A product flagged on-sale whose sale price is zero. *)
Definition flagged : Product :=
  {| name := "S"; price := cents 2500; salePrice := Some PrimFloat.zero; isOnSale := true;
     images := ["S.png"]; stock := 4; isActive := true |}.

Definition shop_flagged : World := shop [(pC, flagged)] [entry pC 1 None].



(** Two variants of one product in the cart. *)
Definition cart_variants : list CartItem :=
  [entry pA 2 (Some "M"); entry pA 3 (Some "L")].

Definition shop_variants : World := shop [(pA, plain "A" 2000 10)] cart_variants.


Definition shop_045 : World := shop [(pC, plain "C" 45 9)] [entry pC 1 None].

Definition shop_230 : World := shop [(pC, plain "C" 230 90)] [entry pC 50 None].

(** An order of [u1] in a given status. *)
Definition placed (st : OrderStatus) (tn : option string) : Order :=
  {| o_userId := u1;
     o_orderNumber := "ORD-1700000000000-250";
     o_items := [snapshot (entry pA 2 None) (plain "A" 2000 10)];
     o_subtotal := cents 4000;
     o_tax := cents 400;
     o_total := cents 4400;
     o_status := st;
     o_shippingAddress := OrdersService.demoAddress;
     o_trackingNumber := tn;
     o_orderNotes := Some "Order placed via demo cart" |}.

(** An order whose owner is not on file. *)
Definition orphan (st : OrderStatus) : Order :=
  {| o_userId := u9;
     o_orderNumber := "ORD-1700000000000-007";
     o_items := [snapshot (entry pA 2 None) (plain "A" 2000 10)];
     o_subtotal := cents 4000;
     o_tax := cents 400;
     o_total := cents 4400;
     o_status := st;
     o_shippingAddress := OrdersService.demoAddress;
     o_trackingNumber := None;
     o_orderNotes := None |}.

(** The order desk: orders on file, nothing in the carts. *)
Definition desk (os : list (ObjectId * Order)) : World :=
  {| products := ∅;
     carts := ∅;
     orders := list_to_map os;
     users := {[ u1 := ada ]};
     trace := [] |}.

End Runtime.

(** ** Sample data keyed by ObjectIds *)

(** The shop of [shop_AB], with ObjectIds for the customer and the
    products. *)
Definition shop_ids : World :=
  {| products := list_to_map [(Runtime.pA, plain "A" 20 10); (Runtime.pB, plain "B" 10 5)];
     carts := {[ Runtime.u1 := Runtime.cart_AB ]};
     orders := ∅;
     users := {[ Runtime.u1 := ada ]};
     trace := [] |}.

(** A delivered and a pending order of [u1], and a pending one of a
    customer who is gone. *)
Definition desk_ids : World :=
  desk [(Runtime.o1, placed DELIVERED None); (Runtime.o2, placed PENDING None);
        (Runtime.o7, orphan PENDING)].

Definition ship_pair : OrderManagementService.BulkOrderUpdate :=
  {| OrderManagementService.orderIds := [Runtime.o1; Runtime.o2];
     OrderManagementService.bu_status := SHIPPED;
     OrderManagementService.bu_trackingNumber := None;
     OrderManagementService.bu_notes := None |}.

Definition ship_tracked_ids : OrderManagementService.BulkOrderUpdate :=
  {| OrderManagementService.orderIds := [Runtime.o2; Runtime.o7];
     OrderManagementService.bu_status := SHIPPED;
     OrderManagementService.bu_trackingNumber := Some "TRK-7";
     OrderManagementService.bu_notes := None |}.

(** ** Tactics for the sample data *)

(** Solves [entry_valid] on sample data. *)
Ltac valid_entries :=
  repeat (constructor;
          [eexists; split;
           [vm_compute; reflexivity | split; [reflexivity | simpl; lia]] | ]);
  constructor.

(** The world a sample checkout ends in. *)
Tactic Notation "run_of" hyp(H) :=
  match type of H with
  | ?run = (_, ?w') =>
      let E := fresh "Ew" in
      assert (E : w' = run.2) by (now rewrite H); subst w'
  end.

(** ** Helper lemmas *)

Section Rounding.

Lemma toFixed2_comp (x y : Q) : (x == y)%Q -> toFixed2 x = toFixed2 y.
Proof.
  intros H. unfold toFixed2.
  destruct (Qlt_le_dec x 0) as [Hx|Hx], (Qlt_le_dec y 0) as [Hy|Hy].
  - now rewrite H.
  - exfalso. rewrite H in Hx. apply (Qlt_irrefl 0). eapply Qle_lt_trans; eauto.
  - exfalso. rewrite <- H in Hy. apply (Qlt_irrefl 0). eapply Qle_lt_trans; eauto.
  - now rewrite H.
Qed.

End Rounding.

Section CheckoutLoop.

Import OrdersService.

Lemma str_or_empty (a : string) : str_or a "" = a.
Proof. unfold str_or. now destruct (decide (a = "")). Qed.

Lemma itemPrice_frozen (p : Product) : itemPrice p = frozen_price p.
Proof.
  unfold itemPrice, frozen_price, truthy_num.
  destruct (salePrice p) as [sp|], (isOnSale p); simpl; try reflexivity.
  all: try now destruct (Qeq_bool sp 0).
Qed.

Variable w : World.

Lemma checkItem_inr (it : CartItem) (acc acc' : Totals) :
  checkItem acc (populate (products w) it) = inr acc' ->
  exists p,
    products w !! ci_productId it = Some p
    /\ isActive p = true
    /\ (ci_quantity it <= stock p)%Z
    /\ acc' = {| orderItems := orderItems acc ++ [snapshot it p];
                 subtotal := (subtotal acc + line_total (snapshot it p))%Q;
                 stockUpdates :=
                   stockUpdates acc ++
                   [ {| su_productId := ci_productId it;
                        su_newStock := (stock p - ci_quantity it)%Z |} ] |}.
Proof.
  unfold checkItem, populate; simpl.
  destruct (products w !! ci_productId it) as [p|] eqn:Hp; simpl; [|discriminate].
  destruct (isActive p) eqn:Ha; simpl; [|discriminate].
  destruct (Z.ltb_spec (stock p) (ci_quantity it)) as [Hlt|Hge]; [discriminate|].
  intros [= <-]. exists p. repeat split; try done.
  unfold snapshot, line_total; simpl.
  now rewrite str_or_empty, itemPrice_frozen.
Qed.

Lemma checkItem_inl (it : CartItem) (acc : Totals) (e : HttpException) :
  checkItem acc (populate (products w) it) = inl e ->
  (entry_unavailable w it /\ e = ProductUnavailable (reported_name w it))
  \/ (exists p, products w !! ci_productId it = Some p
                /\ (stock p < ci_quantity it)%Z
                /\ e = InsufficientStock p (ci_quantity it)).
Proof.
  unfold checkItem, populate, entry_unavailable, reported_name; simpl.
  destruct (products w !! ci_productId it) as [p|] eqn:Hp; simpl.
  - destruct (isActive p) eqn:Ha; simpl.
    + destruct (Z.ltb_spec (stock p) (ci_quantity it)) as [Hlt|Hge]; [|discriminate].
      intros [= <-]. right. now exists p.
    + intros [= <-]. now left.
  - intros [= <-]. now left.
Qed.

Lemma checkItems_inr (items : list CartItem) :
  forall acc acc',
    checkItems (map (populate (products w)) items) acc = inr acc' ->
    exists ois sus,
      orderItems acc' = orderItems acc ++ ois
      /\ stockUpdates acc' = stockUpdates acc ++ sus
      /\ (subtotal acc' == subtotal acc + items_sum ois)%Q
      /\ Forall2 (snapshot_of w) items ois
      /\ Forall2 (stock_write_of w) items sus
      /\ Forall (entry_valid w) items.
Proof.
  induction items as [|it items IH]; simpl; intros acc acc'.
  - intros [= <-]. exists [], []. rewrite !app_nil_r. simpl.
    repeat split; try constructor. now rewrite Qplus_0_r.
  - destruct (checkItem acc (populate (products w) it)) as [e|acc1] eqn:H1; [discriminate|].
    intros Hrest.
    apply checkItem_inr in H1 as (p & Hp & Ha & Hq & ->).
    apply IH in Hrest as (ois & sus & Ho & Hs & Hsub & Hf1 & Hf2 & Hv).
    simpl in Ho, Hs, Hsub.
    exists (snapshot it p :: ois),
           ({| su_productId := ci_productId it;
               su_newStock := (stock p - ci_quantity it)%Z |} :: sus).
    rewrite Ho, Hs, <- !app_assoc. simpl. repeat split; try done.
    + rewrite Hsub. now rewrite Qplus_assoc.
    + constructor; [now exists p | done].
    + constructor; [now exists p | done].
    + constructor; [now exists p | done].
Qed.

Lemma checkItems_inl (items : list CartItem) :
  forall acc e,
    checkItems (map (populate (products w)) items) acc = inl e ->
    Exists (fun it =>
              (entry_unavailable w it /\ e = ProductUnavailable (reported_name w it))
              \/ (exists p, products w !! ci_productId it = Some p
                            /\ (stock p < ci_quantity it)%Z
                            /\ e = InsufficientStock p (ci_quantity it))) items.
Proof.
  induction items as [|it items IH]; simpl; intros acc e; [discriminate|].
  destruct (checkItem acc (populate (products w) it)) as [e1|acc1] eqn:H1.
  - intros [= <-]. apply Exists_cons_hd. now apply checkItem_inl in H1.
  - intros Hrest. apply Exists_cons_tl. eauto.
Qed.

Lemma entry_valid_excludes (it : CartItem) :
  entry_valid w it -> ~ (entry_unavailable w it \/ entry_insufficient w it).
Proof.
  intros (p & Hp & Ha & Hq) [Hu | (p' & Hp' & Hlt)].
  - unfold entry_unavailable in Hu. rewrite Hp in Hu. congruence.
  - rewrite Hp in Hp'. injection Hp' as <-. lia.
Qed.

Lemma checkItems_valid (items : list CartItem) (acc : Totals) :
  Forall (entry_valid w) items ->
  exists acc', checkItems (map (populate (products w)) items) acc = inr acc'.
Proof.
  intros Hv.
  destruct (checkItems (map (populate (products w)) items) acc) as [e|acc'] eqn:H;
    [|now exists acc'].
  exfalso. apply checkItems_inl in H.
  apply Exists_exists in H as (it & Hin & Hbad).
  rewrite Forall_forall in Hv.
  apply (entry_valid_excludes it); [now apply Hv|].
  destruct Hbad as [[Hu _] | (p & Hp & Hlt & _)]; [now left|].
  right. now exists p.
Qed.

Lemma checkItems_invalid (items : list CartItem) (acc : Totals) :
  Exists (fun it => entry_unavailable w it \/ entry_insufficient w it) items ->
  exists e, checkItems (map (populate (products w)) items) acc = inl e.
Proof.
  intros Hbad.
  destruct (checkItems (map (populate (products w)) items) acc) as [e|acc'] eqn:H;
    [now exists e|].
  exfalso. apply checkItems_inr in H as (ois & sus & _ & _ & _ & _ & _ & Hv).
  apply Exists_exists in Hbad as (it & Hin & Hit).
  rewrite Forall_forall in Hv.
  now apply (entry_valid_excludes it (Hv it Hin)).
Qed.

End CheckoutLoop.

Section CheckoutRun.

Import OrdersService.

Lemma for_of_stock (sus : list StockUpdate) :
  forall w,
    for_of sus (fun stockUpdate =>
                  Product_findByIdAndUpdate (su_productId stockUpdate) (su_newStock stockUpdate)) w
    = (inr tt, {| products := apply_stock sus (products w);
                  carts := carts w; orders := orders w; users := users w;
                  trace := trace w ++ map stock_effect sus |}).
Proof.
  induction sus as [|su sus IH]; intros w; simpl.
  - unfold ret. rewrite app_nil_r. now destruct w.
  - unfold bind, Product_findByIdAndUpdate at 1. rewrite IH. simpl.
    now rewrite <- app_assoc.
Qed.

Variables (env : Env) (userId : ObjectId) (dto : CreateOrderDto) (w : World).

Lemma createOrderFromCart_empty :
  cart_missing_or_empty w userId ->
  createOrderFromCart env userId dto w = (inl CartEmpty, w).
Proof.
  intros H. unfold createOrderFromCart, try_catch, bind, Cart_findOne_populate, get, ret.
  simpl. destruct H as [-> | ->]; reflexivity.
Qed.

Lemma createOrderFromCart_rejected (items : list CartItem) (e : HttpException) :
  carts w !! userId = Some items ->
  checkItems (map (populate (products w)) items) init_totals = inl e ->
  createOrderFromCart env userId dto w = (inl e, w).
Proof.
  intros Hc He.
  assert (Hbad : exists m, e = BadRequestException m).
  { apply checkItems_inl, Exists_exists in He as (it & _ & [[_ ->] | (p & _ & _ & ->)]);
      eexists; reflexivity. }
  destruct Hbad as [m ->].
  unfold createOrderFromCart, try_catch, bind, Cart_findOne_populate, get, ret.
  simpl. rewrite Hc. simpl.
  destruct items as [|it items]; [discriminate|].
  change (map (populate (products w)) (it :: items))
    with (populate (products w) it :: map (populate (products w)) items) in He |- *.
  fold init_totals. now rewrite He.
Qed.

Lemma createOrderFromCart_accepted (items : list CartItem) (acc : Totals) :
  carts w !! userId = Some items ->
  items <> [] ->
  checkItems (map (populate (products w)) items) init_totals = inr acc ->
  createOrderFromCart env userId dto w
  = (inr (view_of (new_ObjectId env) (newOrder env userId dto acc)),
     after_checkout env userId dto acc w).
Proof.
  intros Hc Hne He.
  unfold createOrderFromCart, try_catch, bind at 1, Cart_findOne_populate, get, ret.
  simpl. rewrite Hc. simpl.
  destruct items as [|it items]; [done|].
  change (map (populate (products w)) (it :: items))
    with (populate (products w) it :: map (populate (products w)) items) in He |- *.
  fold init_totals. rewrite He.
  unfold bind at 1, Order_save. unfold bind at 1, User_findById, bind at 1, get, ret.
  simpl.
  unfold after_checkout, admin_notice.
  destruct (users w !! userId) as [user|] eqn:Hu.
  - unfold bind at 1, NotificationService.notifyNewOrder, emit. simpl.
    unfold bind at 1. rewrite for_of_stock. simpl.
    unfold bind at 1, Cart_findOneAndUpdate. simpl.
    unfold getOrderById, try_catch, bind, get, ret. simpl.
    rewrite lookup_insert_eq. simpl.
    destruct (decide (userId = userId)); [|done].
    unfold view_of. simpl. rewrite <- !app_assoc. reflexivity.
  - unfold bind at 1, ret. unfold bind at 1. rewrite for_of_stock. simpl.
    unfold bind at 1, Cart_findOneAndUpdate. simpl.
    unfold getOrderById, try_catch, bind, get, ret. simpl.
    rewrite lookup_insert_eq. simpl.
    destruct (decide (userId = userId)); [|done].
    unfold view_of. simpl. rewrite <- !app_assoc. reflexivity.
Qed.

(** Every run of checkout is one of the three above. *)
Lemma createOrderFromCart_cases :
  (cart_missing_or_empty w userId
   /\ createOrderFromCart env userId dto w = (inl CartEmpty, w))
  \/ (exists items e,
        carts w !! userId = Some items /\ items <> []
        /\ checkItems (map (populate (products w)) items) init_totals = inl e
        /\ createOrderFromCart env userId dto w = (inl e, w))
  \/ (exists items acc,
        carts w !! userId = Some items /\ items <> []
        /\ checkItems (map (populate (products w)) items) init_totals = inr acc
        /\ createOrderFromCart env userId dto w
           = (inr (view_of (new_ObjectId env) (newOrder env userId dto acc)),
              after_checkout env userId dto acc w)).
Proof.
  destruct (carts w !! userId) as [items|] eqn:Hc.
  - destruct items as [|it items].
    + left. split; [now right|]. apply createOrderFromCart_empty. now right.
    + right.
      destruct (checkItems (map (populate (products w)) (it :: items)) init_totals)
        as [e|acc] eqn:He.
      * left. exists (it :: items), e. repeat split; try done.
        now apply createOrderFromCart_rejected with (items := it :: items).
      * right. exists (it :: items), acc. repeat split; try done.
        now apply createOrderFromCart_accepted with (items := it :: items).
  - left. split; [now left|]. apply createOrderFromCart_empty. now left.
Qed.

End CheckoutRun.

Section StockWrites.

Import OrdersService.

Lemma apply_stock_other (sus : list StockUpdate) (pid : ObjectId) :
  forall ps,
    Forall (fun su => su_productId su <> pid) sus ->
    apply_stock sus ps !! pid = ps !! pid.
Proof.
  induction sus as [|su sus IH]; intros ps Hne; [reflexivity|].
  apply Forall_cons in Hne as [Hsu Hne].
  change (apply_stock (su :: sus) ps)
    with (apply_stock sus (alter (set_stock (su_newStock su)) (su_productId su) ps)).
  rewrite IH by done. now apply lookup_alter_ne.
Qed.

End StockWrites.

(** ** Checkout: failure leaves the world alone *)

(** C2. A checkout whose cart is missing or empty, or one of whose entries
    refers to a missing or inactive product or asks for more than the
    product's stock, throws the matching error ([CartEmpty],
    [ProductUnavailable] for an entry that is unavailable, [InsufficientStock]
    for an entry that is short) and returns the world it was given: no order,
    no stock write, no cart write, nothing sent. *)
Theorem checkout_failure_mutates_nothing
    (env : Env) (userId : ObjectId) (dto : CreateOrderDto) (w : World) :
  checkout_precondition_fails w userId ->
  exists e,
    OrdersService.createOrderFromCart env userId dto w = (inl e, w)
    /\ ((cart_missing_or_empty w userId /\ e = CartEmpty)
        \/ (exists items it,
              carts w !! userId = Some items /\ it ∈ items
              /\ entry_unavailable w it
              /\ e = ProductUnavailable (reported_name w it))
        \/ (exists items it p,
              carts w !! userId = Some items /\ it ∈ items
              /\ products w !! ci_productId it = Some p
              /\ (stock p < ci_quantity it)%Z
              /\ e = InsufficientStock p (ci_quantity it))).
Proof.
  intros Hfail.
  destruct (createOrderFromCart_cases env userId dto w)
    as [[Hempty Hrun] | [(items & e & Hc & Hne & He & Hrun) | (items & acc & Hc & Hne & He & _)]].
  - exists CartEmpty. split; [done|]. now left.
  - exists e. split; [done|]. right.
    apply checkItems_inl, Exists_exists in He as (it & Hin & Hit).
    destruct Hit as [[Hu ->] | (p & Hp & Hlt & ->)].
    + left. exists items, it. repeat split; try done.
    + right. exists items, it, p. repeat split; try done.
  - exfalso. destruct Hfail as [[Hnone | Hnil] | (items' & Hc' & Hbad)].
    + congruence.
    + rewrite Hc in Hnil. now injection Hnil.
    + rewrite Hc in Hc'. injection Hc' as <-.
      destruct (checkItems_invalid w items init_totals Hbad) as [e' He']. congruence.
Qed.

(** Three in stock, five requested: [InsufficientStock], world unchanged. *)
Lemma checkout_failure_mutates_nothing_witness :
  exists e,
    OrdersService.createOrderFromCart env0 "u1" dto0 shop_short = (inl e, shop_short)
    /\ ((cart_missing_or_empty shop_short "u1" /\ e = CartEmpty)
        \/ (exists items it,
              carts shop_short !! "u1" = Some items /\ it ∈ items
              /\ entry_unavailable shop_short it
              /\ e = ProductUnavailable (reported_name shop_short it))
        \/ (exists items it p,
              carts shop_short !! "u1" = Some items /\ it ∈ items
              /\ products shop_short !! ci_productId it = Some p
              /\ (stock p < ci_quantity it)%Z
              /\ e = InsufficientStock p (ci_quantity it))).
Proof.
  apply (checkout_failure_mutates_nothing env0 "u1" dto0 shop_short).
  right. exists [entry "pA" 5 None]. split; [reflexivity|].
  apply Exists_cons_hd. right. exists (plain "A" 20 3). split; [reflexivity|].
  simpl. lia.
Defined.

(** ** Checkout: what a successful run did *)

Lemma createOrderFromCart_inr_inv (env : Env) (userId : ObjectId) (dto : CreateOrderDto)
    (w w' : World) (view : OrdersService.OrderView) :
  OrdersService.createOrderFromCart env userId dto w = (inr view, w') ->
  exists items acc,
    carts w !! userId = Some items /\ items <> []
    /\ OrdersService.checkItems (map (populate (products w)) items) init_totals = inr acc
    /\ view = view_of (new_ObjectId env) (OrdersService.newOrder env userId dto acc)
    /\ w' = after_checkout env userId dto acc w.
Proof.
  intros Hrun.
  destruct (createOrderFromCart_cases env userId dto w)
    as [[_ H] | [(items & e & _ & _ & _ & H) | (items & acc & Hc & Hne & He & H)]];
    rewrite H in Hrun; try discriminate.
  injection Hrun as <- <-. now exists items, acc.
Qed.

(** ** The order status engine: its runs *)

Section StatusEngine.

Import OrdersService.

Lemma allowed_transitions (current next : OrderStatus) :
  allowed current next <-> next ∈ getValidStatusTransitions current.
Proof.
  destruct current, next; simpl; split; intros Hstep;
    first [ exact I
          | contradiction
          | apply list_elem_of_In; simpl; tauto
          | apply list_elem_of_In in Hstep; simpl in Hstep; intuition discriminate ].
Qed.

Variables (env : Env) (orderId : ObjectId) (dto : UpdateOrderStatusDto) (w : World).

Lemma updateOrderStatus_missing :
  orders w !! orderId = None ->
  updateOrderStatus env orderId dto w = (inl OrderNotFound, w).
Proof.
  intros H. unfold updateOrderStatus, try_catch, bind, Order_findById, get, ret.
  simpl. now rewrite H.
Qed.

Lemma updateOrderStatus_rejected (o : Order) :
  orders w !! orderId = Some o ->
  ~ allowed (o_status o) (status dto) ->
  updateOrderStatus env orderId dto w
  = (inl (InvalidTransition (o_status o) (status dto)), w).
Proof.
  intros H Hno. rewrite allowed_transitions in Hno.
  unfold updateOrderStatus, try_catch, bind, Order_findById, get, ret.
  simpl. rewrite H. simpl.
  now rewrite bool_decide_eq_false_2.
Qed.

Lemma updateOrderStatus_accepted (o : Order) :
  orders w !! orderId = Some o ->
  allowed (o_status o) (status dto) ->
  updateOrderStatus env orderId dto w
  = (inr {| sv_id := orderId;
            sv_orderNumber := o_orderNumber o;
            sv_status := status dto |},
     after_status_update env orderId dto o w).
Proof.
  intros H Hyes. rewrite allowed_transitions in Hyes.
  unfold updateOrderStatus, try_catch, bind, Order_findById, get, ret.
  simpl. rewrite H. simpl.
  rewrite bool_decide_eq_true_2 by done. simpl.
  unfold after_status_update, applyStatus.
  destruct (truthy_str (statusNote dto)); simpl; rewrite <- app_assoc; reflexivity.
Qed.

Lemma applyStatus_status (o : Order) : o_status (applyStatus env dto o) = status dto.
Proof. unfold applyStatus. now destruct (truthy_str (statusNote dto)). Qed.

End StatusEngine.

Lemma allowed_decidable (current next : OrderStatus) :
  allowed current next \/ ~ allowed current next.
Proof. destruct current, next; simpl; tauto. Qed.

Lemma update_through_step (env : Env) (orderId : ObjectId) (note : OrderStatus -> option string)
    (s : OrderStatus) (path : list OrderStatus) (w : World) (o : Order) :
  orders w !! orderId = Some o ->
  allowed (o_status o) s ->
  update_through env orderId note (s :: path) w
  = update_through env orderId note path
      (after_status_update env orderId {| status := s; statusNote := note s |} o w).
Proof.
  intros Ho Hs. unfold update_through. simpl. unfold bind at 1 2.
  now rewrite (updateOrderStatus_accepted env orderId
                 {| status := s; statusNote := note s |} w o Ho Hs).
Qed.

Lemma after_status_update_order (env : Env) (orderId : ObjectId) (dto : UpdateOrderStatusDto)
    (o : Order) (w : World) :
  orders (after_status_update env orderId dto o w) !! orderId
  = Some (OrdersService.applyStatus env dto o).
Proof. apply lookup_insert_eq. Qed.

(** ** Checkout: the frozen price *)

(** C9. In the order of a successful checkout, the item of a cart entry
    whose product is flagged on-sale but has no sale price, or a sale price of
    zero, carries the base price; the sale price is carried exactly when the
    product is flagged on-sale and its sale price is not zero, and a product
    that is not flagged carries the base price. *)
Theorem checkout_freezes_price
    (env : Env) (userId : ObjectId) (dto : CreateOrderDto) (w w' : World)
    (view : OrdersService.OrderView) :
  OrdersService.createOrderFromCart env userId dto w = (inr view, w') ->
  exists items order,
    carts w !! userId = Some items
    /\ orders w' !! new_ObjectId env = Some order
    /\ length (o_items order) = length items
    /\ forall i it oi,
         items !! i = Some it ->
         o_items order !! i = Some oi ->
         exists p,
           products w !! ci_productId it = Some p
           /\ (isOnSale p = true ->
               salePrice p = None \/ (exists sp, salePrice p = Some sp /\ (sp == 0)%Q) ->
               oi_price oi = price p)
           /\ (forall sp,
                 isOnSale p = true -> salePrice p = Some sp -> ~ (sp == 0)%Q ->
                 oi_price oi = sp)
           /\ (isOnSale p = false -> oi_price oi = price p).
Proof.
  intros Hrun.
  apply createOrderFromCart_inr_inv in Hrun as (items & acc & Hc & Hne & He & -> & ->).
  apply checkItems_inr in He as (ois & sus & Ho & _ & _ & Hf1 & _).
  simpl in Ho.
  exists items, (OrdersService.newOrder env userId dto acc).
  simpl. rewrite lookup_insert_eq, Ho.
  repeat split; try done.
  - symmetry. eapply Forall2_length; eauto.
  - intros i it oi Hi Hoi.
    destruct (Forall2_lookup_lr _ _ _ _ _ _ Hf1 Hi Hoi) as (p & Hp & ->).
    exists p. split; [done|]. unfold snapshot, frozen_price. simpl.
    repeat split.
    + intros Hsale [-> | (sp & -> & Hz)]; [reflexivity|].
      rewrite Hsale. apply Qeq_bool_iff in Hz. now rewrite Hz.
    + intros sp Hsale -> Hnz. rewrite Hsale.
      destruct (Qeq_bool sp 0) eqn:Hz; [|reflexivity].
      apply Qeq_bool_iff in Hz. contradiction.
    + intros Hsale. rewrite Hsale. now destruct (salePrice p).
Qed.

(** Flagged on-sale at a sale price of zero: frozen at the base price 25. *)
Lemma checkout_freezes_price_witness :
  exists view w' order oi,
    OrdersService.createOrderFromCart env0 "u1" dto0 shop_flagged = (inr view, w')
    /\ orders w' !! "o1" = Some order
    /\ o_items order !! 0%nat = Some oi
    /\ oi_price oi = price flagged.
Proof.
  edestruct (checkout_freezes_price env0 "u1" dto0 shop_flagged)
    as (items & order & Hc & Ho & Hlen & Hprice).
  { vm_compute. reflexivity. }
  vm_compute in Hc. injection Hc as <-.
  destruct (o_items order) as [|oi ois] eqn:Hitems; [discriminate|].
  destruct (Hprice 0%nat _ oi eq_refl eq_refl) as (p & Hp & Hbase & _).
  vm_compute in Hp. injection Hp as <-.
  eexists _, _, order, oi. split; [vm_compute; reflexivity|].
  split; [exact Ho|]. rewrite Hitems. split; [reflexivity|].
  apply Hbase; [reflexivity|]. right. exists 0%Q. split; reflexivity.
Defined.

(** ** The admin dashboard's status updates *)

(** C1, on the code.  [OrdersService.updateOrderStatus] refuses to move a
    delivered order to pending, but [OrderManagementService.updateOrderStatus]
    does it, and [OrderManagementService.bulkUpdateOrders] moves a delivered
    and a pending order to shipped, neither of which the transition table
    allows. *)
Theorem admin_paths_skip_transition_check :
  OrdersService.updateOrderStatus env0 "o1" {| status := PENDING; statusNote := None |} desk_two
  = (inl (InvalidTransition DELIVERED PENDING), desk_two)
  /\ (exists result w' o',
        OrderManagementService.updateOrderStatus "o1" PENDING None None desk_two
        = (inr result, w')
        /\ orders w' !! "o1" = Some o'
        /\ o_status o' = PENDING
        /\ ~ allowed DELIVERED PENDING)
  /\ (exists result w' o1 o2,
        OrderManagementService.bulkUpdateOrders ship_both desk_two = (inr result, w')
        /\ OrderManagementService.br_affectedOrders result = 2%nat
        /\ orders w' !! "o1" = Some o1 /\ o_status o1 = SHIPPED
        /\ orders w' !! "o2" = Some o2 /\ o_status o2 = SHIPPED
        /\ ~ allowed DELIVERED SHIPPED
        /\ ~ allowed PENDING SHIPPED).
Proof.
  split; [|split].
  - vm_compute. reflexivity.
  - eexists _, _, _. split; [vm_compute; reflexivity|].
    split; [vm_compute; reflexivity|]. split; [reflexivity|]. simpl. tauto.
  - eexists _, _, _, _. split; [vm_compute; reflexivity|].
    split; [reflexivity|].
    split; [vm_compute; reflexivity|]. split; [reflexivity|].
    split; [vm_compute; reflexivity|]. split; [reflexivity|]. simpl. tauto.
Qed.

(** ** The runtime model: helper lemmas

    From here to the end of the statements about the admin notification the
    services are those of [Runtime]. *)

Section RuntimeLoop.

Import Js Runtime Runtime.OrdersService.

Lemma rt_itemPrice_frozen (p : Product) : itemPrice p = frozen_price p.
Proof.
  unfold itemPrice, frozen_price, truthy.
  now destruct (salePrice p) as [sp|], (isOnSale p).
Qed.

Variable w : World.

Lemma rt_checkItem_inr (it : CartItem) (acc acc' : Totals) :
  checkItem acc (populate (products w) it) = inr acc' ->
  exists p,
    products w !! ci_productId it = Some p
    /\ isActive p = true
    /\ (ci_quantity it <= stock p)%Z
    /\ acc' = {| orderItems := orderItems acc ++ [snapshot it p];
                 subtotal := PrimFloat.add (subtotal acc) (line_total (snapshot it p));
                 stockUpdates :=
                   stockUpdates acc ++
                   [ {| su_productId := ci_productId it;
                        su_newStock := (stock p - ci_quantity it)%Z |} ] |}.
Proof.
  unfold checkItem, populate; simpl.
  destruct (products w !! ci_productId it) as [p|] eqn:Hp; simpl; [|discriminate].
  destruct (isActive p) eqn:Ha; simpl; [|discriminate].
  destruct (Z.ltb_spec (stock p) (ci_quantity it)) as [Hlt|Hge]; [discriminate|].
  intros [= <-]. exists p. repeat split; try done.
  unfold snapshot, line_total; simpl.
  now rewrite str_or_empty, rt_itemPrice_frozen.
Qed.

Lemma rt_checkItem_inl (it : CartItem) (acc : Totals) (e : HttpException) :
  checkItem acc (populate (products w) it) = inl e ->
  (exists m, e = BadRequestException m) /\ ~ entry_valid w it.
Proof.
  unfold checkItem, populate, entry_valid; simpl.
  destruct (products w !! ci_productId it) as [p|] eqn:Hp; simpl.
  - destruct (isActive p) eqn:Ha; simpl.
    + destruct (Z.ltb_spec (stock p) (ci_quantity it)) as [Hlt|Hge]; [|discriminate].
      intros [= <-]. split; [eexists; reflexivity|].
      intros (p' & [= <-] & _ & Hq). lia.
    + intros [= <-]. split; [eexists; reflexivity|].
      intros (p' & [= <-] & Ha' & _). congruence.
  - intros [= <-]. split; [eexists; reflexivity|].
    intros (p' & [=] & _).
Qed.

(** What the validation loop has gathered when it is through: one item
    and one stock write per entry, and the running sum. *)
Lemma rt_checkItems_inr (items : list CartItem) :
  forall acc acc',
    checkItems (map (populate (products w)) items) acc = inr acc' ->
    exists ois sus,
      orderItems acc' = orderItems acc ++ ois
      /\ stockUpdates acc' = stockUpdates acc ++ sus
      /\ subtotal acc'
         = foldl (fun s oi => PrimFloat.add s (line_total oi)) (subtotal acc) ois
      /\ Forall2 (snapshot_of w) items ois
      /\ Forall2 (stock_write_of w) items sus
      /\ Forall (entry_valid w) items.
Proof.
  induction items as [|it items IH]; simpl; intros acc acc'.
  - intros [= <-]. exists [], []. rewrite !app_nil_r. simpl.
    repeat split; constructor.
  - destruct (checkItem acc (populate (products w) it)) as [e|acc1] eqn:H1; [discriminate|].
    intros Hrest.
    apply rt_checkItem_inr in H1 as (p & Hp & Ha & Hq & ->).
    apply IH in Hrest as (ois & sus & Ho & Hs & Hsub & Hf1 & Hf2 & Hv).
    simpl in Ho, Hs, Hsub.
    exists (snapshot it p :: ois),
           ({| su_productId := ci_productId it;
               su_newStock := (stock p - ci_quantity it)%Z |} :: sus).
    rewrite Ho, Hs, <- !app_assoc. simpl. repeat split; try done.
    + constructor; [now exists p | done].
    + constructor; [now exists p | done].
    + constructor; [now exists p | done].
Qed.

Lemma rt_checkItems_inl (items : list CartItem) :
  forall acc e,
    checkItems (map (populate (products w)) items) acc = inl e ->
    (exists m, e = BadRequestException m) /\ Exists (fun it => ~ entry_valid w it) items.
Proof.
  induction items as [|it items IH]; simpl; intros acc e; [discriminate|].
  destruct (checkItem acc (populate (products w) it)) as [e1|acc1] eqn:H1.
  - intros [= <-]. apply rt_checkItem_inl in H1 as [Hm Hv].
    split; [exact Hm | now apply Exists_cons_hd].
  - intros Hrest. apply IH in Hrest as [Hm Hv].
    split; [exact Hm | now apply Exists_cons_tl].
Qed.





End RuntimeLoop.

Section RuntimeRun.

Import Js Runtime Runtime.OrdersService.

Lemma rt_for_of_stock (sus : list StockUpdate) :
  forall w,
    for_of sus (fun stockUpdate =>
                  Product_findByIdAndUpdate (su_productId stockUpdate) (su_newStock stockUpdate)) w
    = (inr tt, {| products := apply_stock sus (products w);
                  carts := carts w; orders := orders w; users := users w;
                  trace := trace w ++ map stock_effect sus |}).
Proof.
  induction sus as [|su sus IH]; intros w; simpl.
  - unfold ret. rewrite app_nil_r. now destruct w.
  - unfold bind, Product_findByIdAndUpdate at 1. rewrite IH. simpl.
    now rewrite <- app_assoc.
Qed.

Lemma rt_orderNumber_required (env : Env) : required (OrdersService.generateOrderNumber env) = true.
Proof. unfold required. now rewrite bool_decide_eq_false_2. Qed.

(** The address checkout puts in when the request has none passes the
    schema. *)
Lemma rt_newOrder_valid (env : Env) (uid : ObjectId) (dto : CreateOrderDto) (acc : Totals) :
  Order_valid (newOrder env uid dto acc)
  = forallb OrderItem_valid (orderItems acc)
    && (min0 (toFixed2 (subtotal acc)) && min0 (toFixed2 (tax_of (subtotal acc)))
        && min0 (toFixed2 (total_of (subtotal acc))))
    && match shippingAddress dto with
       | Some a => ShippingAddress_valid a
       | None => true
       end.
Proof.
  unfold Order_valid, amounts_valid, newOrder. cbn [o_orderNumber o_items o_subtotal o_tax o_total
                                                     o_shippingAddress].
  rewrite rt_orderNumber_required. now destruct (shippingAddress dto).
Qed.

Lemma rt_getOrderById_run (lib : Library) (userId orderId : string) (uid id : ObjectId)
    (w : World) (o : Order) :
  ObjectId_cast lib orderId = Some id ->
  ObjectId_cast lib userId = Some uid ->
  orders w !! id = Some o ->
  o_userId o = uid ->
  getOrderById lib userId orderId w = (inr (view_of id o), w).
Proof.
  intros Hid Hu Ho Hown.
  unfold getOrderById, try_catch, bind, Types_ObjectId, get, ret. rewrite Hid, Hu. simpl.
  rewrite Ho. now rewrite decide_True.
Qed.

Variables (lib : Library) (env : Env) (userId : string) (dto : CreateOrderDto) (w : World).

Lemma rt_createOrderFromCart_accepted (uid : ObjectId) (items : list CartItem) (acc : Totals) :
  ObjectId_cast lib userId = Some uid ->
  ObjectId_cast lib (new_ObjectId env) = Some (new_ObjectId env) ->
  carts w !! uid = Some items ->
  items <> [] ->
  checkItems (map (populate (products w)) items) init_totals = inr acc ->
  Order_valid (newOrder env uid dto acc) = true ->
  orders w !! new_ObjectId env = None ->
  orderNumber_taken (OrdersService.generateOrderNumber env) w = false ->
  createOrderFromCart lib env userId dto w
  = (inr (view_of (new_ObjectId env) (newOrder env uid dto acc)),
     after_checkout env userId uid dto acc w).
Proof.
  intros Hu Hnew Hc Hne He Hvalid Hfresh Hnum.
  unfold createOrderFromCart, try_catch, bind at 1, Types_ObjectId. rewrite Hu.
  unfold ret at 1, bind at 1, Cart_findOne_populate, bind at 1, get, ret at 1. simpl.
  rewrite Hc. simpl.
  destruct items as [|it items]; [done|].
  change (map (populate (products w)) (it :: items))
    with (populate (products w) it :: map (populate (products w)) items) in He |- *.
  fold init_totals. rewrite He.
  unfold bind at 1, Order_insert. rewrite Hvalid. simpl.
  rewrite Hfresh. rewrite bool_decide_eq_false_2 by (intros [? ?]; discriminate).
  cbn [orb o_orderNumber newOrder] in *. rewrite Hnum.
  unfold bind at 1, User_findById, bind at 1, get, ret. simpl.
  unfold after_checkout, admin_notice.
  destruct (users w !! uid) as [user|] eqn:Huser.
  - unfold bind at 1, NotificationService.notifyNewOrder, emit. simpl.
    unfold bind at 1. rewrite rt_for_of_stock. simpl.
    unfold bind at 1, Cart_findOneAndUpdate. simpl.
    erewrite rt_getOrderById_run; [|exact Hnew|exact Hu|simpl; apply lookup_insert_eq|reflexivity].
    rewrite <- !app_assoc. reflexivity.
  - unfold bind at 1, ret. unfold bind at 1. rewrite rt_for_of_stock. simpl.
    unfold bind at 1, Cart_findOneAndUpdate. simpl.
    erewrite rt_getOrderById_run; [|exact Hnew|exact Hu|simpl; apply lookup_insert_eq|reflexivity].
    rewrite <- !app_assoc. reflexivity.
Qed.

End RuntimeRun.

Section RuntimeRunInv.

Import Js Runtime Runtime.OrdersService.

Variables (lib : Library) (env : Env) (userId : string) (dto : CreateOrderDto) (w : World).

(** What a successful checkout did. *)
Lemma rt_createOrderFromCart_inr_inv (w' : World) (view : OrderView) :
  ObjectId_cast lib (new_ObjectId env) = Some (new_ObjectId env) ->
  createOrderFromCart lib env userId dto w = (inr view, w') ->
  exists uid items acc,
    ObjectId_cast lib userId = Some uid
    /\ carts w !! uid = Some items /\ items <> []
    /\ checkItems (map (populate (products w)) items) init_totals = inr acc
    /\ Order_valid (newOrder env uid dto acc) = true
    /\ orders w !! new_ObjectId env = None
    /\ orderNumber_taken (OrdersService.generateOrderNumber env) w = false
    /\ view = view_of (new_ObjectId env) (newOrder env uid dto acc)
    /\ w' = after_checkout env userId uid dto acc w.
Proof.
  intros Hnew Hrun. pose proof Hrun as Hrun0.
  unfold createOrderFromCart, try_catch, bind at 1, Types_ObjectId in Hrun.
  destruct (ObjectId_cast lib userId) as [uid|] eqn:Hu; [|discriminate].
  unfold ret at 1, bind at 1, Cart_findOne_populate, bind at 1, get, ret at 1 in Hrun.
  simpl in Hrun.
  destruct (carts w !! uid) as [items|] eqn:Hc; [|discriminate].
  simpl in Hrun.
  destruct items as [|it items]; [discriminate|].
  destruct (checkItems (map (populate (products w)) (it :: items)) init_totals)
    as [e|acc] eqn:He.
  { pose proof He as He'. apply rt_checkItems_inl in He' as [[m ->] _].
    unfold init_totals in He. simpl in He, Hrun. rewrite He in Hrun. discriminate. }
  pose proof He as He'. unfold init_totals in He'. simpl in He', Hrun. rewrite He' in Hrun.
  clear He'. unfold bind at 1, Order_insert in Hrun.
  destruct (Order_valid (newOrder env uid dto acc)) eqn:Hvalid; [|discriminate].
  cbn [negb o_orderNumber newOrder] in Hrun.
  destruct (bool_decide (is_Some (orders w !! new_ObjectId env))
            || orderNumber_taken (OrdersService.generateOrderNumber env) w) eqn:Hdup;
    [discriminate|].
  clear Hrun. rename Hrun0 into Hrun.
  apply orb_false_iff in Hdup as [Hfresh Hnum].
  apply bool_decide_eq_false in Hfresh.
  assert (Hnone : orders w !! new_ObjectId env = None).
  { destruct (orders w !! new_ObjectId env); [|reflexivity]. exfalso. apply Hfresh. eauto. }
  rewrite (rt_createOrderFromCart_accepted lib env userId dto w uid (it :: items) acc)
    in Hrun by done.
  injection Hrun as <- <-. exists uid, (it :: items), acc. repeat split; done.
Qed.

End RuntimeRunInv.

Section RuntimeStockWrites.

Import Js Runtime Runtime.OrdersService.





End RuntimeStockWrites.

Section RuntimeRounding.

Import Js.

Lemma rt_toFixed2_two_decimals (x : number) :
  Number_isFinite x = true -> Runtime.two_decimals (toFixed2 x).
Proof.
  unfold Number_isFinite, toFixed2, Runtime.two_decimals.
  destruct (FloatOps.Prim2SF x) as [s|s| |s m e]; try discriminate; intros _.
  - exists 0%Z. left. reflexivity.
  - exists (nearest 100 (Z.pos m) e). destruct s; [now right | now left].
Qed.

End RuntimeRounding.

(** ** Checkout: what a valid cart produces *)

Section CheckoutCreates.

Import Js Runtime.




End CheckoutCreates.

(** ** Checkout: the three stored figures *)

Section CheckoutFigures.

Import Js Runtime.

(** C4, as the code has it.  The order a checkout creates stores subtotal,
    tax and total as the two-decimal roundings of three binary64 amounts: the
    sum of price times quantity, the product of that sum and 0.1, and the sum
    of these two.  Each stored figure is a number not below zero, and a
    decimal with two places when the amount it is rounded from is finite.  The
    total is rounded from the unrounded sum: it is not computed from the
    stored subtotal and the stored tax. *)
Theorem checkout_stored_totals
    (lib : Library) (env : Env) (userId : string) (dto : CreateOrderDto) (w w' : World)
    (view : OrdersService.OrderView) :
  ObjectId_cast lib (new_ObjectId env) = Some (new_ObjectId env) ->
  OrdersService.createOrderFromCart lib env userId dto w = (inr view, w') ->
  exists order,
    orders w' !! new_ObjectId env = Some order
    /\ view = view_of (new_ObjectId env) order
    /\ o_subtotal order = toFixed2 (items_total (o_items order))
    /\ o_tax order = toFixed2 (PrimFloat.mul (items_total (o_items order)) (cents 10))
    /\ o_total order
       = toFixed2 (PrimFloat.add (items_total (o_items order))
                                 (PrimFloat.mul (items_total (o_items order)) (cents 10)))
    /\ min0 (o_subtotal order) = true
    /\ min0 (o_tax order) = true
    /\ min0 (o_total order) = true
    /\ (Number_isFinite (items_total (o_items order)) = true ->
        two_decimals (o_subtotal order))
    /\ (Number_isFinite (PrimFloat.mul (items_total (o_items order)) (cents 10)) = true ->
        two_decimals (o_tax order))
    /\ (Number_isFinite
          (PrimFloat.add (items_total (o_items order))
                         (PrimFloat.mul (items_total (o_items order)) (cents 10))) = true ->
        two_decimals (o_total order)).
Proof.
  intros Hnew Hrun.
  apply rt_createOrderFromCart_inr_inv in Hrun
    as (uid & items & acc & Hu & Hc & Hne & He & Hvalid & _ & _ & -> & ->); [|exact Hnew].
  apply rt_checkItems_inr in He as (ois & sus & Ho & _ & Hsub & _).
  simpl in Ho, Hsub. fold (items_total ois) in Hsub.
  rewrite rt_newOrder_valid in Hvalid.
  apply andb_true_iff in Hvalid as [Hvalid _].
  apply andb_true_iff in Hvalid as [_ Hvalid].
  apply andb_true_iff in Hvalid as [Hvalid H3].
  apply andb_true_iff in Hvalid as [H1 H2].
  exists (OrdersService.newOrder env uid dto acc). simpl.
  rewrite lookup_insert_eq, Ho.
  unfold OrdersService.total_of, OrdersService.tax_of, OrdersService.taxRate in *.
  rewrite Hsub in *.
  repeat split; try assumption; apply rt_toFixed2_two_decimals.
Qed.

(** Subtotal 50.00, tax 5.00, total 55.00. *)
Lemma checkout_stored_totals_witness :
  exists view w' order,
    OrdersService.createOrderFromCart library env1 u1 dto0 shop_AB = (inr view, w')
    /\ orders w' !! o1 = Some order
    /\ o_subtotal order = cents 5000
    /\ o_tax order = cents 500
    /\ o_total order = cents 5500
    /\ two_decimals (o_total order).
Proof.
  destruct (OrdersService.createOrderFromCart library env1 u1 dto0 shop_AB)
    as [[e|view] w'] eqn:Hrun; [vm_compute in Hrun; discriminate|].
  destruct (checkout_stored_totals library env1 u1 dto0 shop_AB w' view eq_refl Hrun)
    as (order & Ho & _ & Hs & Ht & Htot & _ & _ & _ & _ & _ & Htwo).
  exists view, w', order. split; [reflexivity|]. split; [exact Ho|].
  run_of Hrun. vm_compute in Ho. injection Ho as <-.
  repeat split; try (vm_compute; reflexivity).
  apply Htwo. vm_compute. reflexivity.
Defined.

(** At a price of 0.45 the stored figures are 0.45, 0.05 and 0.49. *)
Lemma totals_as_specified_fails :
  exists view w' order,
    OrdersService.createOrderFromCart library env1 u1 dto0 shop_045 = (inr view, w')
    /\ orders w' !! o1 = Some order
    /\ o_subtotal order = cents 45
    /\ o_tax order = cents 5
    /\ o_total order = cents 49
    /\ ~ totals_as_specified order.
Proof.
  eexists _, _, _. split; [vm_compute; reflexivity|].
  split; [vm_compute; reflexivity|].
  repeat split; try (vm_compute; reflexivity).
  intros (_ & _ & _ & H).
  apply (f_equal FloatOps.Prim2SF) in H. vm_compute in H. discriminate.
Qed.

End CheckoutFigures.

(** ** Checkout: the order of the effects *)

Section CheckoutEffects.

Import Js Runtime.




End CheckoutEffects.

(** ** The order status engine *)

Section RuntimeStatusEngine.

Import Js Runtime Runtime.OrdersService.

Variables (lib : Library) (env : Env) (orderId : string) (dto : UpdateOrderStatusDto)
  (w : World).

Lemma rt_applyStatus_status (o : Order) : o_status (applyStatus env dto o) = status dto.
Proof. unfold applyStatus. now destruct (truthy_str (statusNote dto)). Qed.

Lemma rt_applyStatus_userId (o : Order) : o_userId (applyStatus env dto o) = o_userId o.
Proof. unfold applyStatus. now destruct (truthy_str (statusNote dto)). Qed.

(** The status and the notes are not looked at by the validators. *)
Lemma rt_applyStatus_valid (o : Order) : Order_valid (applyStatus env dto o) = Order_valid o.
Proof. unfold applyStatus. now destruct (truthy_str (statusNote dto)). Qed.

Lemma rt_updateOrderStatus_malformed :
  ObjectId_cast lib orderId = None ->
  updateOrderStatus lib env orderId dto w
  = (inl (BadRequestException
            ("Failed to update order status: " +:+ CastError_message lib orderId)), w).
Proof.
  intros H. unfold updateOrderStatus, try_catch, bind, Order_findById. now rewrite H.
Qed.

Lemma rt_updateOrderStatus_missing (id : ObjectId) :
  ObjectId_cast lib orderId = Some id ->
  orders w !! id = None ->
  updateOrderStatus lib env orderId dto w = (inl OrderNotFound, w).
Proof.
  intros Hid H. unfold updateOrderStatus, try_catch, bind, Order_findById, get, ret.
  rewrite Hid. simpl. now rewrite H.
Qed.

Lemma rt_updateOrderStatus_rejected (id : ObjectId) (o : Order) :
  ObjectId_cast lib orderId = Some id ->
  orders w !! id = Some o ->
  ~ allowed (o_status o) (status dto) ->
  updateOrderStatus lib env orderId dto w
  = (inl (InvalidTransition (o_status o) (status dto)), w).
Proof.
  intros Hid H Hno. rewrite allowed_transitions in Hno.
  unfold updateOrderStatus, try_catch, bind, Order_findById, get, ret.
  rewrite Hid. simpl. rewrite H. simpl.
  now rewrite bool_decide_eq_false_2.
Qed.

Lemma rt_updateOrderStatus_accepted (id : ObjectId) (o : Order) :
  ObjectId_cast lib orderId = Some id ->
  orders w !! id = Some o ->
  allowed (o_status o) (status dto) ->
  Order_valid o = true ->
  updateOrderStatus lib env orderId dto w
  = (inr {| sv_id := id;
            sv_orderNumber := o_orderNumber o;
            sv_status := status dto |},
     after_status_update env id dto o w).
Proof.
  intros Hid H Hyes Hvalid. rewrite allowed_transitions in Hyes.
  unfold updateOrderStatus, try_catch, bind, Order_findById, get, ret.
  rewrite Hid. simpl. rewrite H. simpl.
  rewrite bool_decide_eq_true_2 by done. simpl.
  unfold Order_save. rewrite rt_applyStatus_valid, Hvalid. simpl.
  unfold after_status_update, status_notice, applyStatus.
  destruct (truthy_str (statusNote dto)); simpl; rewrite <- app_assoc; reflexivity.
Qed.

Lemma rt_updateOrderStatus_unsaved (id : ObjectId) (o : Order) :
  ObjectId_cast lib orderId = Some id ->
  orders w !! id = Some o ->
  allowed (o_status o) (status dto) ->
  Order_valid o = false ->
  updateOrderStatus lib env orderId dto w
  = (inl (BadRequestException
            ("Failed to update order status: "
             +:+ ValidationError_message lib (applyStatus env dto o))), w).
Proof.
  intros Hid H Hyes Hvalid. rewrite allowed_transitions in Hyes.
  unfold updateOrderStatus, try_catch, bind, Order_findById, get, ret.
  rewrite Hid. simpl. rewrite H. simpl.
  rewrite bool_decide_eq_true_2 by done. simpl.
  unfold Order_save. rewrite rt_applyStatus_valid, Hvalid. reflexivity.
Qed.

End RuntimeStatusEngine.

Section RuntimeStatusChain.

Import Js Runtime.

Lemma rt_after_status_update_order (env : Env) (id : ObjectId) (dto : UpdateOrderStatusDto)
    (o : Order) (w : World) :
  orders (after_status_update env id dto o w) !! id
  = Some (OrdersService.applyStatus env dto o).
Proof. apply lookup_insert_eq. Qed.

Lemma rt_update_through_step (lib : Library) (env : Env) (orderId : string) (id : ObjectId)
    (note : OrderStatus -> option string) (s : OrderStatus) (path : list OrderStatus)
    (w : World) (o : Order) :
  ObjectId_cast lib orderId = Some id ->
  orders w !! id = Some o ->
  allowed (o_status o) s ->
  Order_valid o = true ->
  update_through lib env orderId note (s :: path) w
  = update_through lib env orderId note path
      (after_status_update env id {| status := s; statusNote := note s |} o w).
Proof.
  intros Hid Ho Hs Hv. unfold update_through. simpl. unfold bind at 1 2.
  now rewrite (rt_updateOrderStatus_accepted lib env orderId
                 {| status := s; statusNote := note s |} w id o Hid Ho Hs Hv).
Qed.

(** The path pending, confirmed, processing, shipped, delivered. *)
Lemma rt_update_through_chain (lib : Library) (env : Env) (orderId : string) (id : ObjectId)
    (note : OrderStatus -> option string) (w : World) (o : Order) :
  ObjectId_cast lib orderId = Some id ->
  orders w !! id = Some o ->
  o_status o = PENDING ->
  Order_valid o = true ->
  exists w' o',
    update_through lib env orderId note [CONFIRMED; PROCESSING; SHIPPED; DELIVERED] w
    = (inr tt, w')
    /\ orders w' !! id = Some o' /\ o_status o' = DELIVERED.
Proof.
  intros Hid Ho Hs Hv.
  rewrite (rt_update_through_step _ _ _ _ _ _ _ _ _ Hid Ho) by (now rewrite ?Hs).
  rewrite (rt_update_through_step _ _ _ _ _ _ _ _ _ Hid (rt_after_status_update_order _ _ _ _ _))
    by (now rewrite ?rt_applyStatus_status, ?rt_applyStatus_valid).
  rewrite (rt_update_through_step _ _ _ _ _ _ _ _ _ Hid (rt_after_status_update_order _ _ _ _ _))
    by (now rewrite ?rt_applyStatus_status, ?rt_applyStatus_valid).
  rewrite (rt_update_through_step _ _ _ _ _ _ _ _ _ Hid (rt_after_status_update_order _ _ _ _ _))
    by (now rewrite ?rt_applyStatus_status, ?rt_applyStatus_valid).
  eexists _, _. split; [reflexivity|]. split.
  - apply rt_after_status_update_order.
  - apply rt_applyStatus_status.
Qed.

End RuntimeStatusChain.

Section StatusTable.

Import Js Runtime.

(** C5, as the code has it.  [OrdersService.updateOrderStatus]: an id
    that is no ObjectId fails with a bad request whose message is
    [Failed to update order status: ] followed by the cast error's; an
    ObjectId that no order has fails with [OrderNotFound]; a requested
    status outside the allowed set of the order's current status fails with
    [InvalidTransition], whose message names both statuses; each of these
    leaves the world as it was.  Otherwise the order is saved with the
    requested status when it passes the schema, and the call fails with
    nothing written when it does not.  Hence pending to delivered always
    fails, the path pending, confirmed, processing, shipped, delivered
    succeeds end to end, and every transition out of delivered or cancelled
    fails. *)
Theorem status_update_follows_table
    (lib : Library) (env : Env) (orderId : string) (dto : UpdateOrderStatusDto) (w : World) :
  (ObjectId_cast lib orderId = None ->
   OrdersService.updateOrderStatus lib env orderId dto w
   = (inl (BadRequestException
             ("Failed to update order status: " +:+ CastError_message lib orderId)), w))
  /\ (forall id,
        ObjectId_cast lib orderId = Some id ->
        orders w !! id = None ->
        OrdersService.updateOrderStatus lib env orderId dto w = (inl OrderNotFound, w))
  /\ (forall id o,
        ObjectId_cast lib orderId = Some id ->
        orders w !! id = Some o ->
        ~ allowed (o_status o) (status dto) ->
        OrdersService.updateOrderStatus lib env orderId dto w
        = (inl (InvalidTransition (o_status o) (status dto)), w)
        /\ exn_message (InvalidTransition (o_status o) (status dto))
           = "Cannot change status from " +:+ status_value (o_status o)
             +:+ " to " +:+ status_value (status dto))
  /\ (forall id o,
        ObjectId_cast lib orderId = Some id ->
        orders w !! id = Some o ->
        allowed (o_status o) (status dto) ->
        (Order_valid o = true ->
         exists view w' o',
           OrdersService.updateOrderStatus lib env orderId dto w = (inr view, w')
           /\ OrdersService.sv_status view = status dto
           /\ orders w' !! id = Some o'
           /\ o_status o' = status dto)
        /\ (Order_valid o = false ->
            exists message,
              OrdersService.updateOrderStatus lib env orderId dto w
              = (inl (BadRequestException ("Failed to update order status: " +:+ message)),
                 w)))
  /\ (forall id o,
        ObjectId_cast lib orderId = Some id ->
        orders w !! id = Some o ->
        o_status o = PENDING ->
        status dto = DELIVERED ->
        OrdersService.updateOrderStatus lib env orderId dto w
        = (inl (InvalidTransition PENDING DELIVERED), w))
  /\ (forall id o note,
        ObjectId_cast lib orderId = Some id ->
        orders w !! id = Some o ->
        o_status o = PENDING ->
        Order_valid o = true ->
        exists w' o',
          update_through lib env orderId note [CONFIRMED; PROCESSING; SHIPPED; DELIVERED] w
          = (inr tt, w')
          /\ orders w' !! id = Some o'
          /\ o_status o' = DELIVERED)
  /\ (forall id o,
        ObjectId_cast lib orderId = Some id ->
        orders w !! id = Some o ->
        o_status o = DELIVERED \/ o_status o = CANCELLED ->
        OrdersService.updateOrderStatus lib env orderId dto w
        = (inl (InvalidTransition (o_status o) (status dto)), w)).
Proof.
  split; [|split; [|split; [|split; [|split; [|split]]]]].
  - apply rt_updateOrderStatus_malformed.
  - apply rt_updateOrderStatus_missing.
  - intros id o Hid Ho Hno.
    split; [exact (rt_updateOrderStatus_rejected lib env orderId dto w id o Hid Ho Hno)
           | reflexivity].
  - intros id o Hid Ho Hyes. split; intros Hv.
    + eexists _, _, _.
      split; [exact (rt_updateOrderStatus_accepted lib env orderId dto w id o Hid Ho Hyes Hv)|].
      simpl. split; [reflexivity|].
      split; [apply lookup_insert_eq | apply rt_applyStatus_status].
    + eexists. exact (rt_updateOrderStatus_unsaved lib env orderId dto w id o Hid Ho Hyes Hv).
  - intros id o Hid Ho Hs Hd.
    rewrite (rt_updateOrderStatus_rejected lib env orderId dto w id o Hid Ho);
      rewrite Hs, Hd; [done|].
    simpl. tauto.
  - intros id o note Hid Ho Hs Hv. now apply rt_update_through_chain with (o := o).
  - intros id o Hid Ho Hs. apply rt_updateOrderStatus_rejected with (id := id); [done|done|].
    destruct Hs as [-> | ->]; simpl; tauto.
Qed.

(** An id that is no ObjectId; an order in pending: delivered is refused,
    confirmed is taken, and the whole path ends in delivered. *)
Lemma status_update_follows_table_witness :
  (exists message,
     OrdersService.updateOrderStatus library env1 "not-an-object-id"
       {| status := CONFIRMED; statusNote := None |} (desk [(o1, placed PENDING None)])
     = (inl (BadRequestException ("Failed to update order status: " +:+ message)),
        desk [(o1, placed PENDING None)]))
  /\ OrdersService.updateOrderStatus library env1 o1
       {| status := DELIVERED; statusNote := None |} (desk [(o1, placed PENDING None)])
     = (inl (BadRequestException "Cannot change status from pending to delivered"),
        desk [(o1, placed PENDING None)])
  /\ (exists view w' o',
        OrdersService.updateOrderStatus library env1 o1
          {| status := CONFIRMED; statusNote := None |}
          (desk [(o1, placed PENDING None)]) = (inr view, w')
        /\ OrdersService.sv_status view = CONFIRMED
        /\ orders w' !! o1 = Some o'
        /\ o_status o' = CONFIRMED)
  /\ (exists w' o',
        update_through library env1 o1 no_note [CONFIRMED; PROCESSING; SHIPPED; DELIVERED]
          (desk [(o1, placed PENDING None)]) = (inr tt, w')
        /\ orders w' !! o1 = Some o'
        /\ o_status o' = DELIVERED).
Proof.
  split; [|split; [|split]].
  - destruct (status_update_follows_table library env1 "not-an-object-id"
                {| status := CONFIRMED; statusNote := None |}
                (desk [(o1, placed PENDING None)])) as (H & _).
    eexists. apply H. reflexivity.
  - destruct (status_update_follows_table library env1 o1
                {| status := DELIVERED; statusNote := None |}
                (desk [(o1, placed PENDING None)])) as (_ & _ & _ & _ & H & _).
    apply (H o1 (placed PENDING None)); reflexivity.
  - destruct (status_update_follows_table library env1 o1
                {| status := CONFIRMED; statusNote := None |}
                (desk [(o1, placed PENDING None)])) as (_ & _ & _ & H & _).
    destruct (H o1 (placed PENDING None)) as [Hyes _]; [reflexivity | reflexivity | exact I|].
    apply Hyes. vm_compute. reflexivity.
  - destruct (status_update_follows_table library env1 o1
                {| status := CONFIRMED; statusNote := None |}
                (desk [(o1, placed PENDING None)])) as (_ & _ & _ & _ & _ & H & _).
    apply (H o1 (placed PENDING None) no_note); try reflexivity.
Defined.

(** No order has the id [not-an-object-id], and the call does not fail
    with [OrderNotFound]. *)
Lemma lookup_as_specified_fails :
  orders (desk [(o1, placed PENDING None)]) !! "not-an-object-id" = None
  /\ (exists message,
        OrdersService.updateOrderStatus library env1 "not-an-object-id"
          {| status := CONFIRMED; statusNote := None |} (desk [(o1, placed PENDING None)])
        = (inl (BadRequestException ("Failed to update order status: " +:+ message)),
           desk [(o1, placed PENDING None)]))
  /\ ~ lookup_as_specified library env1 "not-an-object-id"
         {| status := CONFIRMED; statusNote := None |} (desk [(o1, placed PENDING None)]).
Proof.
  split; [reflexivity|]. split; [eexists; vm_compute; reflexivity|].
  intros H. specialize (H eq_refl). vm_compute in H. discriminate.
Qed.

End StatusTable.

(** ** The admin dashboard's single update, as the runtime executes it *)

Section RuntimeAdminUpdate.

Import Js Runtime Runtime.OrderManagementService.

Variables (lib : Library) (orderId : string) (s : OrderStatus)
  (trackingNumber adminNotes : option string) (w : World).

Lemma rt_admin_update_malformed :
  ObjectId_cast lib orderId = None ->
  updateOrderStatus lib orderId s trackingNumber adminNotes w
  = (inl (OtherError (CastError_message lib orderId)), w).
Proof.
  intros H. unfold updateOrderStatus, bind, Order_findById. now rewrite H.
Qed.

Lemma rt_admin_update_missing (id : ObjectId) :
  ObjectId_cast lib orderId = Some id ->
  orders w !! id = None ->
  updateOrderStatus lib orderId s trackingNumber adminNotes w = (inl OrderNotFound, w).
Proof.
  intros Hid H. unfold updateOrderStatus, bind, Order_findById, get, ret.
  rewrite Hid. simpl. now rewrite H.
Qed.

Lemma rt_admin_update_done (id : ObjectId) (o : Order) (u : User) :
  ObjectId_cast lib orderId = Some id ->
  orders w !! id = Some o ->
  users w !! o_userId o = Some u ->
  let upd := admin_update s trackingNumber adminNotes in
  let o' := applyUpdate upd o in
  updateOrderStatus lib orderId s trackingNumber adminNotes w
  = (inr {| ur_order := Some o';
            ur_message := "Order status updated to " +:+ status_value s |},
     {| products := products w; carts := carts w;
        orders := alter (applyUpdate upd) id (orders w);
        users := users w;
        trace := trace w ++ [OrderUpdated id upd;
                             SentToUser (o_userId o) "order_status_update"
                               (admin_notice_to id o')] |}).
Proof.
  intros Hid Ho Hu upd o'.
  unfold updateOrderStatus, bind at 1, Order_findById, bind at 1, get, ret at 1.
  rewrite Hid. simpl. rewrite Ho. simpl.
  unfold bind at 1, Order_findByIdAndUpdate. simpl.
  rewrite lookup_alter_eq, Ho. simpl.
  unfold bind at 1, bind at 1, populated_userId, bind at 1, get, ret at 1. simpl.
  rewrite Hu. unfold ret at 1, NotificationService.sendOrderStatusUpdate, emit. simpl.
  unfold ret. rewrite <- app_assoc. reflexivity.
Qed.

Lemma rt_admin_update_orphan (id : ObjectId) (o : Order) :
  ObjectId_cast lib orderId = Some id ->
  orders w !! id = Some o ->
  users w !! o_userId o = None ->
  let upd := admin_update s trackingNumber adminNotes in
  updateOrderStatus lib orderId s trackingNumber adminNotes w
  = (inl (OtherError "Cannot read properties of null (reading '_id')"),
     {| products := products w; carts := carts w;
        orders := alter (applyUpdate upd) id (orders w);
        users := users w;
        trace := trace w ++ [OrderUpdated id upd] |}).
Proof.
  intros Hid Ho Hu upd.
  unfold updateOrderStatus, bind at 1, Order_findById, bind at 1, get, ret at 1.
  rewrite Hid. simpl. rewrite Ho. simpl.
  unfold bind at 1, Order_findByIdAndUpdate. simpl.
  rewrite lookup_alter_eq, Ho. simpl.
  unfold bind at 1, bind at 1, populated_userId, bind at 1, get, ret at 1. simpl.
  rewrite Hu. reflexivity.
Qed.

End RuntimeAdminUpdate.

(** ** Status updates: notes and the customer's notification *)

Section StatusNotice.

Import Js Runtime.

(** C7, on the code.  An accepted status update with a non-empty note
    appends to the order's notes (the empty string when there were none) a
    line made of a line feed, the time stamp in brackets, the new status and
    the note, so the old notes stay in front; without a note, or with an
    empty one, the notes are unchanged.  The updated order is saved and then
    one notification goes to the order's owner, carrying the order id and the
    new status with its message.  The notification has no tracking number,
    also when the order has one, where the admin dashboard's update of the
    same order sends the order's tracking number through the same
    [sendOrderStatusUpdate]. *)
Theorem status_update_notes_and_notice
    (lib : Library) (env : Env) (orderId : string) (id : ObjectId)
    (dto : UpdateOrderStatusDto) (w : World) (o : Order) :
  ObjectId_cast lib orderId = Some id ->
  orders w !! id = Some o ->
  allowed (o_status o) (status dto) ->
  Order_valid o = true ->
  (exists view w' o' payload,
     OrdersService.updateOrderStatus lib env orderId dto w = (inr view, w')
     /\ orders w' !! id = Some o'
     /\ o_status o' = status dto
     /\ (forall note,
           statusNote dto = Some note -> note <> "" ->
           o_orderNotes o'
           = Some (default "" (o_orderNotes o)
                   +:+ (LF +:+ "[" +:+ Date_toISOString env +:+ "] Status changed to "
                        +:+ status_value (status dto) +:+ ": " +:+ note)))
     /\ (statusNote dto = None \/ statusNote dto = Some "" ->
         o_orderNotes o' = o_orderNotes o)
     /\ o_trackingNumber o' = o_trackingNumber o
     /\ trace w'
        = trace w ++ [OrderSaved id o';
                      SentToUser (o_userId o) "order_status_update" payload]
     /\ ou_orderId payload = id
     /\ ou_status payload = status_value (status dto)
     /\ ou_message payload
        = default ("Your order status: " +:+ status_value (status dto))
                  (NotificationService.statusMessages (status_value (status dto)))
     /\ ou_trackingNumber payload = None)
  /\ (forall user,
        users w !! o_userId o = Some user ->
        exists result w' payload,
          OrderManagementService.updateOrderStatus lib orderId (status dto) None None w
          = (inr result, w')
          /\ trace w'
             = trace w ++ [OrderUpdated id (admin_update (status dto) None None);
                           SentToUser (o_userId o) "order_status_update" payload]
          /\ ou_orderId payload = id
          /\ ou_status payload = status_value (status dto)
          /\ ou_trackingNumber payload = o_trackingNumber o).
Proof.
  intros Hid Ho Hyes Hvalid. split.
  - eexists _, _, _, _.
    split; [exact (rt_updateOrderStatus_accepted lib env orderId dto w id o Hid Ho Hyes Hvalid)|].
    simpl. rewrite lookup_insert_eq.
    rewrite rt_applyStatus_userId, !rt_applyStatus_status.
    split; [reflexivity|]. split; [reflexivity|].
    split.
    { intros note Hn Hne. unfold OrdersService.applyStatus. rewrite Hn. simpl.
      destruct (decide (note = "")); [done|]. simpl.
      now rewrite str_or_empty. }
    split.
    { intros [Hn | Hn]; unfold OrdersService.applyStatus; now rewrite Hn. }
    split.
    { unfold OrdersService.applyStatus. now destruct (truthy_str (statusNote dto)). }
    split; [reflexivity|].
    unfold status_notice, NotificationService.statusNotification. simpl.
    rewrite rt_applyStatus_status.
    split; [reflexivity|]. split; [reflexivity|]. split; [|reflexivity].
    now destruct (NotificationService.statusMessages (status_value (status dto))).
  - intros user Hu. eexists _, _, _.
    split; [exact (rt_admin_update_done lib orderId (status dto) None None w id o user
                     Hid Ho Hu)|].
    simpl. split; [reflexivity|]. repeat split.
Qed.

(** A processing order with a tracking number, shipped with a note: the
    engine's notification has no tracking number, the dashboard's has the
    order's. *)
Lemma status_update_notes_and_notice_witness :
  (exists view w' o' payload,
     OrdersService.updateOrderStatus library env1 o1
       {| status := SHIPPED; statusNote := Some "Left the warehouse" |}
       (desk [(o1, placed PROCESSING (Some "TRACK123456"))]) = (inr view, w')
     /\ orders w' !! o1 = Some o'
     /\ o_orderNotes o'
        = Some ("Order placed via demo cart" +:+ LF
                +:+ "[2024-01-15T11:00:00.000Z] Status changed to shipped: Left the warehouse")
     /\ o_trackingNumber o' = Some "TRACK123456"
     /\ trace w' = [OrderSaved o1 o'; SentToUser u1 "order_status_update" payload]
     /\ ou_status payload = "shipped"
     /\ ou_message payload = "Your order has been shipped and is on its way!"
     /\ ou_trackingNumber payload = None)
  /\ (exists result w' payload,
        OrderManagementService.updateOrderStatus library o1 SHIPPED None None
          (desk [(o1, placed PROCESSING (Some "TRACK123456"))]) = (inr result, w')
        /\ trace w'
           = [OrderUpdated o1 (admin_update SHIPPED None None);
              SentToUser u1 "order_status_update" payload]
        /\ ou_status payload = "shipped"
        /\ ou_trackingNumber payload = Some "TRACK123456").
Proof.
  destruct (status_update_notes_and_notice library env1 o1 o1
              {| status := SHIPPED; statusNote := Some "Left the warehouse" |}
              (desk [(o1, placed PROCESSING (Some "TRACK123456"))])
              (placed PROCESSING (Some "TRACK123456")) eq_refl eq_refl I eq_refl)
    as [(view & w' & o' & payload & Hrun & Ho & _ & Hnote & _ & Htn & Ht & _ & Hs & Hm & Hnone)
        Hadmin].
  split.
  - exists view, w', o', payload.
    repeat split; try done.
    apply (Hnote "Left the warehouse"); [reflexivity | discriminate].
  - destruct (Hadmin ada eq_refl) as (result & w2 & payload2 & Hrun2 & Ht2 & _ & Hs2 & Htn2).
    exists result, w2, payload2. repeat split; done.
Defined.

End StatusNotice.

(** ** The admin dashboard: the single update's failures *)

Section AdminFailures.

Import Js Runtime.

(** X8.  The ways the single update fails: an id that is no ObjectId makes
    the query throw its cast error, which the method passes on as thrown; an
    ObjectId that no order has is refused with [OrderNotFound]; in both cases
    nothing is written.  For an order whose owner is no longer on file the new
    status is written first and the call then fails without a
    notification. *)
Theorem admin_update_failures
    (lib : Library) (orderId : string) (s : OrderStatus)
    (trackingNumber adminNotes : option string) (w : World) :
  (ObjectId_cast lib orderId = None ->
   OrderManagementService.updateOrderStatus lib orderId s trackingNumber adminNotes w
   = (inl (OtherError (CastError_message lib orderId)), w))
  /\ (forall id,
        ObjectId_cast lib orderId = Some id ->
        orders w !! id = None ->
        OrderManagementService.updateOrderStatus lib orderId s trackingNumber adminNotes w
        = (inl OrderNotFound, w))
  /\ (forall id o,
        ObjectId_cast lib orderId = Some id ->
        orders w !! id = Some o ->
        users w !! o_userId o = None ->
        exists e w' o',
          OrderManagementService.updateOrderStatus lib orderId s trackingNumber adminNotes w
          = (inl e, w')
          /\ orders w' !! id = Some o'
          /\ o_status o' = s
          /\ trace w'
             = trace w ++ [OrderUpdated id (admin_update s trackingNumber adminNotes)]).
Proof.
  split; [|split].
  - apply rt_admin_update_malformed.
  - apply rt_admin_update_missing.
  - intros id o Hid Ho Hu. eexists _, _, _.
    split; [exact (rt_admin_update_orphan lib orderId s trackingNumber adminNotes w id o
                     Hid Ho Hu)|].
    simpl. rewrite lookup_alter_eq, Ho. simpl. repeat split.
Qed.

(** An id that is no ObjectId, an unknown id, and the order of a customer
    who is gone. *)
Lemma admin_update_failures_witness :
  (exists message,
     OrderManagementService.updateOrderStatus library "o9" SHIPPED None None
       (desk [(o2, placed PENDING None); (o7, orphan PENDING)])
     = (inl (OtherError message), desk [(o2, placed PENDING None); (o7, orphan PENDING)]))
  /\ OrderManagementService.updateOrderStatus library o9 SHIPPED None None
       (desk [(o2, placed PENDING None); (o7, orphan PENDING)])
     = (inl OrderNotFound, desk [(o2, placed PENDING None); (o7, orphan PENDING)])
  /\ exists e w' o',
       OrderManagementService.updateOrderStatus library o7 SHIPPED None None
         (desk [(o2, placed PENDING None); (o7, orphan PENDING)]) = (inl e, w')
       /\ orders w' !! o7 = Some o'
       /\ o_status o' = SHIPPED.
Proof.
  split; [|split].
  - destruct (admin_update_failures library "o9" SHIPPED None None
                (desk [(o2, placed PENDING None); (o7, orphan PENDING)])) as [H _].
    eexists. now apply H.
  - destruct (admin_update_failures library o9 SHIPPED None None
                (desk [(o2, placed PENDING None); (o7, orphan PENDING)])) as (_ & H & _).
    now apply (H o9).
  - destruct (admin_update_failures library o7 SHIPPED None None
                (desk [(o2, placed PENDING None); (o7, orphan PENDING)])) as (_ & _ & H).
    destruct (H o7 (orphan PENDING) eq_refl eq_refl eq_refl)
      as (e & w' & o' & Hrun & Ho' & Hs & _).
    now exists e, w', o'.
Defined.

End AdminFailures.

(** ** Lookups and the status endpoint *)

Section Lookups.

Import Js Runtime.

(** X11.  The customer's lookup answers for the customer's own orders only:
    for an order of somebody else it fails as for an unknown id, where the
    admin lookup returns the order.  An order id that is no ObjectId makes
    both fail with a bad request that carries the library's message.  Neither
    lookup writes anything. *)
Theorem order_lookup_is_scoped (lib : Library) (userId orderId : string) (w : World) :
  (ObjectId_cast lib orderId = None ->
   OrdersService.getOrderById lib userId orderId w
   = (inl (BadRequestException ("Failed to get order: " +:+ BSONError_message lib orderId)), w)
   /\ OrdersService.getAnyOrderById lib orderId w
      = (inl (BadRequestException ("Failed to get order: " +:+ CastError_message lib orderId)),
         w))
  /\ (forall id,
        ObjectId_cast lib orderId = Some id ->
        (ObjectId_cast lib userId = None ->
         OrdersService.getOrderById lib userId orderId w
         = (inl (BadRequestException
                   ("Failed to get order: " +:+ BSONError_message lib userId)), w))
        /\ (orders w !! id = None ->
            OrdersService.getAnyOrderById lib orderId w = (inl OrderNotFound, w)
            /\ forall user_id,
                 ObjectId_cast lib userId = Some user_id ->
                 OrdersService.getOrderById lib userId orderId w = (inl OrderNotFound, w))
        /\ (forall o,
              orders w !! id = Some o ->
              OrdersService.getAnyOrderById lib orderId w
              = (inr {| OrdersService.po_id := id;
                        OrdersService.po_order := o;
                        OrdersService.po_userId := users w !! o_userId o |}, w)
              /\ forall user_id,
                   ObjectId_cast lib userId = Some user_id ->
                   (o_userId o = user_id ->
                    OrdersService.getOrderById lib userId orderId w
                    = (inr (view_of id o), w))
                   /\ (o_userId o <> user_id ->
                       OrdersService.getOrderById lib userId orderId w
                       = (inl OrderNotFound, w)))).
Proof.
  unfold OrdersService.getOrderById, OrdersService.getAnyOrderById, try_catch, bind,
    Types_ObjectId, Order_findById, get, ret, throw.
  split.
  - intros ->. split; reflexivity.
  - intros id ->. simpl. split; [|split].
    + now intros ->.
    + intros Ho. split; [now rewrite Ho|]. intros user_id ->. simpl. now rewrite Ho.
    + intros o Ho. split; [now rewrite Ho|].
      intros user_id ->. simpl. rewrite Ho.
      split; intros H; destruct (decide (o_userId o = user_id)); done.
Qed.

(** The delivered order of [u1]: [u2] is told it does not exist. *)
Lemma order_lookup_is_scoped_witness :
  (exists message,
     OrdersService.getOrderById library u1 "not-an-object-id"
       (desk [(o1, placed DELIVERED None); (o2, placed PENDING None)])
     = (inl (BadRequestException ("Failed to get order: " +:+ message)),
        desk [(o1, placed DELIVERED None); (o2, placed PENDING None)]))
  /\ OrdersService.getOrderById library u1 o9
       (desk [(o1, placed DELIVERED None); (o2, placed PENDING None)])
     = (inl OrderNotFound, desk [(o1, placed DELIVERED None); (o2, placed PENDING None)])
  /\ OrdersService.getOrderById library u1 o1
       (desk [(o1, placed DELIVERED None); (o2, placed PENDING None)])
     = (inr (view_of o1 (placed DELIVERED None)),
        desk [(o1, placed DELIVERED None); (o2, placed PENDING None)])
  /\ OrdersService.getOrderById library u2 o1
       (desk [(o1, placed DELIVERED None); (o2, placed PENDING None)])
     = (inl OrderNotFound, desk [(o1, placed DELIVERED None); (o2, placed PENDING None)])
  /\ OrdersService.getAnyOrderById library o1
       (desk [(o1, placed DELIVERED None); (o2, placed PENDING None)])
     = (inr {| OrdersService.po_id := o1;
               OrdersService.po_order := placed DELIVERED None;
               OrdersService.po_userId := Some ada |},
        desk [(o1, placed DELIVERED None); (o2, placed PENDING None)]).
Proof.
  split; [|split; [|split; [|split]]].
  - destruct (order_lookup_is_scoped library u1 "not-an-object-id"
                (desk [(o1, placed DELIVERED None); (o2, placed PENDING None)])) as [H _].
    eexists. now apply H.
  - destruct (order_lookup_is_scoped library u1 o9
                (desk [(o1, placed DELIVERED None); (o2, placed PENDING None)])) as [_ H].
    destruct (H o9 eq_refl) as (_ & H' & _). now apply (proj2 (H' eq_refl) u1).
  - destruct (order_lookup_is_scoped library u1 o1
                (desk [(o1, placed DELIVERED None); (o2, placed PENDING None)])) as [_ H].
    destruct (H o1 eq_refl) as (_ & _ & H').
    destruct (H' (placed DELIVERED None) eq_refl) as [_ H''].
    now apply (H'' u1).
  - destruct (order_lookup_is_scoped library u2 o1
                (desk [(o1, placed DELIVERED None); (o2, placed PENDING None)])) as [_ H].
    destruct (H o1 eq_refl) as (_ & _ & H').
    destruct (H' (placed DELIVERED None) eq_refl) as [_ H''].
    now apply (H'' u2).
  - destruct (order_lookup_is_scoped library u2 o1
                (desk [(o1, placed DELIVERED None); (o2, placed PENDING None)])) as [_ H].
    destruct (H o1 eq_refl) as (_ & _ & H').
    now destruct (H' (placed DELIVERED None) eq_refl) as [H'' _].
Defined.

(** X13.  The status endpoint never throws: it answers [success: false] with the
    service's message and leaves the world as it was when the id is no
    ObjectId or unknown, when the transition is not allowed, and when the
    order does not pass the schema; it answers [success: true] when the
    service accepted the update. *)
Theorem status_endpoint_reports_in_body
    (lib : Library) (env : Env) (orderId : string) (dto : UpdateOrderStatusDto) (w : World) :
  exists response w',
    OrdersController.updateOrderStatus lib env orderId dto w = (inr response, w')
    /\ (ObjectId_cast lib orderId = None ->
        OrdersController.success response = false
        /\ OrdersController.message response
           = "Failed to update order status: " +:+ CastError_message lib orderId
        /\ w' = w)
    /\ (forall id,
          ObjectId_cast lib orderId = Some id ->
          (orders w !! id = None ->
           OrdersController.success response = false
           /\ OrdersController.message response = "Order not found" /\ w' = w)
          /\ (forall o,
                orders w !! id = Some o ->
                (~ allowed (o_status o) (status dto) ->
                 OrdersController.success response = false
                 /\ OrdersController.message response
                    = "Cannot change status from " +:+ status_value (o_status o)
                      +:+ " to " +:+ status_value (status dto)
                 /\ w' = w)
                /\ (allowed (o_status o) (status dto) ->
                    (Order_valid o = true ->
                     OrdersController.success response = true
                     /\ exists o', orders w' !! id = Some o' /\ o_status o' = status dto)
                    /\ (Order_valid o = false ->
                        OrdersController.success response = false /\ w' = w)))).
Proof.
  unfold OrdersController.updateOrderStatus.
  destruct (ObjectId_cast lib orderId) as [id|] eqn:Hid.
  - destruct (orders w !! id) as [o|] eqn:Ho.
    + destruct (allowed_decidable (o_status o) (status dto)) as [Hyes|Hno].
      * destruct (Order_valid o) eqn:Hvalid.
        -- rewrite (rt_updateOrderStatus_accepted lib env orderId dto w id o Hid Ho Hyes Hvalid).
           eexists _, _. split; [reflexivity|]. split; [discriminate|].
           intros id0 [= <-]. split; [rewrite Ho; discriminate|].
           intros o0. rewrite Ho. intros [= <-]. split; [contradiction|]. intros _.
           split; [|intros Hf; congruence]. intros _. split; [reflexivity|].
           eexists. split; [apply rt_after_status_update_order | apply rt_applyStatus_status].
        -- rewrite (rt_updateOrderStatus_unsaved lib env orderId dto w id o Hid Ho Hyes Hvalid).
           eexists _, _. split; [reflexivity|]. split; [discriminate|].
           intros id0 [= <-]. split; [rewrite Ho; discriminate|].
           intros o0. rewrite Ho. intros [= <-]. split; [contradiction|]. intros _.
           split; [intros Ht; congruence|]. intros _. split; reflexivity.
      * rewrite (rt_updateOrderStatus_rejected lib env orderId dto w id o Hid Ho Hno).
        eexists _, _. split; [reflexivity|]. split; [discriminate|].
        intros id0 [= <-]. split; [rewrite Ho; discriminate|].
        intros o0. rewrite Ho. intros [= <-]. split; [|contradiction]. intros _. repeat split.
    + rewrite (rt_updateOrderStatus_missing lib env orderId dto w id Hid Ho).
      eexists _, _. split; [reflexivity|]. split; [discriminate|].
      intros id0 [= <-]. split; [|rewrite Ho; discriminate].
      intros _. repeat split.
  - rewrite (rt_updateOrderStatus_malformed lib env orderId dto w Hid).
    eexists _, _. split; [reflexivity|]. split; [|discriminate].
    intros _. repeat split.
Qed.

(** Delivered to pending: the answer is a body with [success: false]. *)
Lemma status_endpoint_reports_in_body_witness :
  exists response w',
    OrdersController.updateOrderStatus library env1 o1 {| status := PENDING; statusNote := None |}
      (desk [(o1, placed DELIVERED None); (o2, placed PENDING None)]) = (inr response, w')
    /\ OrdersController.success response = false
    /\ OrdersController.message response = "Cannot change status from delivered to pending"
    /\ w' = desk [(o1, placed DELIVERED None); (o2, placed PENDING None)].
Proof.
  destruct (status_endpoint_reports_in_body library env1 o1
              {| status := PENDING; statusNote := None |}
              (desk [(o1, placed DELIVERED None); (o2, placed PENDING None)]))
    as (response & w' & Hrun & _ & H).
  destruct (H o1 eq_refl) as [_ H'].
  destruct (H' (placed DELIVERED None) eq_refl) as [Hno _].
  destruct Hno as (Hs & Hm & Hw); [simpl; tauto|].
  exists response, w'. repeat split; assumption.
Defined.

End Lookups.

(** ** Checkout: the shipping address *)

Section CheckoutAddress.

Import Js Runtime.

Lemma rt_checkout_inr_inv (lib : Library) (env : Env) (estimatedDelivery userId : string)
    (dto : CreateOrderDto) (w w' : World) (r : OrdersController.CheckoutResponse) :
  OrdersController.checkout lib env estimatedDelivery userId dto w = (inr r, w') ->
  OrdersController.CreateOrderDto_errors dto = []
  /\ OrdersService.createOrderFromCart lib env userId dto w
     = (inr (OrdersController.c_data r), w').
Proof.
  unfold OrdersController.checkout.
  destruct (OrdersController.CreateOrderDto_errors dto); [|discriminate].
  unfold bind.
  destruct (OrdersService.createOrderFromCart lib env userId dto w) as [[e|view] w1];
    [discriminate|].
  unfold ret. intros [= <- <-]. split; reflexivity.
Qed.

Lemma rt_pipe_refuses (dto : CreateOrderDto) (a : ShippingAddress) :
  shippingAddress dto = Some a ->
  ShippingAddress_valid a = false ->
  OrdersController.CreateOrderDto_errors dto <> [].
Proof.
  intros Ha Hv. unfold OrdersController.CreateOrderDto_errors. rewrite Ha.
  unfold ShippingAddress_valid, required in Hv.
  destruct (decide (fullName a = "")) as [|H1]; [simpl; discriminate|].
  destruct (decide (phoneNumber a = "")) as [|H2]; [simpl; discriminate|].
  destruct (decide (streetAddress a = "")) as [|H3]; [simpl; discriminate|].
  destruct (decide (city a = "")) as [|H4]; [simpl; discriminate|].
  destruct (decide (state a = "")) as [|H5]; [simpl; discriminate|].
  destruct (decide (postalCode a = "")) as [|H6]; [simpl; discriminate|].
  destruct (decide (country a = "")) as [|H7]; [simpl; discriminate|].
  exfalso. rewrite !bool_decide_eq_false_2 in Hv by done. discriminate.
Qed.

(** C8.  A checkout request without a shipping address passes the
    validation of the request body, and the order it creates (as stored and
    as returned) carries the address of Demo User, 123 Main Street, New York,
    which passes the validation of the order schema: the request succeeds
    whenever the same request with an address succeeds.  A request whose
    address has an empty field, in contrast, is refused by the validation of
    the body, with nothing written. *)
Theorem checkout_without_address
    (lib : Library) (env : Env) (estimatedDelivery userId : string) (dto : CreateOrderDto)
    (w : World) :
  shippingAddress dto = None ->
  ObjectId_cast lib (new_ObjectId env) = Some (new_ObjectId env) ->
  OrdersController.CreateOrderDto_errors dto = []
  /\ (forall r w',
        OrdersController.checkout lib env estimatedDelivery userId dto w = (inr r, w') ->
        OrdersService.v_shippingAddress (OrdersController.c_data r)
        = {| fullName := "Demo User";
             phoneNumber := "+1-555-0123";
             streetAddress := "123 Main Street";
             city := "New York";
             state := "NY";
             postalCode := "10001";
             country := "US" |}
        /\ exists order,
             orders w' !! new_ObjectId env = Some order
             /\ o_shippingAddress order
                = {| fullName := "Demo User";
                     phoneNumber := "+1-555-0123";
                     streetAddress := "123 Main Street";
                     city := "New York";
                     state := "NY";
                     postalCode := "10001";
                     country := "US" |})
  /\ (forall address r w',
        OrdersController.checkout lib env estimatedDelivery userId
          {| shippingAddress := Some address; orderNotes := orderNotes dto |} w
        = (inr r, w') ->
        exists r0 w0,
          OrdersController.checkout lib env estimatedDelivery userId dto w = (inr r0, w0))
  /\ (forall address,
        ShippingAddress_valid address = false ->
        OrdersController.checkout lib env estimatedDelivery userId
          {| shippingAddress := Some address; orderNotes := orderNotes dto |} w
        = (inl (BadRequestException "Bad Request Exception"), w)).
Proof.
  intros Hnone Hnew.
  assert (Hpipe : OrdersController.CreateOrderDto_errors dto = []).
  { unfold OrdersController.CreateOrderDto_errors. now rewrite Hnone. }
  split; [exact Hpipe|]. split; [|split].
  - intros r w' Hrun. apply rt_checkout_inr_inv in Hrun as [_ Hrun].
    apply rt_createOrderFromCart_inr_inv in Hrun
      as (uid & items & acc & _ & _ & _ & _ & _ & _ & _ & -> & ->); [|exact Hnew].
    simpl. rewrite Hnone, lookup_insert_eq. split; [reflexivity|].
    eexists. split; [reflexivity|]. simpl. now rewrite Hnone.
  - intros address r w' Hrun. apply rt_checkout_inr_inv in Hrun as [_ Hrun].
    apply rt_createOrderFromCart_inr_inv in Hrun
      as (uid & items & acc & Hu & Hc & Hne & He & Hvalid & Hfresh & Hnum & _ & _);
      [|exact Hnew].
    assert (Hvalid' : Order_valid (OrdersService.newOrder env uid dto acc) = true).
    { rewrite rt_newOrder_valid in Hvalid |- *. simpl in Hvalid. rewrite Hnone.
      apply andb_true_iff in Hvalid as [-> _]. reflexivity. }
    unfold OrdersController.checkout. rewrite Hpipe. unfold bind.
    rewrite (rt_createOrderFromCart_accepted lib env userId dto w uid items acc) by done.
    eexists _, _. reflexivity.
  - intros address Hv. unfold OrdersController.checkout.
    destruct (OrdersController.CreateOrderDto_errors
                {| shippingAddress := Some address; orderNotes := orderNotes dto |}) eqn:He;
      [|reflexivity].
    exfalso. revert He. now apply rt_pipe_refuses with (a := address).
Qed.

(** The sample checkout, which gives no address. *)
Lemma checkout_without_address_witness :
  exists r w' order,
    OrdersController.checkout library env1 "1/20/2024" u1 dto0 shop_AB = (inr r, w')
    /\ fullName (OrdersService.v_shippingAddress (OrdersController.c_data r)) = "Demo User"
    /\ orders w' !! o1 = Some order
    /\ streetAddress (o_shippingAddress order) = "123 Main Street".
Proof.
  destruct (OrdersController.checkout library env1 "1/20/2024" u1 dto0 shop_AB)
    as [[e|r] w'] eqn:Hrun; [vm_compute in Hrun; discriminate|].
  destruct (checkout_without_address library env1 "1/20/2024" u1 dto0 shop_AB eq_refl eq_refl)
    as (_ & H & _ & _).
  destruct (H r w' Hrun) as (Hv & order & Ho & Ha).
  exists r, w', order. split; [reflexivity|].
  split; [now rewrite Hv|]. split; [exact Ho | now rewrite Ha].
Defined.

End CheckoutAddress.

(** ** Checkout: the amount in the admin notification *)

Section CheckoutNotice.

Import Js Runtime.

Lemma rt_stock_effect_not_notice (sus : list OrdersService.StockUpdate)
    (event : string) (payload : NewOrderPayload) :
  SentToAdmins event payload ∉ map stock_effect sus.
Proof.
  intros Hin. apply list_elem_of_fmap in Hin as (su & Heq & _). discriminate.
Qed.

(** C10. The [totalAmount] of every admin notification a successful
    checkout sends is [Math.round] of the unrounded binary64 total (the sum
    of price times quantity plus the product of that sum and 0.1), such a
    notification is sent when the user's record is found, and it can differ
    from the two-decimal total stored on the order and returned: at fifty
    pieces of 2.30 the stored total is 126.50 and the notification says
    126. *)
Theorem admin_notice_total_is_rounded :
  (forall lib env userId user_id dto w w' view,
     ObjectId_cast lib userId = Some user_id ->
     ObjectId_cast lib (new_ObjectId env) = Some (new_ObjectId env) ->
     OrdersService.createOrderFromCart lib env userId dto w = (inr view, w') ->
     exists order new,
       orders w' !! new_ObjectId env = Some order
       /\ OrdersService.v_total view = o_total order
       /\ o_total order
          = toFixed2 (PrimFloat.add (items_total (o_items order))
                                    (PrimFloat.mul (items_total (o_items order)) (cents 10)))
       /\ trace w' = trace w ++ new
       /\ (forall event payload,
             SentToAdmins event payload ∈ new ->
             on_totalAmount (no_orderData payload)
             = Math_round
                 (PrimFloat.add (items_total (o_items order))
                                (PrimFloat.mul (items_total (o_items order)) (cents 10))))
       /\ (forall user,
             users w !! user_id = Some user ->
             exists payload, SentToAdmins "new_order_notification" payload ∈ new))
  /\ (exists view w' payload,
        OrdersService.createOrderFromCart library env1 u1 dto0 shop_230 = (inr view, w')
        /\ SentToAdmins "new_order_notification" payload ∈ trace w'
        /\ on_totalAmount (no_orderData payload) = Number_of_Z 126
        /\ OrdersService.v_total view = cents 12650
        /\ on_totalAmount (no_orderData payload) <> OrdersService.v_total view).
Proof.
  split.
  - intros lib env userId user_id dto w w' view Hu Hnew Hrun.
    apply rt_createOrderFromCart_inr_inv in Hrun
      as (uid & items & acc & Hu' & Hc & Hne & He & _ & _ & _ & -> & ->); [|exact Hnew].
    rewrite Hu in Hu'. injection Hu' as <-.
    apply rt_checkItems_inr in He as (ois & sus & Ho & Hs & Hsub & _).
    simpl in Ho, Hs, Hsub. fold (items_total ois) in Hsub.
    eexists _, _. simpl. rewrite lookup_insert_eq.
    split; [reflexivity|]. split; [reflexivity|]. split.
    { simpl. rewrite Ho.
      unfold OrdersService.total_of, OrdersService.tax_of, OrdersService.taxRate.
      now rewrite Hsub. }
    split; [reflexivity|]. split.
    + intros event payload Hin.
      apply elem_of_cons in Hin as [Heq | Hin]; [discriminate|].
      apply elem_of_app in Hin as [Hin | Hin].
      * unfold admin_notice in Hin. destruct (users w !! user_id) as [user|].
        -- apply list_elem_of_singleton in Hin. injection Hin as -> ->. simpl.
           rewrite Ho.
           unfold OrdersService.total_of, OrdersService.tax_of, OrdersService.taxRate.
           now rewrite Hsub.
        -- now apply elem_of_nil in Hin.
      * apply elem_of_app in Hin as [Hin | Hin].
        -- now apply rt_stock_effect_not_notice in Hin.
        -- apply list_elem_of_singleton in Hin. discriminate.
    + intros user Hu'. unfold admin_notice. rewrite Hu'.
      eexists. apply elem_of_cons. right. apply elem_of_cons. now left.
  - eexists _, _, _. split; [vm_compute; reflexivity|].
    split; [apply elem_of_cons; right; apply elem_of_cons; left; reflexivity|].
    split; [vm_compute; reflexivity|]. split; [vm_compute; reflexivity|].
    intros H. apply (f_equal FloatOps.Prim2SF) in H. vm_compute in H. discriminate.
Qed.

(** On the sample cart the notification says 55. *)
Lemma admin_notice_total_is_rounded_witness :
  exists view w' payload,
    OrdersService.createOrderFromCart library env1 u1 dto0 shop_AB = (inr view, w')
    /\ SentToAdmins "new_order_notification" payload ∈ trace w'
    /\ on_totalAmount (no_orderData payload) = Number_of_Z 55.
Proof.
  destruct admin_notice_total_is_rounded as [H _].
  destruct (OrdersService.createOrderFromCart library env1 u1 dto0 shop_AB)
    as [[e|view] w'] eqn:Hrun; [vm_compute in Hrun; discriminate|].
  destruct (H library env1 u1 u1 dto0 shop_AB w' view eq_refl eq_refl Hrun)
    as (order & new & Ho & _ & _ & Ht & Hall & Hsome).
  destruct (Hsome ada eq_refl) as [payload Hin].
  exists view, w', payload. split; [reflexivity|].
  split.
  - rewrite Ht. apply elem_of_app. now right.
  - rewrite (Hall _ _ Hin). run_of Hrun. vm_compute in Ho. injection Ho as <-.
    vm_compute. reflexivity.
Defined.

End CheckoutNotice.

(** ** Checkout: which entry is reported, and what is written *)

Section MoreCheckout.
Import OrdersService.

Lemma checkItems_app (l1 l2 : list PopulatedCartItem) :
  forall acc,
    checkItems (l1 ++ l2) acc
    = match checkItems l1 acc with
      | inl e => inl e
      | inr acc' => checkItems l2 acc'
      end.
Proof.
  induction l1 as [|x l1 IH]; intros acc; simpl; [reflexivity|].
  destruct (checkItem acc x); [reflexivity | apply IH].
Qed.

Lemma checkItem_unavailable (w : World) (it : CartItem) (acc : Totals) :
  entry_unavailable w it ->
  checkItem acc (populate (products w) it) = inl (ProductUnavailable (reported_name w it)).
Proof.
  unfold entry_unavailable, reported_name, checkItem, populate. simpl.
  destruct (products w !! ci_productId it) as [p|]; simpl; [|reflexivity].
  now intros ->.
Qed.

Lemma checkItem_insufficient (w : World) (it : CartItem) (acc : Totals) (p : Product) :
  products w !! ci_productId it = Some p ->
  isActive p = true ->
  (stock p < ci_quantity it)%Z ->
  checkItem acc (populate (products w) it) = inl (InsufficientStock p (ci_quantity it)).
Proof.
  intros Hp Ha Hlt. unfold checkItem, populate. simpl. rewrite Hp. simpl. rewrite Ha. simpl.
  destruct (Z.ltb_spec (stock p) (ci_quantity it)); [reflexivity | lia].
Qed.

End MoreCheckout.

Lemma checkout_stops_at (env : Env) (userId : ObjectId) (dto : CreateOrderDto) (w : World)
    (good rest : list CartItem) (it : CartItem) (e : HttpException) :
  carts w !! userId = Some (good ++ it :: rest) ->
  Forall (entry_valid w) good ->
  (forall acc, OrdersService.checkItem acc (populate (products w) it) = inl e) ->
  OrdersService.createOrderFromCart env userId dto w = (inl e, w).
Proof.
  intros Hc Hgood He.
  destruct (checkItems_valid w good init_totals Hgood) as [acc Hacc].
  apply (createOrderFromCart_rejected env userId dto w _ _ Hc).
  rewrite map_app, checkItems_app, Hacc. simpl. now rewrite He.
Qed.

(** X1.  Checkout reports the first entry, in cart order, that cannot be
    ordered; for that entry a missing or inactive product is reported before
    its stock is looked at. *)
Theorem checkout_reports_first_offender
    (env : Env) (userId : ObjectId) (dto : CreateOrderDto) (w : World)
    (good rest : list CartItem) (it : CartItem) :
  carts w !! userId = Some (good ++ it :: rest) ->
  Forall (entry_valid w) good ->
  (entry_unavailable w it ->
   OrdersService.createOrderFromCart env userId dto w
   = (inl (ProductUnavailable (reported_name w it)), w))
  /\ (forall p,
        products w !! ci_productId it = Some p ->
        isActive p = true ->
        (stock p < ci_quantity it)%Z ->
        OrdersService.createOrderFromCart env userId dto w
        = (inl (InsufficientStock p (ci_quantity it)), w)).
Proof.
  intros Hc Hgood. split.
  - intros Hu. apply (checkout_stops_at env userId dto w good rest it _ Hc Hgood).
    intros acc. now apply checkItem_unavailable.
  - intros p Hp Ha Hlt. apply (checkout_stops_at env userId dto w good rest it _ Hc Hgood).
    intros acc. now apply checkItem_insufficient.
Qed.

(** Nine of B with five in stock is reported before the product that is
    gone, and the other way round when the two entries change places. *)
Lemma checkout_reports_first_offender_witness :
  OrdersService.createOrderFromCart env0 "u1" dto0 shop_offenders
  = (inl (InsufficientStock (plain "B" 10 5) 9), shop_offenders)
  /\ OrdersService.createOrderFromCart env0 "u1" dto0 shop_offenders'
     = (inl (ProductUnavailable "Unknown"), shop_offenders').
Proof.
  split.
  - destruct (checkout_reports_first_offender env0 "u1" dto0 shop_offenders
                [entry "pA" 2 None] [entry "pZ" 1 None] (entry "pB" 9 None)) as [_ H];
      [reflexivity | valid_entries |].
    apply (H (plain "B" 10 5)); [reflexivity | reflexivity | simpl; lia].
  - destruct (checkout_reports_first_offender env0 "u1" dto0 shop_offenders'
                [entry "pA" 2 None] [entry "pB" 9 None] (entry "pZ" 1 None)) as [H _];
      [reflexivity | valid_entries |].
    apply H. vm_compute. exact I.
Defined.

Section StockLastWrite.
Import OrdersService.

(** Stock writes reach a product only through [set_stock]. *)
Lemma apply_stock_lookup (sus : list StockUpdate) (pid : ObjectId) :
  forall ps,
    apply_stock sus ps !! pid = ps !! pid
    \/ exists su, su ∈ sus /\ su_productId su = pid
                  /\ apply_stock sus ps !! pid = set_stock (su_newStock su) <$> ps !! pid.
Proof.
  induction sus as [|su sus IH]; intros ps; [now left|].
  change (apply_stock (su :: sus) ps)
    with (apply_stock sus (alter (set_stock (su_newStock su)) (su_productId su) ps)).
  destruct (IH (alter (set_stock (su_newStock su)) (su_productId su) ps))
    as [Heq | (su' & Hin & Hid & Heq)].
  - rewrite Heq. destruct (decide (su_productId su = pid)) as [<-|Hne].
    + right. exists su. split; [apply list_elem_of_here|]. split; [done|].
      apply lookup_alter_eq.
    + left. now apply lookup_alter_ne.
  - right. exists su'. split; [now apply list_elem_of_further|]. split; [done|].
    rewrite Heq. destruct (decide (su_productId su = pid)) as [<-|Hne].
    + rewrite lookup_alter_eq. now destruct (ps !! su_productId su).
    + now rewrite lookup_alter_ne.
Qed.

Lemma apply_stock_last (l1 l2 : list StockUpdate) (su : StockUpdate) (ps : gmap ObjectId Product) :
  Forall (fun su' => su_productId su' <> su_productId su) l2 ->
  apply_stock (l1 ++ su :: l2) ps !! su_productId su
  = set_stock (su_newStock su) <$> ps !! su_productId su.
Proof.
  intros H2. unfold apply_stock. rewrite foldl_app. simpl.
  fold (apply_stock l1 ps).
  fold (apply_stock l2 (alter (set_stock (su_newStock su)) (su_productId su) (apply_stock l1 ps))).
  rewrite apply_stock_other by done. rewrite lookup_alter_eq.
  destruct (apply_stock_lookup l1 (su_productId su) ps) as [-> | (su' & _ & _ & ->)];
    [reflexivity|].
  now destruct (ps !! su_productId su).
Qed.

Lemma stock_writes_miss (w : World) (pid : ObjectId) (items : list CartItem)
    (sus : list StockUpdate) :
  Forall2 (stock_write_of w) items sus ->
  Forall (fun it => ci_productId it <> pid) items ->
  Forall (fun su => su_productId su <> pid) sus.
Proof.
  induction 1 as [|it su items sus (p & _ & ->) _ IH]; intros Hall; [constructor|].
  apply Forall_cons in Hall as [Hit Hall]. constructor; [exact Hit | now apply IH].
Qed.

End StockLastWrite.

(** X2.  After a successful checkout the stock of a product is what the last cart
    entry that refers to it wrote: the stock read at validation minus that
    entry's quantity, whatever the entries before it asked for; a product no
    entry refers to is as it was. *)
Theorem checkout_last_stock_write_wins
    (env : Env) (userId : ObjectId) (dto : CreateOrderDto) (w w' : World)
    (view : OrdersService.OrderView) :
  OrdersService.createOrderFromCart env userId dto w = (inr view, w') ->
  exists items,
    carts w !! userId = Some items
    /\ (forall before it after p,
          items = before ++ it :: after ->
          Forall (fun it' => ci_productId it' <> ci_productId it) after ->
          products w !! ci_productId it = Some p ->
          products w' !! ci_productId it
          = Some (set_stock (stock p - ci_quantity it) p))
    /\ (forall pid,
          Forall (fun it => ci_productId it <> pid) items ->
          products w' !! pid = products w !! pid).
Proof.
  intros Hrun.
  apply createOrderFromCart_inr_inv in Hrun as (items & acc & Hc & Hne & He & -> & ->).
  apply checkItems_inr in He as (ois & sus & _ & Hs & _ & _ & Hf2 & _).
  simpl in Hs. exists items. split; [done|]. simpl. rewrite Hs. split.
  - intros before it after p -> Hafter Hp.
    apply Forall2_app_inv_l in Hf2 as (s1 & s2' & Hf1 & Hf2 & ->).
    apply Forall2_cons_inv_l in Hf2 as (su & s2 & (p' & Hp' & ->) & Hf2 & ->).
    rewrite Hp in Hp'. injection Hp' as <-.
    set (su := {| OrdersService.su_productId := ci_productId it;
                  OrdersService.su_newStock := (stock p - ci_quantity it)%Z |}).
    change (ci_productId it) with (OrdersService.su_productId su).
    rewrite apply_stock_last.
    + simpl. now rewrite Hp.
    + exact (stock_writes_miss w _ _ _ Hf2 Hafter).
  - intros pid Hnone. apply apply_stock_other.
    exact (stock_writes_miss w _ _ _ Hf2 Hnone).
Qed.

(** Stock 10, variants of 2 and of 3: the stock ends at 7. *)
Lemma checkout_last_stock_write_wins_witness :
  exists view w',
    OrdersService.createOrderFromCart env0 "u1" dto0 shop_variants = (inr view, w')
    /\ products w' !! "pA" = Some (set_stock 7 (plain "A" 20 10)).
Proof.
  destruct (OrdersService.createOrderFromCart env0 "u1" dto0 shop_variants)
    as [[e|view] w'] eqn:Hrun; [vm_compute in Hrun; discriminate|].
  exists view, w'. split; [reflexivity|].
  destruct (checkout_last_stock_write_wins env0 "u1" dto0 shop_variants w' view Hrun)
    as (items & Hc & Hlast & _).
  apply (Hlast [entry "pA" 2 (Some "M")] (entry "pA" 3 (Some "L")) [] (plain "A" 20 10)).
  - vm_compute in Hc. now injection Hc as <-.
  - constructor.
  - reflexivity.
Defined.

(** X3.  A successful checkout leaves the users, the carts of the other
    users and the orders already on file alone, adds no product, and changes
    nothing of a product but its stock, which it never sets below 0. *)
Theorem checkout_frame
    (env : Env) (userId : ObjectId) (dto : CreateOrderDto) (w w' : World)
    (view : OrdersService.OrderView) :
  OrdersService.createOrderFromCart env userId dto w = (inr view, w') ->
  users w' = users w
  /\ (forall u, u <> userId -> carts w' !! u = carts w !! u)
  /\ (forall id, id <> new_ObjectId env -> orders w' !! id = orders w !! id)
  /\ (forall pid, products w !! pid = None -> products w' !! pid = None)
  /\ (forall pid p,
        products w !! pid = Some p ->
        products w' !! pid = Some p
        \/ exists s, (0 <= s)%Z /\ products w' !! pid = Some (set_stock s p)).
Proof.
  intros Hrun.
  apply createOrderFromCart_inr_inv in Hrun as (items & acc & Hc & Hne & He & -> & ->).
  apply checkItems_inr in He as (ois & sus & _ & Hs & _ & _ & Hf2 & Hv).
  simpl in Hs. simpl. rewrite Hs.
  split; [reflexivity|]. split; [intros u Hu; now apply lookup_alter_ne|].
  split; [intros id Hid; now apply lookup_insert_ne|].
  split.
  - intros pid Hnone.
    destruct (apply_stock_lookup sus pid (products w)) as [-> | (su & _ & _ & ->)];
      [done | now rewrite Hnone].
  - intros pid p Hp.
    destruct (apply_stock_lookup sus pid (products w)) as [-> | (su & Hin & Hid & ->)];
      [now left|].
    right. exists (OrdersService.su_newStock su). rewrite Hp. split; [|reflexivity].
    apply list_elem_of_lookup in Hin as [i Hi].
    destruct (Forall2_lookup_r _ _ _ _ _ Hf2 Hi) as (it & Hit & (p1 & Hp1 & ->)).
    rewrite Forall_lookup in Hv.
    destruct (Hv i it Hit) as (p0 & Hp0 & _ & Hq).
    rewrite Hp1 in Hp0. injection Hp0 as <-. simpl. lia.
Qed.

(** On the sample cart: the users are as before, no product appears, and A
    is as it was but for a stock that is not negative. *)
Lemma checkout_frame_witness :
  exists view w',
    OrdersService.createOrderFromCart env0 "u1" dto0 shop_AB = (inr view, w')
    /\ users w' = users shop_AB
    /\ products w' !! "pZ" = None
    /\ (products w' !! "pA" = Some (plain "A" 20 10)
        \/ exists s, (0 <= s)%Z /\ products w' !! "pA" = Some (set_stock s (plain "A" 20 10))).
Proof.
  destruct (OrdersService.createOrderFromCart env0 "u1" dto0 shop_AB)
    as [[e|view] w'] eqn:Hrun; [vm_compute in Hrun; discriminate|].
  exists view, w'. split; [reflexivity|].
  destruct (checkout_frame env0 "u1" dto0 shop_AB w' view Hrun) as (Hu & _ & _ & Hnone & Hsome).
  split; [exact Hu|]. split; [now apply Hnone | now apply Hsome].
Defined.

Section RoundingError.


Lemma cents (n : Z) : (n # 100 == inject_Z n * (1 # 100))%Q.
Proof. unfold Qeq, inject_Z. simpl. lia. Qed.



End RoundingError.



(** ** Status updates: only forward, and the order's frozen fields *)

Lemma allowed_rank (current next : OrderStatus) :
  allowed current next -> rank current < rank next.
Proof. destruct current, next; simpl; intros H; try contradiction; lia. Qed.

Lemma last_cons_default {A} (path : list A) :
  forall s d, List.last (s :: path) d = List.last path s.
Proof.
  induction path as [|s' path IH]; intros s d; [reflexivity|].
  change (List.last (s :: s' :: path) d) with (List.last (s' :: path) d).
  now rewrite !IH.
Qed.

(** X5.  Every accepted update moves the order forward, so a run of accepted
    updates is at most as long as the way left to the end of the life cycle. *)
Theorem status_updates_only_advance
    (env : Env) (orderId : ObjectId) (note : OrderStatus -> option string)
    (path : list OrderStatus) :
  forall (w w' : World) (o : Order),
    orders w !! orderId = Some o ->
    update_through env orderId note path w = (inr tt, w') ->
    rank (o_status o) + length path <= 4
    /\ exists o',
         orders w' !! orderId = Some o'
         /\ o_status o' = List.last path (o_status o)
         /\ rank (o_status o) + length path <= rank (o_status o').
Proof.
  induction path as [|s path IH]; intros w w' o Ho Hrun.
  - unfold update_through in Hrun. simpl in Hrun. injection Hrun as <-.
    split; [destruct (o_status o); simpl; lia|].
    exists o. simpl. repeat split; [done | lia].
  - destruct (allowed_decidable (o_status o) s) as [Hyes | Hno].
    + rewrite (update_through_step env orderId note s path w o Ho Hyes) in Hrun.
      apply (IH _ _ _ (after_status_update_order _ _ _ _ _)) in Hrun
        as (Hlen & o' & Ho' & Hs' & Hr').
      rewrite (applyStatus_status env {| status := s; statusNote := note s |}) in Hlen, Hs', Hr'.
      simpl in Hlen, Hs', Hr'. apply allowed_rank in Hyes.
      split; [simpl; lia|]. exists o'. split; [done|]. split; [|simpl; lia].
      rewrite Hs'. symmetry. apply last_cons_default.
    + exfalso. unfold update_through in Hrun. simpl in Hrun. unfold bind at 1 2 in Hrun.
      now rewrite (updateOrderStatus_rejected env orderId
                     {| status := s; statusNote := note s |} w o Ho Hno) in Hrun.
Qed.

(** From pending the four updates to delivered are accepted, and they use up
    the whole way. *)
Lemma status_updates_only_advance_witness :
  exists w' o',
    update_through env0 "o1" no_note [CONFIRMED; PROCESSING; SHIPPED; DELIVERED]
      (desk [("o1", placed PENDING None)]) = (inr tt, w')
    /\ orders w' !! "o1" = Some o'
    /\ o_status o' = DELIVERED
    /\ 4 <= rank (o_status o').
Proof.
  destruct (update_through env0 "o1" no_note [CONFIRMED; PROCESSING; SHIPPED; DELIVERED]
              (desk [("o1", placed PENDING None)])) as [[e|[]] w'] eqn:Hrun;
    [vm_compute in Hrun; discriminate|].
  destruct (status_updates_only_advance env0 "o1" no_note
              [CONFIRMED; PROCESSING; SHIPPED; DELIVERED]
              (desk [("o1", placed PENDING None)]) w' (placed PENDING None) eq_refl Hrun)
    as (_ & o' & Ho' & Hs & Hr).
  exists w', o'. repeat split; assumption.
Defined.

Section AdminRuns.
Import OrderManagementService.

Lemma applyUpdate_frozen (upd : UpdateData) (o : Order) :
  same_frozen_fields o (applyUpdate upd o).
Proof. repeat split. Qed.

Lemma applyUpdate_idem (upd : UpdateData) (o : Order) :
  applyUpdate upd (applyUpdate upd o) = applyUpdate upd o.
Proof. unfold applyUpdate. simpl. now destruct (ud_trackingNumber upd). Qed.

Lemma same_frozen_refl (o : Order) : same_frozen_fields o o.
Proof. repeat split. Qed.

Lemma orders_frozen_refl (w : World) : orders_frozen w w.
Proof. intros id. destruct (orders w !! id); [apply same_frozen_refl | exact I]. Qed.

Lemma orders_frozen_alter (w w' : World) (id : ObjectId) (upd : UpdateData) :
  orders w' = alter (applyUpdate upd) id (orders w) -> orders_frozen w w'.
Proof.
  intros Heq i. rewrite Heq. destruct (decide (id = i)) as [<-|Hne].
  - rewrite lookup_alter_eq. destruct (orders w !! id); simpl; [apply applyUpdate_frozen | exact I].
  - rewrite lookup_alter_ne by done. destruct (orders w !! i); [apply same_frozen_refl | exact I].
Qed.

(** Sending the notifications touches the trace only, whether or not it runs
    to the end. *)
Lemma notify_all_frame (send : ObjectId * Order -> OrderStatusData)
    (found : list (ObjectId * Order)) :
  forall w r w',
    for_of found
      (fun d =>
         await userId <- populated_userId d.2 in
         NotificationService.sendOrderStatusUpdate userId (send d)) w = (r, w') ->
    products w' = products w /\ carts w' = carts w
    /\ orders w' = orders w /\ users w' = users w.
Proof.
  induction found as [|d found IH]; intros w r w'; simpl.
  - intros [= <- <-]. done.
  - unfold bind at 1 2, populated_userId, bind at 1, get, ret. simpl.
    destruct (users w !! o_userId d.2); simpl.
    + intros Hrest. apply IH in Hrest. simpl in Hrest. exact Hrest.
    + unfold throw. intros [= <- <-]. done.
Qed.

(** With every owner on file all notifications go out, in order. *)
Lemma notify_all_run (send : ObjectId * Order -> OrderStatusData)
    (found : list (ObjectId * Order)) :
  forall w,
    Forall (fun d => is_Some (users w !! o_userId d.2)) found ->
    for_of found
      (fun d =>
         await userId <- populated_userId d.2 in
         NotificationService.sendOrderStatusUpdate userId (send d)) w
    = (inr tt,
       {| products := products w; carts := carts w; orders := orders w; users := users w;
          trace := trace w
                   ++ map (fun d => SentToUser (o_userId d.2) "order_status_update"
                                      (NotificationService.statusNotification (send d)))
                          found |}).
Proof.
  induction found as [|d found IH]; intros w Hall; simpl.
  - unfold ret. rewrite app_nil_r. now destruct w.
  - apply Forall_cons in Hall as [[u Hu] Hall].
    unfold bind at 1 2, populated_userId, bind at 1, get, ret. simpl. rewrite Hu. simpl.
    rewrite IH by exact Hall. simpl. now rewrite <- app_assoc.
Qed.

Lemma updateMany_lookup (upd : UpdateData) (m : gmap ObjectId Order) (ids : list ObjectId)
    (id : ObjectId) :
  foldr (fun i m => alter (applyUpdate upd) i m) m ids !! id
  = if decide (id ∈ ids) then applyUpdate upd <$> m !! id else m !! id.
Proof.
  induction ids as [|i ids IH]; simpl.
  - destruct (decide (id ∈ [])) as [Hin|]; [now apply elem_of_nil in Hin | reflexivity].
  - destruct (decide (i = id)) as [->|Hne].
    + rewrite lookup_alter_eq, IH.
      rewrite (decide_True (P := id ∈ id :: ids)) by apply list_elem_of_here.
      destruct (decide (id ∈ ids)); [|reflexivity].
      destruct (m !! id); simpl; [now rewrite applyUpdate_idem | reflexivity].
    + rewrite lookup_alter_ne by done. rewrite IH.
      destruct (decide (id ∈ ids)) as [Hin|Hnin].
      * rewrite decide_True; [reflexivity | now apply list_elem_of_further].
      * rewrite decide_False; [reflexivity|].
        intros Hin. apply elem_of_cons in Hin as [->|Hin]; contradiction.
Qed.

End AdminRuns.

Section AdminUpdateRuns.
Import OrderManagementService.

Variables (orderId : ObjectId) (s : OrderStatus) (trackingNumber adminNotes : option string)
          (w : World).

Lemma admin_update_missing :
  orders w !! orderId = None ->
  updateOrderStatus orderId s trackingNumber adminNotes w = (inl OrderNotFound, w).
Proof.
  intros Ho. unfold updateOrderStatus, bind, Order_findById, get, ret, throw. simpl.
  now rewrite Ho.
Qed.

Lemma admin_update_done (o : Order) (u : User) :
  orders w !! orderId = Some o ->
  users w !! o_userId o = Some u ->
  let upd := admin_update s trackingNumber adminNotes in
  updateOrderStatus orderId s trackingNumber adminNotes w
  = (inr {| ur_order := Some (applyUpdate upd o);
            ur_message := "Order status updated to " +:+ status_value s |},
     {| products := products w; carts := carts w;
        orders := alter (applyUpdate upd) orderId (orders w);
        users := users w;
        trace := trace w ++ [OrderUpdated orderId upd;
                             admin_notice_to orderId (applyUpdate upd o)] |}).
Proof.
  intros Ho Hu. cbv zeta.
  unfold updateOrderStatus, bind, Order_findById, get, ret, throw,
    Order_findByIdAndUpdate, populated_userId, bind, get, ret,
    NotificationService.sendOrderStatusUpdate, emit. simpl.
  rewrite Ho. simpl. rewrite lookup_alter_eq, Ho. simpl. rewrite Hu. simpl.
  unfold admin_update, admin_notice_to. simpl. now rewrite <- app_assoc.
Qed.

Lemma admin_update_orphan (o : Order) :
  orders w !! orderId = Some o ->
  users w !! o_userId o = None ->
  let upd := admin_update s trackingNumber adminNotes in
  updateOrderStatus orderId s trackingNumber adminNotes w
  = (inl (OtherError "Cannot read properties of null (reading '_id')"),
     {| products := products w; carts := carts w;
        orders := alter (applyUpdate upd) orderId (orders w);
        users := users w;
        trace := trace w ++ [OrderUpdated orderId upd] |}).
Proof.
  intros Ho Hu. cbv zeta.
  unfold updateOrderStatus, bind, Order_findById, get, ret, throw,
    Order_findByIdAndUpdate, populated_userId, bind, get, ret,
    NotificationService.sendOrderStatusUpdate, emit. simpl.
  rewrite Ho. simpl. rewrite lookup_alter_eq, Ho. simpl. rewrite Hu. reflexivity.
Qed.

End AdminUpdateRuns.

Section BulkRuns.
Import OrderManagementService.


Lemma bulk_empty (b : BulkOrderUpdate) (w : World) :
  orderIds b = [] ->
  bulkUpdateOrders b w = (inl (BadRequestException "Order IDs are required"), w).
Proof. intros H. unfold bulkUpdateOrders. now rewrite H. Qed.


Lemma bulk_unfold (b : BulkOrderUpdate) (w : World) :
  orderIds b <> [] ->
  bulkUpdateOrders b w
  = match for_of (bulk_matched b w)
            (fun d =>
               await userId <- populated_userId d.2 in
               NotificationService.sendOrderStatusUpdate userId
                 {| sd_orderId := d.1;
                    sd_status := status_value (bu_status b);
                    sd_trackingNumber := bu_trackingNumber b |})
            (bulk_written b w) with
    | (inl e, w') => (inl e, w')
    | (inr _, w') =>
        let modifiedCount := length (bulk_matched b w) in
        (inr {| br_success := true;
                br_affectedOrders := modifiedCount;
                br_status := bu_status b;
                br_message :=
                  pretty modifiedCount +:+ " orders updated to " +:+ status_value (bu_status b) |},
         w')
    end.
Proof.
  intros Hne. destruct b as [ids st tn notes]. simpl in Hne.
  destruct ids as [|i ids]; [done|]. reflexivity.
Qed.

End BulkRuns.

Lemma applyStatus_frozen (env : Env) (dto : UpdateOrderStatusDto) (o : Order) :
  same_frozen_fields o (OrdersService.applyStatus env dto o).
Proof.
  unfold OrdersService.applyStatus. destruct (truthy_str (statusNote dto)); repeat split.
Qed.

Lemma orders_frozen_insert (w w' : World) (id : ObjectId) (o o' : Order) :
  orders w !! id = Some o ->
  same_frozen_fields o o' ->
  orders w' = <[id := o']> (orders w) ->
  orders_frozen w w'.
Proof.
  intros Ho Hf Heq i. rewrite Heq. destruct (decide (id = i)) as [<-|Hne].
  - now rewrite lookup_insert_eq, Ho.
  - rewrite lookup_insert_ne by done. destruct (orders w !! i); [apply same_frozen_refl | exact I].
Qed.

Lemma orders_frozen_updateMany (w w' : World) (ids : list ObjectId) (upd : UpdateData) :
  orders w' = foldr (fun i m => alter (applyUpdate upd) i m) (orders w) ids ->
  orders_frozen w w'.
Proof.
  intros Heq i. rewrite Heq, updateMany_lookup.
  destruct (decide (i ∈ ids)), (orders w !! i); simpl;
    first [apply applyUpdate_frozen | apply same_frozen_refl | exact I].
Qed.

(** X6.  No status update, by the order service, the admin dashboard or in bulk,
    and whatever its outcome, adds or removes an order or changes an order's
    owner, number, items, amounts or address, or touches products, carts or
    users. *)
Theorem status_paths_keep_orders_frozen :
  (forall env orderId dto w,
     let w' := (OrdersService.updateOrderStatus env orderId dto w).2 in
     orders_frozen w w' /\ only_orders_touched w w')
  /\ (forall orderId s trackingNumber adminNotes w,
        let w' := (OrderManagementService.updateOrderStatus
                     orderId s trackingNumber adminNotes w).2 in
        orders_frozen w w' /\ only_orders_touched w w')
  /\ (forall bulkUpdate w,
        let w' := (OrderManagementService.bulkUpdateOrders bulkUpdate w).2 in
        orders_frozen w w' /\ only_orders_touched w w').
Proof.
  split; [|split].
  - intros env orderId dto w.
    destruct (orders w !! orderId) as [o|] eqn:Ho.
    + destruct (allowed_decidable (o_status o) (status dto)) as [Hyes|Hno].
      * rewrite (updateOrderStatus_accepted env orderId dto w o Ho Hyes). simpl.
        split; [|done].
        eapply orders_frozen_insert; [exact Ho | apply applyStatus_frozen | reflexivity].
      * rewrite (updateOrderStatus_rejected env orderId dto w o Ho Hno). simpl.
        split; [apply orders_frozen_refl | done].
    + rewrite (updateOrderStatus_missing env orderId dto w Ho). simpl.
      split; [apply orders_frozen_refl | done].
  - intros orderId s trackingNumber adminNotes w. cbv zeta.
    destruct (orders w !! orderId) as [o|] eqn:Ho.
    + destruct (users w !! o_userId o) as [u|] eqn:Hu.
      * rewrite (admin_update_done orderId s trackingNumber adminNotes w o u Ho Hu). simpl.
        split; [eapply orders_frozen_alter; reflexivity | repeat split].
      * rewrite (admin_update_orphan orderId s trackingNumber adminNotes w o Ho Hu). simpl.
        split; [eapply orders_frozen_alter; reflexivity | repeat split].
    + rewrite (admin_update_missing orderId s trackingNumber adminNotes w Ho). simpl.
      split; [apply orders_frozen_refl | repeat split].
  - intros b w. cbv zeta.
    destruct (OrderManagementService.orderIds b) as [|i ids] eqn:Hids.
    { rewrite (bulk_empty b w Hids). simpl. split; [apply orders_frozen_refl | repeat split]. }
    rewrite bulk_unfold by (rewrite Hids; discriminate).
    match goal with
    | |- context [for_of ?found ?body ?w0] =>
        destruct (for_of found body w0) as [r w1] eqn:Hrun
    end.
    apply (notify_all_frame
             (fun d => {| sd_orderId := d.1;
                          sd_status := status_value (OrderManagementService.bu_status b);
                          sd_trackingNumber := OrderManagementService.bu_trackingNumber b |}))
      in Hrun as (Hp & Hc & Ho & Hu). simpl in Hp, Hc, Ho, Hu.
    assert (Hw1 : orders_frozen w w1 /\ only_orders_touched w w1).
    { split; [|repeat split; done].
      eapply (orders_frozen_updateMany w w1 (OrderManagementService.orderIds b)). exact Ho. }
    destruct r; simpl; exact Hw1.
Qed.

(** ** The admin dashboard: single and bulk updates *)

(** X7.  The admin dashboard's single update, for an order whose owner is on
    file: any status is taken; a non-empty tracking number replaces the
    order's, an absent or empty one keeps it; the notes stay; and the owner is
    told the new status together with the order's tracking number. *)
Theorem admin_update_tracking_number
    (orderId : ObjectId) (s : OrderStatus) (trackingNumber adminNotes : option string)
    (w : World) (o : Order) (u : User) :
  orders w !! orderId = Some o ->
  users w !! o_userId o = Some u ->
  exists result w' o' payload,
    OrderManagementService.updateOrderStatus orderId s trackingNumber adminNotes w
    = (inr result, w')
    /\ OrderManagementService.ur_order result = Some o'
    /\ orders w' !! orderId = Some o'
    /\ o_status o' = s
    /\ o_trackingNumber o'
       = match trackingNumber with
         | Some t => if decide (t = "") then o_trackingNumber o else Some t
         | None => o_trackingNumber o
         end
    /\ o_orderNotes o' = o_orderNotes o
    /\ trace w'
       = trace w ++ [OrderUpdated orderId (admin_update s trackingNumber adminNotes);
                     SentToUser (o_userId o) "order_status_update" payload]
    /\ ou_status payload = status_value s
    /\ ou_trackingNumber payload = o_trackingNumber o'.
Proof.
  intros Ho Hu.
  eexists _, _, _, _.
  split; [exact (admin_update_done orderId s trackingNumber adminNotes w o u Ho Hu)|].
  simpl. rewrite lookup_alter_eq, Ho. simpl.
  repeat split.
  destruct trackingNumber as [t|]; simpl; [|reflexivity].
  now destruct (decide (t = "")).
Qed.

(** The pending order is shipped with a tracking number. *)
Lemma admin_update_tracking_number_witness :
  exists result w' o',
    OrderManagementService.updateOrderStatus "o2" SHIPPED (Some "TRK-7") None desk_two
    = (inr result, w')
    /\ orders w' !! "o2" = Some o'
    /\ o_status o' = SHIPPED
    /\ o_trackingNumber o' = Some "TRK-7".
Proof.
  destruct (admin_update_tracking_number "o2" SHIPPED (Some "TRK-7") None desk_two
              (placed PENDING None) ada eq_refl eq_refl)
    as (result & w' & o' & payload & Hrun & _ & Ho' & Hs & Ht & _).
  exists result, w', o'. repeat split; assumption.
Defined.


(** X9.  A bulk update with at least one id, all of them ObjectIds as
    [toString] writes them, writes the status (and a non-empty tracking
    number) to every order that is listed and on file, whatever else happens
    in the call; an order that is not listed is as before, and a listed id
    without an order is passed over.  (With an id in the list that is no
    ObjectId the first query throws and this does not apply.) *)
Theorem bulk_update_writes
    (b : OrderManagementService.BulkOrderUpdate) (w : World) :
  OrderManagementService.orderIds b <> [] ->
  Forall isObjectId (OrderManagementService.orderIds b) ->
  let w' := (OrderManagementService.bulkUpdateOrders b w).2 in
  (forall id o,
     id ∈ OrderManagementService.orderIds b ->
     orders w !! id = Some o ->
     exists o',
       orders w' !! id = Some o'
       /\ o_status o' = OrderManagementService.bu_status b
       /\ o_trackingNumber o'
          = match OrderManagementService.bu_trackingNumber b with
            | Some t => if decide (t = "") then o_trackingNumber o else Some t
            | None => o_trackingNumber o
            end)
  /\ (forall id,
        id ∉ OrderManagementService.orderIds b -> orders w' !! id = orders w !! id)
  /\ (forall id, orders w !! id = None -> orders w' !! id = None).
Proof.
  intros Hne _. cbv zeta. rewrite bulk_unfold by exact Hne.
  match goal with
  | |- context [for_of ?found ?body ?w0] =>
      destruct (for_of found body w0) as [r w1] eqn:Hrun
  end.
  apply (notify_all_frame
           (fun d => {| sd_orderId := d.1;
                        sd_status := status_value (OrderManagementService.bu_status b);
                        sd_trackingNumber := OrderManagementService.bu_trackingNumber b |}))
    in Hrun as (_ & _ & Ho & _). simpl in Ho.
  assert (Hw1 : orders (match r with
                        | inl e => (inl e, w1)
                        | inr _ =>
                            (inr (A := HttpException)
                               {| OrderManagementService.br_success := true;
                                  OrderManagementService.br_affectedOrders :=
                                    length (bulk_matched b w);
                                  OrderManagementService.br_status :=
                                    OrderManagementService.bu_status b;
                                  OrderManagementService.br_message :=
                                    pretty (length (bulk_matched b w))
                                    +:+ " orders updated to "
                                    +:+ status_value (OrderManagementService.bu_status b) |}, w1)
                        end).2 = orders w1) by now destruct r.
  cbv zeta. rewrite Hw1, Ho. clear Hw1 Ho.
  split; [|split].
  - intros id o Hin Hlook. rewrite updateMany_lookup, decide_True, Hlook by done. simpl.
    eexists. split; [reflexivity|]. simpl. split; [reflexivity|].
    destruct (OrderManagementService.bu_trackingNumber b) as [t|]; simpl; [|reflexivity].
    now destruct (decide (t = "")).
  - intros id Hnin. now rewrite updateMany_lookup, decide_False.
  - intros id Hnone. rewrite updateMany_lookup, Hnone. now destruct (decide _).
Qed.

(** The order of the customer who is gone is shipped and tracked, although
    the call cannot notify its owner. *)
Lemma bulk_update_writes_witness :
  exists o',
    orders (OrderManagementService.bulkUpdateOrders ship_tracked_ids desk_ids).2 !! Runtime.o7
    = Some o'
    /\ o_status o' = SHIPPED
    /\ o_trackingNumber o' = Some "TRK-7".
Proof.
  destruct (bulk_update_writes ship_tracked_ids desk_ids) as (H & _ & _); [discriminate| |].
  { repeat (constructor; [reflexivity|]). constructor. }
  apply (H Runtime.o7 (orphan PENDING)); [|reflexivity].
  apply list_elem_of_In. simpl. tauto.
Defined.

(** X10.  A bulk update without ids is refused and writes nothing; with ids,
    all of them ObjectIds as [toString] writes them, and the owners of the
    matched orders on file, it succeeds, first writes the matched orders and
    then sends one notification per matched order, each with the requested
    status and the tracking number of the request; the number of affected
    orders it reports is the number matched. *)
Theorem bulk_update_notifies_each_match
    (b : OrderManagementService.BulkOrderUpdate) (w : World) :
  (OrderManagementService.orderIds b = [] ->
   OrderManagementService.bulkUpdateOrders b w
   = (inl (BadRequestException "Order IDs are required"), w))
  /\ (OrderManagementService.orderIds b <> [] ->
      Forall isObjectId (OrderManagementService.orderIds b) ->
      Forall (fun d => is_Some (users w !! o_userId d.2)) (bulk_matched b w) ->
      exists result w',
        OrderManagementService.bulkUpdateOrders b w = (inr result, w')
        /\ OrderManagementService.br_affectedOrders result = length (bulk_matched b w)
        /\ trace w'
           = trace w
             ++ map (fun d => OrderUpdated d.1 (bulk_data b)) (bulk_matched b w)
             ++ map (bulk_notice b) (bulk_matched b w)).
Proof.
  split; [apply bulk_empty|].
  intros Hne _ Hall. rewrite bulk_unfold by exact Hne.
  rewrite (notify_all_run
             (fun d => {| sd_orderId := d.1;
                          sd_status := status_value (OrderManagementService.bu_status b);
                          sd_trackingNumber := OrderManagementService.bu_trackingNumber b |}))
    by exact Hall.
  eexists _, _. split; [reflexivity|]. simpl. split.
  - reflexivity.
  - now rewrite <- app_assoc.
Qed.

(** No ids: refused.  The delivered and the pending order: two writes, then
    two notifications, and two affected orders. *)
Lemma bulk_update_notifies_each_match_witness :
  OrderManagementService.bulkUpdateOrders
    {| OrderManagementService.orderIds := [];
       OrderManagementService.bu_status := SHIPPED;
       OrderManagementService.bu_trackingNumber := None;
       OrderManagementService.bu_notes := None |} desk_ids
  = (inl (BadRequestException "Order IDs are required"), desk_ids)
  /\ exists result w',
       OrderManagementService.bulkUpdateOrders ship_pair desk_ids = (inr result, w')
       /\ OrderManagementService.br_affectedOrders result = length (bulk_matched ship_pair desk_ids)
       /\ trace w'
          = trace desk_ids
            ++ map (fun d => OrderUpdated d.1 (bulk_data ship_pair)) (bulk_matched ship_pair desk_ids)
            ++ map (bulk_notice ship_pair) (bulk_matched ship_pair desk_ids).
Proof.
  split.
  - refine (proj1 (bulk_update_notifies_each_match _ desk_ids) _). reflexivity.
  - apply (bulk_update_notifies_each_match ship_pair desk_ids); [discriminate| |].
    + repeat (constructor; [reflexivity|]). constructor.
    + vm_compute. repeat (constructor; [eexists; reflexivity|]). constructor.
Defined.

(** ** Lookups, order numbers and the status endpoint *)


Section OrderNumber.

Lemma padStart3_below_1000 (n : Z) :
  (0 <= n < 1000)%Z -> String.length (padStart3 (pretty n)) = 3.
Proof.
  intros Hn.
  assert (Hall : forallb (fun k => Nat.eqb (String.length (padStart3 (pretty (Z.of_nat k)))) 3)
                         (seq 0 1000) = true) by (vm_compute; reflexivity).
  rewrite forallb_forall in Hall.
  specialize (Hall (Z.to_nat n)).
  rewrite Z2Nat.id in Hall by lia.
  apply Nat.eqb_eq, Hall, in_seq. lia.
Qed.

End OrderNumber.

(** X12.  For a random number in [0, 1) the order number is [ORD-], the time
    stamp in decimal, a dash and exactly three characters. *)
Theorem order_number_format (env : Env) :
  (0 <= Math_random env)%Q ->
  (Math_random env < 1)%Q ->
  exists suffix,
    OrdersService.generateOrderNumber env
    = "ORD-" +:+ pretty (Date_now env) +:+ "-" +:+ suffix
    /\ String.length suffix = 3.
Proof.
  intros H0 H1. eexists. split; [reflexivity|].
  apply padStart3_below_1000.
  pose proof (Qfloor_le (Math_random env * 1000)) as Hle.
  pose proof (Qlt_floor (Math_random env * 1000)) as Hlt.
  assert (Ha : (inject_Z (-1) < inject_Z (Qfloor (Math_random env * 1000)))%Q).
  { rewrite inject_Z_plus in Hlt. change (inject_Z 1) with 1%Q in Hlt.
    change (inject_Z (-1)) with (-1)%Q. lra. }
  assert (Hb : (inject_Z (Qfloor (Math_random env * 1000)) < inject_Z 1000)%Q).
  { change (inject_Z 1000) with 1000%Q. lra. }
  rewrite <- Zlt_Qlt in Ha, Hb. lia.
Qed.

(** With the random number 1/4 the suffix is 250. *)
Lemma order_number_format_witness :
  exists suffix,
    OrdersService.generateOrderNumber env0
    = "ORD-" +:+ pretty (Date_now env0) +:+ "-" +:+ suffix
    /\ String.length suffix = 3.
Proof.
  apply (order_number_format env0).
  - unfold Qle. simpl. lia.
  - unfold Qlt. simpl. lia.
Defined.



(** ** Order statistics *)

Section Statistics.
Import OrdersService.


Lemma count_in_cons (s : OrderStatus) (d : ObjectId * Order) (l : list (ObjectId * Order)) :
  count_in s (d :: l) = (if decide (o_status d.2 = s) then 1 else 0) + count_in s l.
Proof.
  unfold count_in. rewrite filter_cons.
  destruct (decide (o_status d.2 = s)) as [Heq|Hne].
  - rewrite decide_True by now apply bool_decide_pack. reflexivity.
  - rewrite decide_False; [reflexivity|]. intros H. now apply bool_decide_unpack in H.
Qed.




Lemma count_partition (l : list (ObjectId * Order)) :
  length l
  = count_in PENDING l + count_in CONFIRMED l + count_in PROCESSING l
    + count_in SHIPPED l + count_in DELIVERED l + count_in CANCELLED l.
Proof.
  induction l as [|d l IH]; [reflexivity|].
  rewrite !count_in_cons. simpl length. rewrite IH.
  destruct (o_status d.2); simpl; lia.
Qed.

End Statistics.

(** X14.  The statistics have no bucket for confirmed orders: the five counts
    they report add up to the total less the confirmed orders.  The report
    writes nothing. *)
Theorem statistics_leave_out_confirmed (w : World) :
  exists st,
    OrdersService.getOrderStatistics w = (inr st, w)
    /\ OrdersService.totalOrders st
       = OrdersService.pendingOrders st + OrdersService.processingOrders st
         + OrdersService.shippedOrders st + OrdersService.deliveredOrders st
         + OrdersService.cancelledOrders st
         + OrdersService.countDocuments CONFIRMED w.
Proof.
  eexists. split; [reflexivity|]. simpl.
  rewrite (count_partition (map_to_list (orders w))).
  unfold OrdersService.countDocuments, count_in. lia.
Qed.



(** ** The cart *)

Section CartLines.
Import CartService.

Lemma sameLine_key (pid : ObjectId) (sz col : option string) (it : CartItem) :
  sameLine pid sz col it = true <-> line_key it = (pid, sz, col).
Proof.
  unfold sameLine, line_key. rewrite !andb_true_iff, !bool_decide_eq_true.
  split; [intros [[-> ->] ->]; reflexivity | intros [= -> -> ->]; done].
Qed.

Lemma sameLine_not_key (pid : ObjectId) (sz col : option string) (it : CartItem) :
  sameLine pid sz col it = false <-> line_key it <> (pid, sz, col).
Proof.
  rewrite <- sameLine_key. destruct (sameLine pid sz col it); split; congruence.
Qed.

Lemma cart_count_shift (items : list CartItem) :
  forall a, foldl (fun count item => count + ci_quantity item)%Z a items
            = (a + cart_count items)%Z.
Proof.
  unfold cart_count. induction items as [|it items IH]; intros a; simpl; [lia|].
  rewrite (IH (a + ci_quantity it)%Z), (IH (0 + ci_quantity it)%Z). lia.
Qed.

Lemma cart_count_cons (it : CartItem) (items : list CartItem) :
  cart_count (it :: items) = (ci_quantity it + cart_count items)%Z.
Proof. unfold cart_count at 1. simpl. now rewrite cart_count_shift. Qed.

Lemma cart_count_app (l1 l2 : list CartItem) :
  cart_count (l1 ++ l2) = (cart_count l1 + cart_count l2)%Z.
Proof.
  induction l1 as [|it l1 IH]; simpl; [reflexivity|].
  rewrite !cart_count_cons, IH. lia.
Qed.

Lemma addQuantity_None (pid : ObjectId) (sz col : option string) (q : Z) (items : list CartItem) :
  addQuantity pid sz col q items = None
  <-> Forall (fun it => line_key it <> (pid, sz, col)) items.
Proof.
  induction items as [|it items IH]; simpl.
  - split; [constructor | reflexivity].
  - destruct (sameLine pid sz col it) eqn:Hs.
    + split; [discriminate|]. intros H. apply Forall_cons in H as [H _].
      apply sameLine_key in Hs. contradiction.
    + apply sameLine_not_key in Hs.
      destruct (addQuantity pid sz col q items); simpl.
      * split; [discriminate|]. intros H. apply Forall_cons in H as [_ H].
        apply IH in H. discriminate.
      * split; [|reflexivity]. intros _. constructor; [exact Hs | now apply IH].
Qed.

Lemma addQuantity_Some (pid : ObjectId) (sz col : option string) (q : Z) (items : list CartItem) :
  forall merged,
    addQuantity pid sz col q items = Some merged ->
    map line_key merged = map line_key items
    /\ cart_count merged = (cart_count items + q)%Z
    /\ exists before it after,
         items = before ++ it :: after
         /\ Forall (fun it' => line_key it' <> (pid, sz, col)) before
         /\ line_key it = (pid, sz, col)
         /\ merged = before ++ {| ci_productId := ci_productId it;
                                  ci_quantity := (ci_quantity it + q)%Z;
                                  ci_size := ci_size it;
                                  ci_color := ci_color it |} :: after.
Proof.
  induction items as [|it items IH]; simpl; intros merged; [discriminate|].
  destruct (sameLine pid sz col it) eqn:Hs.
  - intros [= <-]. simpl. split; [reflexivity|]. split.
    + rewrite !cart_count_cons. simpl. lia.
    + exists [], it, items. apply sameLine_key in Hs. repeat split; try done.
  - destruct (addQuantity pid sz col q items) as [m|]; simpl; [|discriminate].
    intros [= <-]. destruct (IH m eq_refl) as (Hk & Hc & before & it0 & after & -> & Hb & Hit & ->).
    simpl. split; [now rewrite Hk|]. split.
    + rewrite !cart_count_cons, Hc. lia.
    + exists (it :: before), it0, after. apply sameLine_not_key in Hs.
      repeat split; try done. now constructor.
Qed.

End CartLines.

Section CartRuns.
Import CartService.

Lemma getCart_run (userId : ObjectId) (w : World) (items : list CartItem) :
  carts w !! userId = Some items ->
  getCart userId w = (inr (cartView (map (populate (products w)) items)), w).
Proof.
  intros Hc. unfold getCart, bind, Cart_findOne_populate, bind, get, ret. simpl.
  now rewrite Hc.
Qed.

Lemma addToCart_run (userId : ObjectId) (dto : AddToCartDto) (w : World) (p : Product) :
  products w !! a_productId dto = Some p ->
  isActive p = true ->
  (a_quantity dto <= stock p)%Z ->
  let items := added dto (default [] (carts w !! userId)) in
  addToCart userId dto w
  = (inr (cartView (map (populate (products w)) items)), cart_saved userId items w).
Proof.
  intros Hp Ha Hq. cbv zeta.
  unfold addToCart, bind at 1, get. simpl. rewrite Hp, Ha. simpl.
  destruct (Z.ltb_spec (stock p) (a_quantity dto)) as [Hlt|_]; [lia|].
  unfold bind at 1, Cart_save. fold (added dto (default [] (carts w !! userId))).
  set (items := added dto (default [] (carts w !! userId))).
  rewrite (getCart_run userId _ items) by apply lookup_insert_eq.
  reflexivity.
Qed.

Lemma removeFromCart_run (userId : ObjectId) (dto : RemoveFromCartDto) (w : World)
    (items : list CartItem) :
  carts w !! userId = Some items ->
  let items' :=
    filter (fun item => negb (sameLine (r_productId dto) (r_size dto) (r_color dto) item)) items in
  removeFromCart userId dto w
  = (inr (cartView (map (populate (products w)) items')), cart_saved userId items' w).
Proof.
  intros Hc. cbv zeta.
  unfold removeFromCart, bind at 1, get. simpl. rewrite Hc.
  unfold bind at 1, Cart_save.
  match goal with |- context [filter ?P items] => set (items' := filter P items) end.
  rewrite (getCart_run userId _ items') by apply lookup_insert_eq.
  reflexivity.
Qed.

End CartRuns.

(** X16.  [addToCart] refuses a product that is missing or inactive, and a
    quantity above the product's stock, and then writes nothing. *)
Theorem add_to_cart_refusals
    (userId : ObjectId) (dto : CartService.AddToCartDto) (w : World) :
  (products w !! CartService.a_productId dto = None ->
   CartService.addToCart userId dto w = (inl (NotFoundException "Product not found"), w))
  /\ (forall p,
        products w !! CartService.a_productId dto = Some p ->
        (isActive p = false ->
         CartService.addToCart userId dto w
         = (inl (NotFoundException "Product not found"), w))
        /\ (isActive p = true ->
            (stock p < CartService.a_quantity dto)%Z ->
            CartService.addToCart userId dto w
            = (inl (BadRequestException
                      ("Only " +:+ pretty (stock p) +:+ " items available")), w))).
Proof.
  unfold CartService.addToCart, bind, get, throw. simpl. split.
  - now intros ->.
  - intros p ->. split.
    + now intros ->.
    + intros -> Hlt. simpl.
      destruct (Z.ltb_spec (stock p) (CartService.a_quantity dto)); [reflexivity | lia].
Qed.

(** A product that is not there, and five of a product with three in
    stock. *)
Lemma add_to_cart_refusals_witness :
  CartService.addToCart "u1" (add_request "pZ" 1 None) shop_short
  = (inl (NotFoundException "Product not found"), shop_short)
  /\ CartService.addToCart "u1" (add_request "pA" 5 None) shop_short
     = (inl (BadRequestException "Only 3 items available"), shop_short).
Proof.
  split.
  - destruct (add_to_cart_refusals "u1" (add_request "pZ" 1 None) shop_short) as [H _].
    now apply H.
  - destruct (add_to_cart_refusals "u1" (add_request "pA" 5 None) shop_short) as [_ H].
    destruct (H (plain "A" 20 3) eq_refl) as [_ H'].
    apply H'; [reflexivity | simpl; lia].
Defined.

(** X17.  [addToCart] of a whole quantity of at least 1 that the stock
    covers, for ids that are ObjectIds and a cart whose lines each have a
    quantity of at least 1 (as the cart schema asks), adds the quantity to the
    cart: to the first line with the same product, size and colour when there
    is one, as a new last line otherwise.  The count of pieces grows by the
    quantity, the other lines are as before, every line still has a quantity
    of at least 1, and a cart with one line per product, size and colour stays
    so. *)
Theorem add_to_cart_merges
    (userId : ObjectId) (dto : CartService.AddToCartDto) (w : World) (p : Product) :
  isObjectId userId ->
  isObjectId (CartService.a_productId dto) ->
  products w !! CartService.a_productId dto = Some p ->
  isActive p = true ->
  (1 <= CartService.a_quantity dto)%Z ->
  (CartService.a_quantity dto <= stock p)%Z ->
  let items := default [] (carts w !! userId) in
  Forall (fun it => (1 <= ci_quantity it)%Z) items ->
  exists view w' items',
    CartService.addToCart userId dto w = (inr view, w')
    /\ carts w' !! userId = Some items'
    /\ cart_count items' = (cart_count items + CartService.a_quantity dto)%Z
    /\ CartService.cv_itemCount view = cart_count items'
    /\ filter (fun it => line_key it <> added_key dto) items'
       = filter (fun it => line_key it <> added_key dto) items
    /\ Forall (fun it => (1 <= ci_quantity it)%Z) items'
    /\ (NoDup (map line_key items) -> NoDup (map line_key items'))
    /\ products w' = products w /\ orders w' = orders w
    /\ (forall u, u <> userId -> carts w' !! u = carts w !! u).
Proof.
  intros _ _ Hp Ha Hone Hq items Hlines.
  eexists _, _, _. split; [exact (addToCart_run userId dto w p Hp Ha Hq)|].
  simpl. rewrite lookup_insert_eq. split; [reflexivity|].
  fold items. unfold added.
  assert (Hcount : forall l : list CartItem,
             foldl (fun count line => (count + CartService.l_quantity line)%Z) 0%Z
                   (map CartService.cartLine (map (populate (products w)) l))
             = cart_count l).
  { intros l. unfold cart_count. generalize 0%Z.
    induction l as [|it l IH]; intros a; simpl; [reflexivity | apply IH]. }
  rewrite Hcount.
  destruct (CartService.addQuantity (CartService.a_productId dto) (CartService.a_size dto)
              (CartService.a_color dto) (CartService.a_quantity dto) items) as [merged|] eqn:Hm.
  - apply addQuantity_Some in Hm
      as (Hk & Hc & before & it & after & Hit & Hb & Hkey & ->).
    split; [exact Hc|]. split; [reflexivity|]. split.
    + rewrite Hit, !filter_app, !filter_cons.
      rewrite decide_False by (unfold line_key, added_key in *; simpl; tauto).
      now rewrite decide_False by (unfold added_key; tauto).
    + split.
      { rewrite Hit in Hlines. apply Forall_app in Hlines as [Hb' Hlines].
        apply Forall_cons in Hlines as [Hit' Ha'].
        apply Forall_app. split; [exact Hb'|]. constructor; [simpl; lia | exact Ha']. }
      split; [now rewrite Hk|]. split; [reflexivity|]. split; [reflexivity|].
      intros u Hu. now apply lookup_insert_ne.
  - apply addQuantity_None in Hm.
    split; [rewrite cart_count_app, cart_count_cons; simpl; unfold cart_count; simpl; lia|].
    split; [reflexivity|]. split.
    + rewrite filter_app, filter_cons.
      rewrite decide_False by (unfold line_key, added_key; simpl; tauto).
      now rewrite filter_nil, app_nil_r.
    + split.
      { apply Forall_app. split; [exact Hlines|]. constructor; [exact Hone | constructor]. }
      split.
      * intros Hnd. rewrite map_app. simpl. apply NoDup_app. split; [exact Hnd|].
        split; [|apply NoDup_singleton].
        intros k Hin Hk. apply list_elem_of_singleton in Hk. subst k.
        apply list_elem_of_fmap in Hin as (it & Heq & Hin).
        rewrite Forall_forall in Hm. apply (Hm it); [exact Hin|].
        now rewrite <- Heq.
      * split; [reflexivity|]. split; [reflexivity|].
        intros u Hu. now apply lookup_insert_ne.
Qed.

(** Three more of A in the sample cart: six pieces, still two lines. *)
Lemma add_to_cart_merges_witness :
  exists view w' items',
    CartService.addToCart Runtime.u1 (add_request Runtime.pA 3 None) shop_ids = (inr view, w')
    /\ carts w' !! Runtime.u1 = Some items'
    /\ cart_count items' = 6%Z
    /\ CartService.cv_itemCount view = cart_count items'
    /\ NoDup (map line_key items').
Proof.
  destruct (add_to_cart_merges Runtime.u1 (add_request Runtime.pA 3 None) shop_ids
              (plain "A" 20 10))
    as (view & w' & items' & Hrun & Hc & Hn & Hv & _ & _ & Hnd & _);
    [reflexivity | reflexivity | reflexivity | reflexivity | simpl; lia | simpl; lia | |].
  { repeat (constructor; [simpl; lia|]). constructor. }
  exists view, w', items'. repeat split; try assumption.
  apply Hnd. vm_compute. repeat (constructor; [rewrite ?elem_of_cons, elem_of_nil; intuition discriminate|]).
  constructor.
Defined.

Section CartMore.
Import CartService.

Lemma addQuantity_at (pid : ObjectId) (sz col : option string) (q : Z)
    (before after : list CartItem) (it : CartItem) :
  Forall (fun it' => line_key it' <> (pid, sz, col)) before ->
  line_key it = (pid, sz, col) ->
  addQuantity pid sz col q (before ++ it :: after)
  = Some (before ++ {| ci_productId := ci_productId it;
                       ci_quantity := (ci_quantity it + q)%Z;
                       ci_size := ci_size it;
                       ci_color := ci_color it |} :: after).
Proof.
  intros Hb Hit. induction Hb as [|it' before Hne _ IH]; simpl.
  - apply sameLine_key in Hit. now rewrite Hit.
  - apply sameLine_not_key in Hne. now rewrite Hne, IH.
Qed.

Lemma filter_keeps_others (pid : ObjectId) (sz col : option string) (items : list CartItem) :
  Forall (fun it => line_key it <> (pid, sz, col)) items ->
  filter (fun item => negb (sameLine pid sz col item)) items = items.
Proof.
  induction 1 as [|it items Hne _ IH]; [reflexivity|].
  rewrite filter_cons, IH. apply sameLine_not_key in Hne.
  rewrite decide_True; [reflexivity|]. now rewrite Hne.
Qed.

Lemma filter_drops_line (pid : ObjectId) (sz col : option string) (it : CartItem) :
  line_key it = (pid, sz, col) ->
  filter (fun item => negb (sameLine pid sz col item)) [it] = [].
Proof.
  intros Hk. apply sameLine_key in Hk. rewrite filter_cons, filter_nil.
  rewrite decide_False; [reflexivity|]. now rewrite Hk.
Qed.

End CartMore.

(** X18.  [addToCart] compares only the quantity being added with the stock.  When
    the line is already in the cart the merged quantity can exceed the stock;
    the cart is saved all the same, and a checkout that reaches the line then
    fails with [InsufficientStock] for the merged quantity. *)
Theorem merged_line_can_exceed_stock
    (env : Env) (userId : ObjectId) (dto : CartService.AddToCartDto)
    (createOrderDto : CreateOrderDto) (w : World) (p : Product)
    (before after : list CartItem) (it : CartItem) :
  carts w !! userId = Some (before ++ it :: after) ->
  Forall (fun it' => line_key it' <> added_key dto) before ->
  line_key it = added_key dto ->
  Forall (entry_valid w) before ->
  products w !! CartService.a_productId dto = Some p ->
  isActive p = true ->
  (CartService.a_quantity dto <= stock p)%Z ->
  (stock p < ci_quantity it + CartService.a_quantity dto)%Z ->
  exists view w',
    CartService.addToCart userId dto w = (inr view, w')
    /\ OrdersService.createOrderFromCart env userId createOrderDto w'
       = (inl (InsufficientStock p (ci_quantity it + CartService.a_quantity dto)), w').
Proof.
  intros Hc Hb Hit Hv Hp Ha Hq Hlt.
  eexists _, _. split; [exact (addToCart_run userId dto w p Hp Ha Hq)|].
  rewrite Hc. simpl. unfold added.
  rewrite (addQuantity_at _ _ _ _ before after it Hb Hit).
  set (it' := {| ci_productId := ci_productId it;
                 ci_quantity := (ci_quantity it + CartService.a_quantity dto)%Z;
                 ci_size := ci_size it; ci_color := ci_color it |}).
  assert (Hpid : ci_productId it = CartService.a_productId dto) by now injection Hit.
  apply (checkout_stops_at env userId createOrderDto _ before after it').
  - apply lookup_insert_eq.
  - exact Hv.
  - intros acc.
    apply (checkItem_insufficient
             (cart_saved userId (before ++ it' :: after) w) it' acc p); simpl;
      [now rewrite Hpid | done | done].
Qed.

(** Two of A in the cart, three in stock, two more are added: the cart holds
    four, and checkout refuses it. *)
Lemma merged_line_can_exceed_stock_witness :
  exists view w',
    CartService.addToCart "u1" (add_request "pA" 2 None) shop_near = (inr view, w')
    /\ OrdersService.createOrderFromCart env0 "u1" dto0 w'
       = (inl (InsufficientStock (plain "A" 20 3) 4), w').
Proof.
  apply (merged_line_can_exceed_stock env0 "u1" (add_request "pA" 2 None) dto0 shop_near
           (plain "A" 20 3) [] [] (entry "pA" 2 None)).
  - reflexivity.
  - constructor.
  - reflexivity.
  - constructor.
  - reflexivity.
  - reflexivity.
  - simpl. lia.
  - simpl. lia.
Defined.

(** X19.  Adding a line that was not in the cart, with a whole quantity of
    at least 1 that the stock covers, and removing it again gives the cart
    back as it was (an empty cart, if the user had none), for ids that are
    ObjectIds and a cart whose lines each have a quantity of at least 1 (as
    the cart schema asks). *)
Theorem add_then_remove_restores
    (userId : ObjectId) (dto : CartService.AddToCartDto) (w : World) (p : Product) :
  isObjectId userId ->
  isObjectId (CartService.a_productId dto) ->
  products w !! CartService.a_productId dto = Some p ->
  isActive p = true ->
  (1 <= CartService.a_quantity dto)%Z ->
  (CartService.a_quantity dto <= stock p)%Z ->
  Forall (fun it => (1 <= ci_quantity it)%Z) (default [] (carts w !! userId)) ->
  Forall (fun it => line_key it <> added_key dto) (default [] (carts w !! userId)) ->
  exists view1 w1 view2 w2,
    CartService.addToCart userId dto w = (inr view1, w1)
    /\ CartService.removeFromCart userId (removal_of dto) w1 = (inr view2, w2)
    /\ carts w2 !! userId = Some (default [] (carts w !! userId)).
Proof.
  intros _ _ Hp Ha _ Hq _ Hnew.
  eexists _, _, _, _. split; [exact (addToCart_run userId dto w p Hp Ha Hq)|].
  split; [apply removeFromCart_run, lookup_insert_eq|].
  simpl. rewrite lookup_insert_eq. f_equal.
  unfold added. rewrite (proj2 (addQuantity_None _ _ _ _ _) Hnew).
  rewrite filter_app, filter_keeps_others by exact Hnew.
  rewrite filter_drops_line by reflexivity. apply app_nil_r.
Qed.

(** A in size M is added to the sample cart and removed again. *)
Lemma add_then_remove_restores_witness :
  exists view1 w1 view2 w2,
    CartService.addToCart Runtime.u1 (add_request Runtime.pA 1 (Some "M")) shop_ids
    = (inr view1, w1)
    /\ CartService.removeFromCart Runtime.u1
         (removal_of (add_request Runtime.pA 1 (Some "M"))) w1
       = (inr view2, w2)
    /\ carts w2 !! Runtime.u1 = Some Runtime.cart_AB.
Proof.
  apply (add_then_remove_restores Runtime.u1 (add_request Runtime.pA 1 (Some "M")) shop_ids
           (plain "A" 20 10)).
  - reflexivity.
  - reflexivity.
  - reflexivity.
  - reflexivity.
  - simpl. lia.
  - simpl. lia.
  - repeat (constructor; [simpl; lia|]). constructor.
  - vm_compute. repeat (constructor; [discriminate|]). constructor.
Defined.

(** X20.  [clearCart] leaves the user with an empty cart, creating one if there was
    none; the count of pieces is then 0 and a checkout fails with
    [CartEmpty]. *)
Theorem clear_cart_then_checkout
    (env : Env) (userId : ObjectId) (dto : CreateOrderDto) (w : World) :
  exists w',
    CartService.clearCart userId w = (inr "Cart cleared successfully", w')
    /\ carts w' !! userId = Some []
    /\ CartService.getCartItemCount userId w' = (inr 0%Z, w')
    /\ OrdersService.createOrderFromCart env userId dto w' = (inl CartEmpty, w').
Proof.
  eexists. split; [reflexivity|].
  assert (Hc : carts (cart_saved userId [] w) !! userId = Some []) by apply lookup_insert_eq.
  split; [exact Hc|]. split.
  - unfold CartService.getCartItemCount, bind, get, ret. simpl.
    now rewrite lookup_insert_eq.
  - apply createOrderFromCart_empty. now right.
Qed.

(** X21.  Right after a successful checkout the cart service counts 0 pieces and
    shows an empty cart with totals 0.00, and a second checkout fails with
    [CartEmpty]: an order cannot be placed twice from one cart. *)
Theorem cart_after_checkout
    (env env2 : Env) (userId : ObjectId) (dto dto2 : CreateOrderDto) (w w' : World)
    (view : OrdersService.OrderView) :
  OrdersService.createOrderFromCart env userId dto w = (inr view, w') ->
  CartService.getCartItemCount userId w' = (inr 0%Z, w')
  /\ (exists cv,
        CartService.getCart userId w' = (inr cv, w')
        /\ CartService.cv_items cv = []
        /\ CartService.cv_itemCount cv = 0%Z
        /\ CartService.cv_subtotal cv = Some (0 # 100)%Q
        /\ CartService.cv_tax cv = Some (0 # 100)%Q
        /\ CartService.cv_total cv = Some (0 # 100)%Q)
  /\ OrdersService.createOrderFromCart env2 userId dto2 w' = (inl CartEmpty, w').
Proof.
  intros Hrun.
  apply createOrderFromCart_inr_inv in Hrun as (items & acc & Hc & _ & _ & _ & ->).
  assert (Hc' : carts (after_checkout env userId dto acc w) !! userId = Some []).
  { simpl. now rewrite lookup_alter_eq, Hc. }
  split; [|split].
  - unfold CartService.getCartItemCount, bind, get, ret.
    simpl. now rewrite lookup_alter_eq, Hc.
  - eexists. split; [exact (getCart_run userId _ [] Hc')|]. repeat split.
  - apply createOrderFromCart_empty. now right.
Qed.

(** After the sample checkout. *)
Lemma cart_after_checkout_witness :
  exists view w',
    OrdersService.createOrderFromCart env0 "u1" dto0 shop_AB = (inr view, w')
    /\ CartService.getCartItemCount "u1" w' = (inr 0%Z, w')
    /\ OrdersService.createOrderFromCart env0 "u1" dto0 w' = (inl CartEmpty, w').
Proof.
  destruct (OrdersService.createOrderFromCart env0 "u1" dto0 shop_AB)
    as [[e|view] w'] eqn:Hrun; [vm_compute in Hrun; discriminate|].
  destruct (cart_after_checkout env0 env0 "u1" dto0 dto0 shop_AB w' view Hrun)
    as (Hcount & _ & Hagain).
  now exists view, w'.
Defined.

Section CartPreview.
Import CartService.

Lemma linePrice_itemPrice (id : ObjectId) (p : Product) :
  (isOnSale p = true -> truthy_num (salePrice p) = true) ->
  exists q, linePrice (Some (id, p)) = Some q /\ (q == OrdersService.itemPrice p)%Q.
Proof.
  unfold linePrice, OrdersService.itemPrice. intros Hs.
  destruct (isOnSale p); simpl.
  - specialize (Hs eq_refl). rewrite Hs.
    destruct (salePrice p) as [sp|]; [|discriminate]. now exists sp.
  - destruct (Qeq_bool (price p) 0) eqn:H0; eexists; split; try reflexivity.
    apply Qeq_bool_iff in H0. now rewrite H0.
Qed.

Lemma linesSubtotal_None (lines : list CartLine) :
  foldl (fun subtotal line => plus_nan subtotal (l_itemTotal line)) None lines = None.
Proof. induction lines as [|l lines IH]; simpl; [reflexivity | exact IH]. Qed.

Lemma linesSubtotal_nan (lines : list CartLine) :
  forall s0,
    Exists (fun l => l_itemTotal l = None) lines ->
    foldl (fun subtotal line => plus_nan subtotal (l_itemTotal line)) s0 lines = None.
Proof.
  induction lines as [|l lines IH]; intros s0 Hex; [inversion Hex|].
  simpl. apply Exists_cons in Hex as [Hl | Hrest].
  - rewrite Hl. destruct s0; simpl; apply linesSubtotal_None.
  - now apply IH.
Qed.

Variable w : World.

Lemma preview_follows_checkout (items : list CartItem) :
  forall acc acc' s,
    Forall (sale_price_set w) items ->
    (s == OrdersService.subtotal acc)%Q ->
    OrdersService.checkItems (map (populate (products w)) items) acc = inr acc' ->
    exists s',
      foldl (fun subtotal line => plus_nan subtotal (l_itemTotal line)) (Some s)
            (map cartLine (map (populate (products w)) items)) = Some s'
      /\ (s' == OrdersService.subtotal acc')%Q.
Proof.
  induction items as [|it items IH]; simpl; intros acc acc' s Hs Heq.
  - intros [= <-]. now exists s.
  - apply Forall_cons in Hs as [Hit Hs].
    destruct (OrdersService.checkItem acc (populate (products w) it)) as [e|acc1] eqn:H1;
      [discriminate|].
    intros Hrest.
    unfold OrdersService.checkItem, populate in H1. simpl in H1.
    unfold cartLine at 1, populate at 1.
    cbn [productId quantity size color l_itemTotal map foldl].
    destruct (products w !! ci_productId it) as [p|] eqn:Hp; [|discriminate].
    cbn [fmap option_fmap option_map] in H1 |- *.
    destruct (negb (isActive p)); [discriminate|].
    destruct (stock p <? ci_quantity it)%Z; [discriminate|].
    injection H1 as <-.
    destruct (linePrice_itemPrice (ci_productId it) p (Hit p Hp)) as (q & Hlp & Hq).
    rewrite Hlp. cbn [fmap option_fmap option_map plus_nan].
    eapply (IH _ acc' (s + q * inject_Z (ci_quantity it))%Q Hs); [|exact Hrest].
    simpl. now rewrite Heq, Hq.
Qed.

End CartPreview.

(** X22.  The cart preview and the order agree: when a checkout succeeds and every
    product of the cart that is flagged on-sale has a sale price other than
    0, the subtotal, tax and total [getCart] showed for that cart are the
    figures stored in the order. *)
Theorem cart_preview_matches_order
    (env : Env) (userId : ObjectId) (dto : CreateOrderDto) (w w' : World)
    (items : list CartItem) (view : OrdersService.OrderView) :
  carts w !! userId = Some items ->
  Forall (sale_price_set w) items ->
  OrdersService.createOrderFromCart env userId dto w = (inr view, w') ->
  exists cv,
    CartService.getCart userId w = (inr cv, w)
    /\ CartService.cv_subtotal cv = Some (OrdersService.v_subtotal view)
    /\ CartService.cv_tax cv = Some (OrdersService.v_tax view)
    /\ CartService.cv_total cv = Some (OrdersService.v_total view)
    /\ CartService.cv_itemCount cv = cart_count items.
Proof.
  intros Hc Hs Hrun.
  apply createOrderFromCart_inr_inv in Hrun as (items' & acc & Hc' & _ & Hacc & -> & _).
  rewrite Hc in Hc'. injection Hc' as <-.
  eexists. split; [exact (getCart_run userId w items Hc)|].
  destruct (preview_follows_checkout w items init_totals acc 0%Q Hs) as (s' & Hfold & Hs');
    [reflexivity | exact Hacc |].
  unfold CartService.cartView, CartService.linesSubtotal. simpl.
  rewrite Hfold. simpl. repeat split.
  - f_equal. now apply toFixed2_comp.
  - f_equal. apply toFixed2_comp. unfold OrdersService.tax_of, OrdersService.taxRate.
    now rewrite Hs'.
  - f_equal. apply toFixed2_comp.
    unfold OrdersService.total_of, OrdersService.tax_of, OrdersService.taxRate.
    now rewrite Hs'.
  - clear. unfold cart_count. generalize 0%Z.
    induction items as [|it items IH]; intros a; simpl; [reflexivity | apply IH].
Qed.

(** One of A at 20 and two of R on sale at 15: the cart shows 50.00, 5.00 and
    55.00, and so does the order. *)
Lemma cart_preview_matches_order_witness :
  exists view w' cv,
    OrdersService.createOrderFromCart env0 "u1" dto0 shop_sale = (inr view, w')
    /\ CartService.getCart "u1" shop_sale = (inr cv, shop_sale)
    /\ CartService.cv_subtotal cv = Some (OrdersService.v_subtotal view)
    /\ CartService.cv_tax cv = Some (OrdersService.v_tax view)
    /\ CartService.cv_total cv = Some (OrdersService.v_total view)
    /\ OrdersService.v_total view = (5500 # 100)%Q.
Proof.
  destruct (OrdersService.createOrderFromCart env0 "u1" dto0 shop_sale)
    as [[e|view] w'] eqn:Hrun; [vm_compute in Hrun; discriminate|].
  destruct (cart_preview_matches_order env0 "u1" dto0 shop_sale w'
              [entry "pA" 1 None; entry "pR" 2 None] view)
    as (cv & Hcart & Hs & Ht & Htot & _); [reflexivity | | exact Hrun |].
  { repeat (constructor;
            [intros p Hp Hsale; vm_compute in Hp; injection Hp as <-;
             first [discriminate Hsale | reflexivity]|]).
    constructor. }
  exists view, w', cv. repeat split; try assumption.
  vm_compute in Hrun. now injection Hrun as <- _.
Defined.

(** X23.  One product flagged on-sale without a sale price turns the figures of the
    whole cart into [NaN]: the subtotal, tax and total of [getCart] are all
    [NaN], whatever else the cart holds. *)
Theorem cart_preview_nan
    (userId : ObjectId) (w : World) (items : list CartItem) :
  carts w !! userId = Some items ->
  Exists (sale_price_missing w) items ->
  exists cv,
    CartService.getCart userId w = (inr cv, w)
    /\ CartService.cv_subtotal cv = None
    /\ CartService.cv_tax cv = None
    /\ CartService.cv_total cv = None
    /\ CartService.cv_itemCount cv = cart_count items.
Proof.
  intros Hc Hex.
  eexists. split; [exact (getCart_run userId w items Hc)|].
  assert (Hnan : CartService.linesSubtotal
                   (map CartService.cartLine (map (populate (products w)) items)) = None).
  { apply linesSubtotal_nan. rewrite !Exists_fmap.
    eapply Exists_impl; [exact Hex|].
    intros it (p & Hp & Hsale & Hnone). unfold CartService.cartLine, populate. simpl.
    rewrite Hp. simpl. now rewrite Hsale, Hnone. }
  unfold CartService.cartView. simpl. rewrite Hnan. simpl. repeat split.
  clear. unfold cart_count. generalize 0%Z.
  induction items as [|it items IH]; intros a; simpl; [reflexivity | apply IH].
Qed.

(** One of A and one of the product without a sale price: no figures. *)
Lemma cart_preview_nan_witness :
  exists cv,
    CartService.getCart "u1" shop_unpriced = (inr cv, shop_unpriced)
    /\ CartService.cv_subtotal cv = None
    /\ CartService.cv_tax cv = None
    /\ CartService.cv_total cv = None
    /\ CartService.cv_itemCount cv = 2%Z.
Proof.
  apply (cart_preview_nan "u1" shop_unpriced [entry "pA" 1 None; entry "pN" 1 None]).
  - reflexivity.
  - apply Exists_cons_tl, Exists_cons_hd. exists unpriced. repeat split.
Defined.

Lemma preview_count (w : World) (items : list CartItem) :
  CartService.cv_itemCount (CartService.cartView (map (populate (products w)) items))
  = cart_count items.
Proof.
  unfold CartService.cartView, cart_count. simpl. generalize 0%Z.
  induction items as [|it items IH]; intros a; simpl; [reflexivity | apply IH].
Qed.

Lemma filter_other_lines (pid : ObjectId) (sz col : option string) (items : list CartItem) :
  filter (fun item => negb (CartService.sameLine pid sz col item)) items
  = filter (fun it => line_key it <> (pid, sz, col)) items.
Proof.
  apply list_filter_iff. intros it. rewrite <- sameLine_not_key.
  destruct (CartService.sameLine pid sz col it); simpl; intuition congruence.
Qed.

(** X24.  [removeFromCart] fails without a cart and writes nothing.  With a cart
    it drops every line of the product, size and colour, keeps the other
    lines as they are and in their order, and reports the count of what is
    left; removing the same line once more changes nothing. *)
Theorem remove_from_cart_drops_the_line
    (userId : ObjectId) (dto : CartService.RemoveFromCartDto) (w : World) :
  (carts w !! userId = None ->
   CartService.removeFromCart userId dto w = (inl (NotFoundException "Cart not found"), w))
  /\ (forall items,
        carts w !! userId = Some items ->
        exists view w' view2 w2,
          let items' := filter (fun it => line_key it <> removed_key dto) items in
          CartService.removeFromCart userId dto w = (inr view, w')
          /\ carts w' !! userId = Some items'
          /\ CartService.cv_itemCount view = cart_count items'
          /\ products w' = products w /\ orders w' = orders w
          /\ (forall u, u <> userId -> carts w' !! u = carts w !! u)
          /\ CartService.removeFromCart userId dto w' = (inr view2, w2)
          /\ carts w2 !! userId = Some items').
Proof.
  split.
  - intros Hc. unfold CartService.removeFromCart, bind, get, throw. simpl. now rewrite Hc.
  - intros items Hc. eexists _, _, _, _. cbv zeta.
    split; [exact (removeFromCart_run userId dto w items Hc)|].
    simpl. rewrite lookup_insert_eq.
    unfold removed_key. rewrite filter_other_lines.
    split; [reflexivity|]. split; [apply preview_count|].
    split; [reflexivity|]. split; [reflexivity|].
    split; [intros u Hu; now apply lookup_insert_ne|].
    split; [apply removeFromCart_run; apply lookup_insert_eq|].
    simpl. rewrite lookup_insert_eq. f_equal.
    rewrite filter_other_lines. rewrite list_filter_filter.
    apply list_filter_iff. intros it. tauto.
Qed.

(** The sample cart without its first line. *)
Lemma remove_from_cart_drops_the_line_witness :
  CartService.removeFromCart "u2"
    {| CartService.r_productId := "pA"; CartService.r_size := None;
       CartService.r_color := None |} shop_AB
  = (inl (NotFoundException "Cart not found"), shop_AB)
  /\ exists view w',
       CartService.removeFromCart "u1"
         {| CartService.r_productId := "pA"; CartService.r_size := None;
            CartService.r_color := None |} shop_AB = (inr view, w')
       /\ carts w' !! "u1" = Some [entry "pB" 1 None]
       /\ CartService.cv_itemCount view = 1%Z.
Proof.
  split.
  - refine (proj1 (remove_from_cart_drops_the_line "u2" _ shop_AB) _). reflexivity.
  - destruct (remove_from_cart_drops_the_line "u1"
                {| CartService.r_productId := "pA"; CartService.r_size := None;
                   CartService.r_color := None |} shop_AB) as [_ H].
    destruct (H cart_AB eq_refl) as (view & w' & _ & _ & Hrun & Hc & Hn & _).
    exists view, w'. repeat split; assumption.
Defined.

(** X25.  The two ways to count a cart agree: the [itemCount] of [getCart] is the
    number [getCartItemCount] returns, the sum of the quantities of the
    lines, and 0 for a user without a cart.  Neither writes anything. *)
Theorem cart_counts_agree (userId : ObjectId) (w : World) :
  exists cv,
    CartService.getCart userId w = (inr cv, w)
    /\ CartService.getCartItemCount userId w = (inr (CartService.cv_itemCount cv), w)
    /\ CartService.cv_itemCount cv = cart_count (default [] (carts w !! userId)).
Proof.
  destruct (carts w !! userId) as [items|] eqn:Hc.
  - eexists. split; [exact (getCart_run userId w items Hc)|].
    rewrite preview_count. split; [|reflexivity].
    unfold CartService.getCartItemCount, bind, get, ret. simpl. now rewrite Hc.
  - unfold CartService.getCartItemCount, CartService.getCart, Cart_findOne_populate,
      bind, get, ret. simpl. rewrite Hc. simpl.
    eexists. split; [reflexivity|]. split; reflexivity.
Qed.

(** ** The gateway's registry *)

Section Registry.
Import WebSocketGateway.

Lemma Map_set_keys (key value : string) (m : list (string * string)) :
  map fst (Map_set key value m)
  = if bool_decide (key ∈ map fst m) then map fst m else map fst m ++ [key].
Proof.
  induction m as [|[k v] m IH]; simpl; [reflexivity|].
  destruct (decide (k = key)) as [->|Hne]; simpl.
  - rewrite bool_decide_eq_true_2; [reflexivity | apply elem_of_cons; now left].
  - rewrite IH. destruct (bool_decide (key ∈ map fst m)) eqn:Hin.
    + apply bool_decide_eq_true in Hin.
      rewrite bool_decide_eq_true_2; [reflexivity | apply elem_of_cons; now right].
    + apply bool_decide_eq_false in Hin.
      rewrite bool_decide_eq_false_2; [reflexivity|].
      intros [?|?]%elem_of_cons; congruence.
Qed.

Lemma Map_set_fresh (key value : string) (m : list (string * string)) :
  key ∉ map fst m -> Map_set key value m = m ++ [(key, value)].
Proof.
  induction m as [|[k v] m IH]; simpl; intros Hnin; [reflexivity|].
  destruct (decide (k = key)) as [->|Hne].
  - exfalso. apply Hnin, elem_of_cons. now left.
  - rewrite IH; [reflexivity|]. intros Hin. apply Hnin, elem_of_cons. now right.
Qed.

Lemma sessionOf_app (clientId userId : string) (m rest : list (string * string)) :
  Forall (fun e => e.2 <> clientId) m ->
  sessionOf clientId (m ++ (userId, clientId) :: rest) = Some userId.
Proof.
  unfold sessionOf. induction 1 as [|e m He _ IH]; simpl.
  - rewrite filter_cons, decide_True; [reflexivity|].
    apply bool_decide_pack. reflexivity.
  - rewrite filter_cons, decide_False; [exact IH|].
    intros Hb. apply bool_decide_unpack in Hb. contradiction.
Qed.

Lemma Map_delete_absent (key : string) (m : list (string * string)) :
  key ∉ map fst m -> Map_delete key m = m.
Proof.
  unfold Map_delete. induction m as [|[k v] m IH]; intros Hnin; [reflexivity|].
  rewrite filter_cons, decide_True.
  - rewrite IH; [reflexivity|]. intros Hin. apply Hnin. simpl. apply elem_of_cons. now right.
  - simpl. destruct (decide (k = key)) as [->|Hne].
    + exfalso. apply Hnin. simpl. apply elem_of_cons. now left.
    + now rewrite bool_decide_eq_false_2.
Qed.

Lemma Map_delete_snoc (key value : string) (m : list (string * string)) :
  key ∉ map fst m -> Map_delete key (m ++ [(key, value)]) = m.
Proof.
  intros Hnin. unfold Map_delete. rewrite filter_app.
  fold (Map_delete key m). rewrite Map_delete_absent by exact Hnin.
  rewrite filter_cons, decide_False, filter_nil; [apply app_nil_r|].
  simpl. rewrite bool_decide_eq_true_2; [tauto | reflexivity].
Qed.

Lemma Map_delete_elem (key : string) (m : list (string * string)) (e : string * string) :
  e ∈ Map_delete key m <-> e ∈ m /\ e.1 <> key.
Proof.
  unfold Map_delete. rewrite list_elem_of_filter.
  destruct (decide (e.1 = key)) as [Heq|Hne].
  - rewrite bool_decide_eq_true_2 by exact Heq. simpl. tauto.
  - rewrite bool_decide_eq_false_2 by exact Hne. simpl. tauto.
Qed.

Lemma Map_set_keeps (key value : string) (m : list (string * string)) (e : string * string) :
  e ∈ m -> e.1 <> key -> e ∈ Map_set key value m.
Proof.
  induction m as [|[k v] m IH]; simpl; intros Hin Hne; [inversion Hin|].
  apply elem_of_cons in Hin as [->|Hin].
  - simpl in Hne. destruct (decide (k = key)); [done|]. apply elem_of_cons. now left.
  - destruct (decide (k = key)); apply elem_of_cons; right; [exact Hin | now apply IH].
Qed.

Lemma Map_set_sets (key value : string) (m : list (string * string)) :
  (key, value) ∈ Map_set key value m.
Proof.
  induction m as [|[k v] m IH]; simpl.
  - apply elem_of_cons. now left.
  - destruct (decide (k = key)) as [->|Hne]; apply elem_of_cons; [now left | now right].
Qed.

End Registry.

(** X26.  A socket that connects, joins the room of a user who had no session, and
    disconnects leaves the registry as it found it. *)
Theorem connect_join_disconnect_round_trip
    (clientId userId : string) (g : WebSocketGateway.Registry) :
  clientId ∉ WebSocketGateway.connectedClients g ->
  Forall (fun e => e.2 <> clientId) (WebSocketGateway.userSessions g) ->
  WebSocketGateway.isUserOnline userId g = false ->
  WebSocketGateway.handleDisconnect clientId
    (WebSocketGateway.handleJoinUserRoom clientId userId
       (WebSocketGateway.handleConnection clientId g)) = g.
Proof.
  intros Hc Hs Hoff. apply bool_decide_eq_false in Hoff.
  destruct g as [cs ss]. simpl in *.
  unfold WebSocketGateway.handleDisconnect, WebSocketGateway.handleJoinUserRoom,
    WebSocketGateway.handleConnection. simpl.
  rewrite Map_set_fresh by exact Hoff.
  rewrite sessionOf_app by exact Hs.
  rewrite Map_delete_snoc by exact Hoff.
  f_equal. apply set_eq. intros x.
  rewrite elem_of_difference, elem_of_union, !elem_of_singleton.
  split; [intros [[->|Hx] Hne]; done | intros Hx; split; [now right | congruence]].
Qed.

(** A second socket comes, joins the room of [u2] and goes. *)
Lemma connect_join_disconnect_round_trip_witness :
  WebSocketGateway.handleDisconnect "s2"
    (WebSocketGateway.handleJoinUserRoom "s2" "u2"
       (WebSocketGateway.handleConnection "s2" lobby)) = lobby.
Proof.
  apply (connect_join_disconnect_round_trip "s2" "u2" lobby).
  - simpl. intros H. apply elem_of_singleton in H. discriminate.
  - simpl. repeat (constructor; [discriminate|]). constructor.
  - reflexivity.
Defined.

(** X27.  [handleDisconnect] stops at the first session of the socket.  A socket
    that joined the rooms of two users is forgotten for one of them only:
    after the disconnect the socket is no longer connected, and one of the
    two users is still reported online with that socket as its session. *)
Theorem disconnect_leaves_stale_session
    (clientId user1 user2 : string) (g : WebSocketGateway.Registry) :
  user1 <> user2 ->
  let g' :=
    WebSocketGateway.handleDisconnect clientId
      (WebSocketGateway.handleJoinUserRoom clientId user2
         (WebSocketGateway.handleJoinUserRoom clientId user1 g)) in
  ((clientId ∉ WebSocketGateway.connectedClients g')
   /\ exists userId,
        (userId = user1 \/ userId = user2)
        /\ (userId, clientId) ∈ WebSocketGateway.userSessions g'
        /\ WebSocketGateway.isUserOnline userId g' = true).
Proof.
  intros Hne g'. split.
  { subst g'. simpl. rewrite elem_of_difference, elem_of_singleton. tauto. }
  subst g'. unfold WebSocketGateway.handleDisconnect. simpl.
  set (ss := WebSocketGateway.Map_set user2 clientId
               (WebSocketGateway.Map_set user1 clientId (WebSocketGateway.userSessions g))).
  assert (H1 : (user1, clientId) ∈ ss).
  { apply Map_set_keeps; [apply Map_set_sets | exact Hne]. }
  assert (H2 : (user2, clientId) ∈ ss) by apply Map_set_sets.
  assert (Hon : forall (u : string) (m : list (string * string)), (u, clientId) ∈ m ->
                  bool_decide (u ∈ map fst m) = true).
  { intros u m Hin. apply bool_decide_eq_true.
    apply (list_elem_of_fmap_2 fst) in Hin. exact Hin. }
  unfold WebSocketGateway.isUserOnline. simpl.
  destruct (WebSocketGateway.sessionOf clientId ss) as [u|] eqn:Hu.
  - destruct (decide (u = user1)) as [->|Hu1].
    + exists user2. split; [now right|].
      assert (Hin : (user2, clientId) ∈ WebSocketGateway.Map_delete user1 ss).
      { apply Map_delete_elem. split; [exact H2 | simpl; congruence]. }
      split; [exact Hin | now apply Hon].
    + exists user1. split; [now left|].
      assert (Hin : (user1, clientId) ∈ WebSocketGateway.Map_delete u ss).
      { apply Map_delete_elem. split; [exact H1 | simpl; congruence]. }
      split; [exact Hin | now apply Hon].
  - exists user1. split; [now left|]. split; [exact H1 | now apply Hon].
Qed.

(** A socket in the rooms of [u2] and [u3]: after it has gone one of the two
    still counts as online. *)
Lemma disconnect_leaves_stale_session_witness :
  ("s2" ∉ WebSocketGateway.connectedClients
            (WebSocketGateway.handleDisconnect "s2"
               (WebSocketGateway.handleJoinUserRoom "s2" "u3"
                  (WebSocketGateway.handleJoinUserRoom "s2" "u2" lobby))))
  /\ exists userId,
       (userId = "u2" \/ userId = "u3")
       /\ (userId, "s2") ∈ WebSocketGateway.userSessions
                             (WebSocketGateway.handleDisconnect "s2"
                                (WebSocketGateway.handleJoinUserRoom "s2" "u3"
                                   (WebSocketGateway.handleJoinUserRoom "s2" "u2" lobby)))
       /\ WebSocketGateway.isUserOnline userId
            (WebSocketGateway.handleDisconnect "s2"
               (WebSocketGateway.handleJoinUserRoom "s2" "u3"
                  (WebSocketGateway.handleJoinUserRoom "s2" "u2" lobby))) = true.
Proof.
  apply (disconnect_leaves_stale_session "s2" "u2" "u3" lobby). discriminate.
Defined.

(** X28.  [handleJoinUserRoom] registers the user: the user is online afterwards,
    nobody else's status changes, and the number of active users grows by
    one exactly when the user had no session. *)
Theorem join_user_room_registers
    (clientId userId : string) (g : WebSocketGateway.Registry) :
  let g' := WebSocketGateway.handleJoinUserRoom clientId userId g in
  (WebSocketGateway.isUserOnline userId g' = true
   /\ (forall other, other <> userId ->
         WebSocketGateway.isUserOnline other g' = WebSocketGateway.isUserOnline other g)
   /\ WebSocketGateway.getActiveUsersCount g'
      = (WebSocketGateway.getActiveUsersCount g
         + if WebSocketGateway.isUserOnline userId g then 0 else 1)%nat
   /\ WebSocketGateway.getConnectedClientsCount g'
      = WebSocketGateway.getConnectedClientsCount g).
Proof.
  intros g'. subst g'.
  unfold WebSocketGateway.isUserOnline, WebSocketGateway.getActiveUsersCount,
    WebSocketGateway.handleJoinUserRoom. simpl.
  rewrite <- !(length_map fst), !Map_set_keys.
  destruct (bool_decide (userId ∈ map fst (WebSocketGateway.userSessions g))) eqn:Hin.
  - repeat split; try done; lia.
  - apply bool_decide_eq_false in Hin. repeat split.
    + apply bool_decide_eq_true. apply elem_of_app. right. apply list_elem_of_singleton.
      reflexivity.
    + intros other Hne. apply bool_decide_ext. rewrite elem_of_app, list_elem_of_singleton.
      tauto.
    + now rewrite length_app.
Qed.

(** ** The checkout endpoint *)

(** X29.  The checkout endpoint and the customer's lookup fit together.  The
    endpoint has no [try]: what the service throws leaves it as thrown.  When
    it answers, the order number and the total of the answer are those of the
    order now on file; looking that order up as the same user gives the data
    of the answer back, and as any other user [Order not found]. *)
Theorem checkout_then_lookup
    (env : Env) (estimatedDelivery : string) (userId : ObjectId) (dto : CreateOrderDto)
    (w : World) :
  (forall e w',
     OrdersService.createOrderFromCart env userId dto w = (inl e, w') ->
     OrdersController.checkout env estimatedDelivery userId dto w = (inl e, w'))
  /\ (forall response w',
        OrdersController.checkout env estimatedDelivery userId dto w = (inr response, w') ->
        exists order,
          orders w' !! new_ObjectId env = Some order
          /\ o_userId order = userId
          /\ OrdersController.c_orderNumber response = o_orderNumber order
          /\ OrdersController.c_total response = o_total order
          /\ OrdersController.getMyOrder userId (new_ObjectId env) w'
             = (inr {| OrdersController.success := true;
                       OrdersController.message := "Order details retrieved successfully";
                       OrdersController.data := Some (OrdersController.c_data response) |}, w')
          /\ forall other,
               other <> userId ->
               OrdersController.getMyOrder other (new_ObjectId env) w'
               = (inr {| OrdersController.success := false;
                         OrdersController.message := "Order not found";
                         OrdersController.data := None |}, w')).
Proof.
  split.
  - intros e w' Hrun. unfold OrdersController.checkout, bind. now rewrite Hrun.
  - intros response w'. unfold OrdersController.checkout, bind.
    destruct (OrdersService.createOrderFromCart env userId dto w) as [[e|view] w1] eqn:Hrun;
      [discriminate|].
    unfold ret. intros [= <- <-].
    apply createOrderFromCart_inr_inv in Hrun as (items & acc & _ & _ & _ & -> & ->).
    exists (OrdersService.newOrder env userId dto acc). simpl.
    rewrite lookup_insert_eq. repeat split.
    + unfold OrdersController.getMyOrder, OrdersService.getOrderById, try_catch, bind, get, ret.
      simpl. rewrite lookup_insert_eq. simpl.
      destruct (decide (userId = userId)); [reflexivity | contradiction].
    + intros other Hne.
      unfold OrdersController.getMyOrder, OrdersService.getOrderById, try_catch, bind, get, ret,
        throw. simpl. rewrite lookup_insert_eq. simpl.
      destruct (decide (userId = other)); [congruence | reflexivity].
Qed.

(** The sample checkout through the endpoint, and an empty cart. *)
Lemma checkout_then_lookup_witness :
  OrdersController.checkout env0 "1/20/2024" "u1" dto0 (shop [] [])
  = (inl CartEmpty, shop [] [])
  /\ exists response w',
       OrdersController.checkout env0 "1/20/2024" "u1" dto0 shop_AB = (inr response, w')
       /\ OrdersController.c_orderNumber response = "ORD-1700000000000-250"
       /\ OrdersController.getMyOrder "u1" "o1" w'
          = (inr {| OrdersController.success := true;
                    OrdersController.message := "Order details retrieved successfully";
                    OrdersController.data := Some (OrdersController.c_data response) |}, w')
       /\ OrdersController.getMyOrder "u2" "o1" w'
          = (inr {| OrdersController.success := false;
                    OrdersController.message := "Order not found";
                    OrdersController.data := None |}, w').
Proof.
  split.
  - destruct (checkout_then_lookup env0 "1/20/2024" "u1" dto0 (shop [] [])) as [H _].
    apply H. vm_compute. reflexivity.
  - destruct (OrdersController.checkout env0 "1/20/2024" "u1" dto0 shop_AB)
      as [[e|response] w'] eqn:Hrun; [vm_compute in Hrun; discriminate|].
    destruct (checkout_then_lookup env0 "1/20/2024" "u1" dto0 shop_AB) as [_ H].
    destruct (H response w' Hrun) as (order & Ho & _ & Hn & _ & Hmine & Hother).
    exists response, w'. split; [reflexivity|]. split.
    + vm_compute in Hrun. now injection Hrun as <- _.
    + split; [exact Hmine | now apply Hother].
Defined.
